(** * sempy_labs: connections, dataflows, OneLake export and bulk Vertipaq scan

    A shallow embedding of four modules of [sempy_labs]

    - [_connections.py]         (module [Connections])
    - [_dataflows.py]           (module [Dataflows])
    - [_one_lake_integration.py] (module [OneLake])
    - [_vertipaq_bulk.py]       (module [VertipaqBulk])

    Python values that travel through JSON are the inductive [json]; a pandas
    DataFrame is a [Frame]; a function that performs I/O is a computation in
    the monad [M], which threads a [World] (the trace of observable events
    and the store of mutable DataFrame objects) and ends in [Ok], [Raise]
    or, for the one unbounded loop, [Diverge].  External collaborators
    (REST client, resolvers, Spark, the analyzer) are fields of an
    environment record: oracles the code calls, never code modelled here. *)

From Stdlib Require Import ZArith NArith List String Ascii Bool Lia Arith.
From Stdlib Require DecimalString DecimalZ DecimalFacts.
Import ListNotations.
Local Open Scope list_scope.
Local Open Scope string_scope.

(* ===================================================================== *)
(** * Part I.  Definitions *)
(* ===================================================================== *)

(** ** Strings as Python uses them *)

Module Str.

(** [x in xs] on a list of strings. *)
Definition mem (x : string) (xs : list string) : bool :=
  existsb (String.eqb x) xs.

(** [sep.join(xs)]. *)
Fixpoint join (sep : string) (xs : list string) : string :=
  match xs with
  | [] => EmptyString
  | [x] => x
  | x :: rest => x ++ sep ++ join sep rest
  end.

(** [repr] of a string that holds no quote, backslash or control
    character (all the constants of these modules are such strings). *)
Definition repr (s : string) : string := "'" ++ s ++ "'".

(** [repr] of a list of such strings: ['a', 'b']. *)
Definition repr_list (xs : list string) : string :=
  "[" ++ join ", " (map repr xs) ++ "]".

(** [s.replace(' ', '')]: every space removed. *)
Fixpoint remove_spaces (s : string) : string :=
  match s with
  | EmptyString => EmptyString
  | String c rest =>
      if Ascii.eqb c " "%char then remove_spaces rest
      else String c (remove_spaces rest)
  end.

(** [needle in haystack] for strings, as a proposition. *)
Definition occurs (needle haystack : string) : Prop :=
  exists pre post, haystack = pre ++ needle ++ post.

(** Line feed, for the multi-line literals of the source. *)
Definition nl : string := String (ascii_of_nat 10) EmptyString.

(** [list(dict.fromkeys(xs))] / [Series.unique()]: first occurrences, in order. *)
Fixpoint unique (xs : list string) : list string :=
  match xs with
  | [] => []
  | x :: rest => x :: filter (fun y => negb (String.eqb x y)) (unique rest)
  end.

End Str.

(** ** JSON values (the Python objects [response.json()] returns and the
       dictionaries the code builds as request bodies) *)

#[local] Set Warnings "-register-all".

Inductive json : Type :=
| JNull
| JBool (b : bool)
| JNum (z : Z)
| JStr (s : string)
| JArr (items : list json)
| JObj (members : list (string * json)).

(** An HTTP response as the code reads it: [status_code] and [json()]. *)
Record Response : Type := mkResponse {
  status_code : Z;
  body : json
}.

(** ** Exceptions and outcomes *)

Inductive exn : Type :=
| ValueError (msg : string)
| KeyError (key : string)
| NameError (name : string)
| TypeError (msg : string)
| AttributeError (msg : string)
| IndexError (msg : string)
| FabricHTTPException (response : Response)
| ExternalError (msg : string).   (* raised inside a collaborator *)

Inductive outcome (A : Type) : Type :=
| Ok (a : A)
| Raise (e : exn)
| Diverge.                        (* the loop did not finish within its fuel *)

Arguments Ok {A} a.
Arguments Raise {A} e.
Arguments Diverge {A}.

Module Json.

(** [d.get(key)] on the members of a dictionary: the first binding. *)
Fixpoint lookup (key : string) (members : list (string * json)) : option json :=
  match members with
  | [] => None
  | (k, v) :: rest => if String.eqb key k then Some v else lookup key rest
  end.

(** [type(x).__name__]. *)
Definition type_name (x : json) : string :=
  match x with
  | JNull => "NoneType"
  | JBool _ => "bool"
  | JNum _ => "int"
  | JStr _ => "str"
  | JArr _ => "list"
  | JObj _ => "dict"
  end.

(** [x.get(key, default)]: only dictionaries have [get]; on any other
    value the attribute lookup raises, naming the type of the value. *)
Definition get (x : json) (key : string) (default : json) : outcome json :=
  match x with
  | JObj members =>
      match lookup key members with
      | Some v => Ok v
      | None => Ok default
      end
  | _ => Raise (AttributeError ("'" ++ type_name x ++ "' object has no attribute 'get'"))
  end.

(** Truth value of a Python object ([if x]). *)
Definition truthy (x : json) : bool :=
  match x with
  | JNull => false
  | JBool b => b
  | JNum z => negb (Z.eqb z 0)
  | JStr s => negb (String.eqb s EmptyString)
  | JArr items => match items with [] => false | _ => true end
  | JObj members => match members with [] => false | _ => true end
  end.

(** The characters of a string, each as a one-character string. *)
Fixpoint chars (s : string) : list json :=
  match s with
  | EmptyString => []
  | String c rest => JStr (String c EmptyString) :: chars rest
  end.

(** [for i in x]: lists yield their items, dictionaries their keys,
    strings their characters; nothing else is iterable. *)
Definition iter (x : json) : outcome (list json) :=
  match x with
  | JArr items => Ok items
  | JObj members => Ok (map (fun kv => JStr (fst kv)) members)
  | JStr s => Ok (chars s)
  | _ => Raise (TypeError ("'" ++ type_name x ++ "' object is not iterable"))
  end.

(** [x[k1][k2]...] on nested dictionaries, [None] where a key is missing. *)
Fixpoint path (keys : list string) (x : json) : option json :=
  match keys with
  | [] => Some x
  | k :: rest =>
      match x with
      | JObj members =>
          match lookup k members with
          | Some v => path rest v
          | None => None
          end
      | _ => None
      end
  end.

(** [list(x.keys())]. *)
Definition keys (x : json) : list string :=
  match x with
  | JObj members => map fst members
  | _ => []
  end.

End Json.

(** ** pandas DataFrames *)

(** One cell: [NaN] is the float pandas fills in for a missing entry;
    [Val] holds a Python scalar; [Time] a [datetime]. *)
Inductive cell : Type :=
| NaN
| Val (v : json)
| Time (t : Z).

(** A row binds column labels to cells. *)
Definition Row : Type := list (string * cell).

Record Frame : Type := mkFrame {
  columns : list string;
  rows : list Row
}.

Module Pd.

(** [pd.DataFrame(columns=cols)]. *)
Definition empty (cols : list string) : Frame := mkFrame cols [].

(** [len(df)]. *)
Definition len (df : Frame) : nat := List.length (rows df).

Fixpoint row_get (c : string) (r : Row) : cell :=
  match r with
  | [] => NaN
  | (k, v) :: rest => if String.eqb c k then v else row_get c rest
  end.

Fixpoint row_set (c : string) (v : cell) (r : Row) : Row :=
  match r with
  | [] => [(c, v)]
  | (k, w) :: rest =>
      if String.eqb c k then (k, v) :: rest else (k, w) :: row_set c v rest
  end.

(** [df[c] = scalar]: the column is overwritten, or added as the last
    column, with the scalar in every row. *)
Definition set_col (c : string) (v : cell) (df : Frame) : Frame :=
  mkFrame
    (if Str.mem c (columns df) then columns df else (columns df ++ [c])%list)
    (map (row_set c v) (rows df)).

(** [df[c]]: the cells of one column; [KeyError] for an unknown label. *)
Definition get_col (c : string) (df : Frame) : outcome (list cell) :=
  if Str.mem c (columns df)
  then Ok (map (row_get c) (rows df))
  else Raise (KeyError c).

(** The first label of [cs] that is not a column of [df]. *)
Fixpoint first_missing (cs : list string) (have : list string) : option string :=
  match cs with
  | [] => None
  | c :: rest => if Str.mem c have then first_missing rest have else Some c
  end.

(** Reorder / restrict a row to the labels [cs]. *)
Definition align (cs : list string) (r : Row) : Row :=
  map (fun c => (c, row_get c r)) cs.

(** [df[cs]] with a list of labels: a new frame, or [KeyError]. *)
Definition select (cs : list string) (df : Frame) : outcome Frame :=
  match first_missing cs (columns df) with
  | Some c => Raise (KeyError c)
  | None => Ok (mkFrame cs (map (align cs) (rows df)))
  end.

(** The cell that [pd.DataFrame(new_data, index=[0])] makes of one value
    of [new_data]: a scalar is broadcast; a list must have the length of
    the index; a dictionary is read as a Series indexed by its keys, which
    are strings and so never the label 0. *)
Definition cell_of_value (v : json) : outcome cell :=
  match v with
  | JArr [x] => Ok (Val x)
  | JArr _ => Raise (ValueError "Length of values does not match length of index")
  | JObj _ => Ok NaN
  | _ => Ok (Val v)
  end.

Fixpoint row_of_record (new_data : list (string * json)) : outcome Row :=
  match new_data with
  | [] => Ok []
  | (k, v) :: rest =>
      match cell_of_value v with
      | Ok c =>
          match row_of_record rest with
          | Ok r => Ok ((k, c) :: r)
          | Raise e => Raise e
          | Diverge => Diverge
          end
      | Raise e => Raise e
      | Diverge => Diverge
      end
  end.

(** [pd.DataFrame(new_data, index=[0])]: one row, the keys as columns. *)
Definition of_record (new_data : list (string * json)) : outcome Frame :=
  match row_of_record new_data with
  | Ok r => Ok (mkFrame (map fst new_data) [r])
  | Raise e => Raise e
  | Diverge => Diverge
  end.

(** [pd.concat([a, b], ignore_index=True)]: the columns of [a], then the
    columns of [b] that [a] lacks; the rows of [a], then the rows of [b];
    a cell a frame does not have is [NaN]. *)
Definition concat (a b : Frame) : Frame :=
  let cs := (columns a ++ filter (fun c => negb (Str.mem c (columns a))) (columns b))%list in
  mkFrame cs (map (align cs) (rows a ++ rows b)%list).

(** [bool(x)] for one cell: [None] is false, [NaN] (a non-zero float) and
    a [datetime] are true. *)
Definition cell_truthy (c : cell) : bool :=
  match c with
  | NaN => true
  | Val v => Json.truthy v
  | Time _ => true
  end.

Definition row_map_col (c : string) (f : cell -> cell) (r : Row) : Row :=
  map (fun kv => if String.eqb c (fst kv) then (fst kv, f (snd kv)) else kv) r.

(** [df[[c]] = df[[c]].astype(bool)] for a column [c] of [df]. *)
Definition astype_bool (c : string) (df : Frame) : Frame :=
  mkFrame (columns df)
          (map (row_map_col c (fun x => Val (JBool (cell_truthy x)))) (rows df)).

(** [Series.replace(mapping)] on string cells. *)
Definition replace_cell (mapping : list (string * string)) (x : cell) : cell :=
  match x with
  | Val (JStr s) =>
      match find (fun kv => String.eqb s (fst kv)) mapping with
      | Some kv => Val (JStr (snd kv))
      | None => x
      end
  | _ => x
  end.

(** [df[c].replace(mapping, inplace=True)]: [KeyError] without the column. *)
Definition replace_col (c : string) (mapping : list (string * string)) (df : Frame)
  : outcome Frame :=
  match get_col c df with
  | Ok _ => Ok (mkFrame (columns df) (map (row_map_col c (replace_cell mapping)) (rows df)))
  | Raise e => Raise e
  | Diverge => Diverge
  end.

End Pd.

(** ** The world a call runs in *)

Inductive method : Type := GET | POST | DELETE.

(** The keyword under which a body is handed to the REST client. *)
Inductive sent_body : Type :=
| NoBody
| AsJson (j : json)        (* client.post(url, json=...)    *)
| AsPayload (j : json).    (* client.post(url, payload=...) *)

Record Request : Type := mkRequest {
  verb : method;
  url : string;
  sent : sent_body
}.

(** What an observer outside the process can see, in order. *)
Inductive event : Type :=
| Http (req : Request)                            (* one REST round-trip *)
| Resolve (resolver : string) (args : list string) (* a name-to-id resolver, itself a REST call *)
| Call (fn : string) (args : list string)          (* any other collaborator *)
| ExecuteTmsl (script workspace : string)
| SaveAsDeltaTable (dataframe : Frame) (delta_table_name write_mode : string)
                   (merge_schema : bool)
| Print (msg : string)
| PrintExn (e : exn).

(** The store holds the DataFrame objects that are mutated in place; a
    reference is a position in it. *)
Record World : Type := mkWorld {
  trace : list event;
  heap : list Frame
}.

Definition world0 : World := mkWorld [] [].

Definition M (A : Type) : Type := World -> outcome A * World.

Definition ret {A} (a : A) : M A := fun w => (Ok a, w).

Definition bind {A B} (c : M A) (k : A -> M B) : M B :=
  fun w =>
    match c w with
    | (Ok a, w') => k a w'
    | (Raise e, w') => (Raise e, w')
    | (Diverge, w') => (Diverge, w')
    end.

Definition raise {A} (e : exn) : M A := fun w => (Raise e, w).

Definition diverge {A} : M A := fun w => (Diverge, w).

(** The value or exception a collaborator answered with. *)
Definition lift {A} (o : outcome A) : M A := fun w => (o, w).

Definition emit (e : event) : M unit :=
  fun w => (Ok tt, mkWorld (trace w ++ [e])%list (heap w)).

(** [try: body except Exception as e: handler(e)]. *)
Definition try_except {A} (body : M A) (handler : exn -> M A) : M A :=
  fun w =>
    match body w with
    | (Raise e, w') => handler e w'
    | r => r
    end.

Declare Scope py_scope.
Delimit Scope py_scope with py.
Notation "x <- c ;; k" := (bind c (fun x => k))
  (at level 61, c at next level, right associativity) : py_scope.
Notation "c ;; k" := (bind c (fun _ => k))
  (at level 61, right associativity) : py_scope.
Local Open Scope py_scope.

(** [for x in xs: body(x)]. *)
Fixpoint for_each {A} (xs : list A) (body : A -> M unit) : M unit :=
  match xs with
  | [] => ret tt
  | x :: rest => body x ;; for_each rest body
  end.

(** A loop that rebinds one local variable ([df = pd.concat(...)]). *)
Fixpoint for_fold {A S} (xs : list A) (s : S) (body : S -> A -> M S) : M S :=
  match xs with
  | [] => ret s
  | x :: rest => s' <- body s x ;; for_fold rest s' body
  end.

Definition print (msg : string) : M unit := emit (Print msg).

(** Allocation of a fresh DataFrame object; the result is its reference. *)
Definition alloc (f : Frame) : M nat :=
  fun w => (Ok (List.length (heap w)), mkWorld (trace w) (heap w ++ [f])%list).

Fixpoint update_nth {A} (n : nat) (f : A -> A) (l : list A) : list A :=
  match l, n with
  | [], _ => []
  | x :: rest, O => f x :: rest
  | x :: rest, S n' => x :: update_nth n' f rest
  end.

(** In-place mutation of the object behind a reference. *)
Definition mutate (ref : nat) (f : Frame -> Frame) : M unit :=
  fun w => (Ok tt, mkWorld (trace w) (update_nth ref f (heap w))).

(** Reading the object behind a reference. *)
Definition deref (ref : nat) : M Frame :=
  fun w =>
    match nth_error (heap w) ref with
    | Some f => (Ok f, w)
    | None => (Raise (NameError "dangling reference"), w)
    end.

(** The REST client: an oracle from requests to responses (or to the
    exception the transport raised).  Every use is one [Http] event. *)
Definition Client : Type := Request -> outcome Response.

Definition send (client : Client) (req : Request) : M Response :=
  emit (Http req) ;; lift (client req).

(** The constants of [sempy_labs._icons] the four modules read. *)
Record Icons : Type := mkIcons {
  red_dot : string;
  green_dot : string;
  in_progress : string;
  model_bpa_name : string;
  severity_mapping : list (string * string)
}.

(** The requests of a trace, in order. *)
Definition http_requests (t : list event) : list Request :=
  flat_map (fun e => match e with Http req => [req] | _ => [] end) t.

(** The events of a trace that cross the network: REST calls and
    name-to-id resolutions. *)
Definition is_network (e : event) : bool :=
  match e with
  | Http _ | Resolve _ _ => true
  | _ => false
  end.

Definition network_calls (t : list event) : list event := filter is_network t.

(** The tables handed to [save_as_delta_table], in order. *)
Definition saved (t : list event) : list Frame :=
  flat_map (fun e => match e with SaveAsDeltaTable df _ _ _ => [df] | _ => [] end) t.

(** Running a computation from the initial world. *)
Definition run {A} (c : M A) : outcome A * World := c world0.
Definition result_of {A} (c : M A) : outcome A := fst (run c).
Definition trace_of {A} (c : M A) : list event := trace (snd (run c)).
Definition heap_of {A} (c : M A) : list Frame := heap (snd (run c)).

(** Sequencing of pure steps that may raise. *)
Definition and_then {A B} (o : outcome A) (k : A -> outcome B) : outcome B :=
  match o with
  | Ok a => k a
  | Raise e => Raise e
  | Diverge => Diverge
  end.

Notation "x <~ o ;; k" := (and_then o (fun x => k))
  (at level 61, o at next level, right associativity) : py_scope.

(** A value of type [Optional[str]] as it is put into a dictionary:
    [None] becomes null. *)
Definition optional (given : option string) : json :=
  match given with
  | Some v => JStr v
  | None => JNull
  end.

(** A global name the module reads but never binds. *)
Definition undefined_name {A} (name : string) : M A :=
  raise (NameError ("name '" ++ name ++ "' is not defined")).

(** ** Serialisation: JSON text and base64

    Text is carried as its UTF-8 bytes: a [string] is a sequence of bytes,
    and a character outside ASCII is the bytes of its encoding. *)

Module Base64.

(** The character of a sextet (0..63) in the standard alphabet. *)
Definition enc (n : N) : ascii :=
  if (n <? 26)%N then ascii_of_N (n + 65)
  else if (n <? 52)%N then ascii_of_N (n + 71)        (* 'a' = 97 = 26 + 71 *)
  else if (n <? 62)%N then ascii_of_N (n - 4)         (* '0' = 48 = 52 - 4  *)
  else if (n =? 62)%N then "+"%char
  else "/"%char.

(** The sextet of a character of the alphabet. *)
Definition dec (c : ascii) : option N :=
  let n := N_of_ascii c in
  if ((65 <=? n) && (n <=? 90))%N then Some (n - 65)%N
  else if ((97 <=? n) && (n <=? 122))%N then Some (n - 71)%N
  else if ((48 <=? n) && (n <=? 57))%N then Some (n + 4)%N
  else if (n =? 43)%N then Some 62%N
  else if (n =? 47)%N then Some 63%N
  else None.

(** [base64.b64encode]: three bytes become four characters; a last group
    of one or two bytes is padded with [=]. *)
Fixpoint encode (s : string) : string :=
  match s with
  | EmptyString => EmptyString
  | String a EmptyString =>
      let x := N_of_ascii a in
      String (enc (x / 4)) (String (enc ((x mod 4) * 16)) "==")
  | String a (String b EmptyString) =>
      let x := N_of_ascii a in
      let y := N_of_ascii b in
      String (enc (x / 4))
        (String (enc ((x mod 4) * 16 + y / 16))
           (String (enc ((y mod 16) * 4)) "="))
  | String a (String b (String c rest)) =>
      let x := N_of_ascii a in
      let y := N_of_ascii b in
      let z := N_of_ascii c in
      String (enc (x / 4))
        (String (enc ((x mod 4) * 16 + y / 16))
           (String (enc ((y mod 16) * 4 + z / 64))
              (String (enc (z mod 64)) (encode rest))))
  end.

Definition is_pad (c : ascii) : bool := Ascii.eqb c "="%char.

(** [base64.b64decode]: [None] for text that is not base64. *)
Fixpoint decode (s : string) : option string :=
  match s with
  | EmptyString => Some EmptyString
  | String c1 (String c2 (String c3 (String c4 rest))) =>
      match dec c1, dec c2 with
      | Some p, Some q =>
          let a := ascii_of_N (p * 4 + q / 16) in
          if is_pad c3 then
            if is_pad c4 then
              match rest with
              | EmptyString => Some (String a EmptyString)
              | _ => None
              end
            else None
          else
            match dec c3 with
            | Some r =>
                let b := ascii_of_N ((q mod 16) * 16 + r / 4) in
                if is_pad c4 then
                  match rest with
                  | EmptyString => Some (String a (String b EmptyString))
                  | _ => None
                  end
                else
                  match dec c4, decode rest with
                  | Some t, Some tail =>
                      Some (String a (String b
                             (String (ascii_of_N ((r mod 4) * 64 + t)) tail)))
                  | _, _ => None
                  end
            | None => None
            end
      | _, _ => None
      end
  | _ => None
  end.

End Base64.

Module JsonText.

(** The double quote. *)
Definition dquote : ascii := "034"%char.

Definition hex_digit (n : N) : ascii :=
  if (n <? 10)%N then ascii_of_N (n + 48) else ascii_of_N (n + 87).

Definition hex_value (c : ascii) : option N :=
  let n := N_of_ascii c in
  if ((48 <=? n) && (n <=? 57))%N then Some (n - 48)%N
  else if ((97 <=? n) && (n <=? 102))%N then Some (n - 87)%N
  else if ((65 <=? n) && (n <=? 70))%N then Some (n - 55)%N
  else None.

(** The text of one byte inside a JSON string literal: the quote and the
    backslash are escaped, control characters are written as escapes,
    every other byte stands for itself. *)
Definition escape_char (c : ascii) : string :=
  let n := N_of_ascii c in
  if (n =? 34)%N then String "\" (String dquote EmptyString)
  else if (n =? 92)%N then "\\"
  else if (n =? 10)%N then "\n"
  else if (n =? 13)%N then "\r"
  else if (n =? 9)%N then "\t"
  else if (n =? 8)%N then "\b"
  else if (n =? 12)%N then "\f"
  else if (n <? 32)%N
       then String "\" (String "u" (String "0" (String "0"
              (String (hex_digit (n / 16)) (String (hex_digit (n mod 16)) EmptyString)))))
  else String c EmptyString.

Fixpoint escape (s : string) : string :=
  match s with
  | EmptyString => EmptyString
  | String c rest => escape_char c ++ escape rest
  end.

(** A string literal. *)
Definition quote (s : string) : string :=
  String dquote (escape s ++ String dquote EmptyString).

(** An integer in decimal. *)
Definition number (z : Z) : string :=
  DecimalString.NilZero.string_of_int (Z.to_int z).

(** [json.dumps]: the separators are [", "] and [": "]. *)
Fixpoint dumps (j : json) : string :=
  match j with
  | JNull => "null"
  | JBool true => "true"
  | JBool false => "false"
  | JNum z => number z
  | JStr s => quote s
  | JArr items =>
      "[" ++ Str.join ", " (map dumps items) ++ "]"
  | JObj members =>
      "{" ++ Str.join ", " (map (fun kv => quote (fst kv) ++ ": " ++ dumps (snd kv)) members)
          ++ "}"
  end.

(** *** Reading JSON text back *)

Definition is_ws (c : ascii) : bool :=
  let n := N_of_ascii c in
  ((n =? 32) || (n =? 9) || (n =? 10) || (n =? 13))%N.

Fixpoint skip_ws (s : string) : string :=
  match s with
  | EmptyString => EmptyString
  | String c rest => if is_ws c then skip_ws rest else s
  end.

(** The byte a two-character escape stands for. *)
Definition unescape_short (e : ascii) : option ascii :=
  let n := N_of_ascii e in
  if (n =? 34)%N then Some dquote
  else if (n =? 92)%N then Some "\"%char
  else if (n =? 47)%N then Some "/"%char
  else if (n =? 110)%N then Some (ascii_of_N 10)
  else if (n =? 114)%N then Some (ascii_of_N 13)
  else if (n =? 116)%N then Some (ascii_of_N 9)
  else if (n =? 98)%N then Some (ascii_of_N 8)
  else if (n =? 102)%N then Some (ascii_of_N 12)
  else None.

(** The byte of a [\uXXXX] escape; escapes above 7F, which would need
    more than one byte, are never written by [escape] and are refused. *)
Definition unescape_hex (h1 h2 h3 h4 : ascii) : option ascii :=
  match hex_value h1, hex_value h2, hex_value h3, hex_value h4 with
  | Some a, Some b, Some c, Some d =>
      let n := (((a * 16 + b) * 16 + c) * 16 + d)%N in
      if (n <? 128)%N then Some (ascii_of_N n) else None
  | _, _, _, _ => None
  end.

Definition cons_result (c : ascii) (r : option (string * string))
  : option (string * string) :=
  match r with
  | Some (s, rest) => Some (String c s, rest)
  | None => None
  end.

(** The body of a string literal, after the opening quote, up to and
    including the closing quote: the string and the text that follows. *)
Fixpoint parse_body (s : string) : option (string * string) :=
  match s with
  | EmptyString => None
  | String c rest =>
      if Ascii.eqb c dquote then Some (EmptyString, rest)
      else if Ascii.eqb c "\"%char then
        match rest with
        | EmptyString => None
        | String e rest' =>
            if Ascii.eqb e "u"%char then
              match rest' with
              | String h1 (String h2 (String h3 (String h4 rest''))) =>
                  match unescape_hex h1 h2 h3 h4 with
                  | Some b => cons_result b (parse_body rest'')
                  | None => None
                  end
              | _ => None
              end
            else
              match unescape_short e with
              | Some b => cons_result b (parse_body rest')
              | None => None
              end
        end
      else if (N_of_ascii c <? 32)%N then None
      else cons_result c (parse_body rest)
  end.

Definition is_num_char (c : ascii) : bool :=
  let n := N_of_ascii c in
  (((48 <=? n) && (n <=? 57)) || (n =? 45))%N.

(** The longest prefix made of digits and minus signs, and the rest. *)
Fixpoint span_num (s : string) : string * string :=
  match s with
  | EmptyString => (EmptyString, EmptyString)
  | String c rest =>
      if is_num_char c
      then let (d, r) := span_num rest in (String c d, r)
      else (EmptyString, s)
  end.

Definition parse_number (s : string) : option (Z * string) :=
  let (d, rest) := span_num s in
  match DecimalString.NilZero.int_of_string d with
  | Some i => Some (Z.of_int i, rest)
  | None => None
  end.

(** [s] without the prefix [p]. *)
Fixpoint strip_prefix (p s : string) : option string :=
  match p, s with
  | EmptyString, _ => Some s
  | String a p', String b s' =>
      if Ascii.eqb a b then strip_prefix p' s' else None
  | String _ _, EmptyString => None
  end.

Definition literal (p : string) (v : json) (s : string) : option (json * string) :=
  match strip_prefix p s with
  | Some rest => Some (v, rest)
  | None => None
  end.

(** A recursive-descent reader; [fuel] bounds the nesting and the number
    of elements read. *)
Fixpoint parse_value (fuel : nat) (s : string) {struct fuel}
  : option (json * string) :=
  match fuel with
  | O => None
  | S n =>
      match skip_ws s with
      | EmptyString => None
      | String c rest =>
          if Ascii.eqb c dquote then
            match parse_body rest with
            | Some (str, r) => Some (JStr str, r)
            | None => None
            end
          else if Ascii.eqb c "["%char then
            match strip_prefix "]" (skip_ws rest) with
            | Some r => Some (JArr [], r)
            | None =>
                match parse_elements n rest with
                | Some (items, r) => Some (JArr items, r)
                | None => None
                end
            end
          else if Ascii.eqb c "{"%char then
            match strip_prefix "}" (skip_ws rest) with
            | Some r => Some (JObj [], r)
            | None =>
                match parse_members n rest with
                | Some (members, r) => Some (JObj members, r)
                | None => None
                end
            end
          else if Ascii.eqb c "n"%char then literal "ull" JNull rest
          else if Ascii.eqb c "t"%char then literal "rue" (JBool true) rest
          else if Ascii.eqb c "f"%char then literal "alse" (JBool false) rest
          else
            match parse_number (String c rest) with
            | Some (z, r) => Some (JNum z, r)
            | None => None
            end
      end
  end

with parse_elements (fuel : nat) (s : string) {struct fuel}
  : option (list json * string) :=
  match fuel with
  | O => None
  | S n =>
      match parse_value n s with
      | Some (v, r) =>
          match skip_ws r with
          | String c r' =>
              if Ascii.eqb c "]"%char then Some ([v], r')
              else if Ascii.eqb c ","%char then
                match parse_elements n r' with
                | Some (items, r'') => Some (v :: items, r'')
                | None => None
                end
              else None
          | EmptyString => None
          end
      | None => None
      end
  end

with parse_members (fuel : nat) (s : string) {struct fuel}
  : option (list (string * json) * string) :=
  match fuel with
  | O => None
  | S n =>
      match skip_ws s with
      | String q r0 =>
          if Ascii.eqb q dquote then
            match parse_body r0 with
            | Some (k, r1) =>
                match strip_prefix ":" (skip_ws r1) with
                | Some r2 =>
                    match parse_value n r2 with
                    | Some (v, r3) =>
                        match skip_ws r3 with
                        | String c r4 =>
                            if Ascii.eqb c "}"%char then Some ([(k, v)], r4)
                            else if Ascii.eqb c ","%char then
                              match parse_members n r4 with
                              | Some (members, r5) => Some ((k, v) :: members, r5)
                              | None => None
                              end
                            else None
                        | EmptyString => None
                        end
                    | None => None
                    end
                | None => None
                end
            | None => None
            end
          else None
      | EmptyString => None
      end
  end.

(** [json.loads]: the whole text must be one value. *)
Definition loads (s : string) : option json :=
  match parse_value (S (String.length s)) s with
  | Some (j, rest) =>
      match skip_ws rest with
      | EmptyString => Some j
      | _ => None
      end
  | None => None
  end.

End JsonText.

(** ** [sempy_labs._helper_functions]: [pagination] and [_conv_b64] *)

Module Helper.

(** Modelled from the spec: [pagination] of [sempy_labs._helper_functions]
    is not among the sources.  The spec (4.1): the server may paginate a
    collection via a continuation token; the client follows all
    continuation links, keeps every page in server order and terminates
    when a response carries no continuation token; no page-count bound is
    enforced.  The call site iterates the result as a list of page bodies.
    [fuel] bounds the number of further pages fetched; running out of it
    is [Diverge]. *)
Fixpoint follow (fuel : nat) (client : Client) (page : json) (seen : list json)
  : M (list json) :=
  token <- lift (Json.get page "continuationToken" JNull) ;;
  uri <- lift (Json.get page "continuationUri" JNull) ;;
  match token with
  | JNull => ret (seen ++ [page])%list
  | _ =>
      match fuel with
      | O => diverge
      | S fuel' =>
          match uri with
          | JStr u =>
              response <- send client (mkRequest GET u NoBody) ;;
              follow fuel' client (body response) (seen ++ [page])%list
          | _ => raise (TypeError "continuationUri is not a string")
          end
      end
  end.

(** Modelled from the spec: [pagination(client, response)], the entry point
    of the loop above, starting from the response already received. *)
Definition pagination (fuel : nat) (client : Client) (response : Response)
  : M (list json) :=
  follow fuel client (body response) [].

(** Modelled from the spec: [_conv_b64] of [sempy_labs._helper_functions]
    is not among the sources.  The spec (4.3): serialize the envelope to a
    byte string and encode it as base64 text. *)
Definition _conv_b64 (file : json) : string :=
  Base64.encode (JsonText.dumps file).

(** The inverse direction, for reading an encoded part back: base64 text
    to bytes, bytes to a JSON value. *)
Definition unconv_b64 (text : string) : option json :=
  match Base64.decode text with
  | Some bytes => JsonText.loads bytes
  | None => None
  end.

End Helper.

(** ** [_connections.py] *)

Module Connections.

Record Env : Type := mkEnv {
  client : Client;                                   (* fabric.FabricRestClient() *)
  resolve_connection_id : string -> outcome string;  (* _helper_functions *)
  icons : Icons
}.

Definition principal_types : list string :=
  ["Group"; "ServicePrincipal"; "ServicePrincipalProfile"; "User"].

Definition connection_roles : list string :=
  ["Owner"; "User"; "UserWithReshare"].

(** The columns [list_connections] declares for its result. *)
Definition connection_columns : list string :=
  [ "Connection Id"; "Connection Name"; "Gateway Id"; "Connectivity Type";
    "Connection Path"; "Connection Type"; "Privacy Level"; "Credential Type";
    "Single Sign on Type"; "Connection Encyrption"; "Skip Test Connection" ].

(** [credential_details.get(key) if credential_details else None]. *)
Definition credential_field (credential_details : json) (key : string)
  : outcome json :=
  if Json.truthy credential_details
  then Json.get credential_details key JNull
  else Ok JNull.

(** The dictionary [new_data] built for one item of the response. *)
Definition connection_new_data (i : json) : outcome (list (string * json)) :=
  connection_details <~ Json.get i "connectionDetails" (JObj []) ;;
  credential_details <~ Json.get i "credentialDetails" (JObj []) ;;
  id <~ Json.get i "id" JNull ;;
  displayName <~ Json.get i "displayName" JNull ;;
  gatewayId <~ Json.get i "gatewayId" JNull ;;
  connectivityType <~ Json.get i "connectivityType" JNull ;;
  path <~ Json.get connection_details "path" JNull ;;
  type <~ Json.get connection_details "type" JNull ;;
  privacyLevel <~ Json.get i "privacyLevel" JNull ;;
  credentialType <~ credential_field credential_details "credentialType" ;;
  singleSignOnType <~ credential_field credential_details "singleSignOnType" ;;
  connectionEncryption <~ credential_field credential_details "connectionEncryption" ;;
  skipTestConnection <~ credential_field credential_details "skipTestConnection" ;;
  Ok [ ("Connection Id", id);
       ("Connection Name", displayName);
       ("Gateway Id", gatewayId);
       ("Connectivity Type", connectivityType);
       ("Connection Path", path);
       ("Connection Type", type);
       ("Privacy Level", privacyLevel);
       ("Credential Type", credentialType);
       ("Single Sign On Type", singleSignOnType);
       ("Connection Encryption", connectionEncryption);
       ("Skip Test Connection", skipTestConnection) ].

(** One turn of the loop: [df = pd.concat([df, pd.DataFrame(new_data, index=[0])])]. *)
Definition append_record (new_data : json -> outcome (list (string * json)))
                         (df : Frame) (i : json) : outcome Frame :=
  d <~ new_data i ;;
  one <~ Pd.of_record d ;;
  Ok (Pd.concat df one).

Fixpoint append_records (new_data : json -> outcome (list (string * json)))
                        (df : Frame) (items : list json) : outcome Frame :=
  match items with
  | [] => Ok df
  | i :: rest =>
      df' <~ append_record new_data df i ;;
      append_records new_data df' rest
  end.

Definition list_connections (env : Env) : M Frame :=
  response <- send (client env) (mkRequest GET "/v1/connections" NoBody) ;;
  if negb (Z.eqb (status_code response) 200)
  then raise (FabricHTTPException response)
  else
    let df := Pd.empty connection_columns in
    value <- lift (Json.get (body response) "value" (JArr [])) ;;
    items <- lift (Json.iter value) ;;
    df <- lift (append_records connection_new_data df items) ;;
    ret (Pd.astype_bool "Skip Test Connection" df).

(** The three [create_connection_*] functions take [connectivity_type],
    [single_sign_on_type] and [encryption] as keyword arguments of type
    [Optional[str]] and put them into the body as given; a function below
    takes the values its body sees.  These are the values the signatures
    bind when the caller leaves an argument out. *)
Definition cloud_connectivity_type : option string := Some "ShareableCloud".
Definition on_prem_connectivity_type : option string := Some "OnPremisesDataGateway".
Definition vnet_connectivity_type : option string := Some "VirtualNetworkDataGateway".
Definition default_single_sign_on_type : option string := Some "None".
Definition default_encryption : option string := Some "Encyrpted".

(** The request body shared by the three [create_connection_*] functions
    up to the fields that differ. *)
Definition connection_details_sql (server_name database_name : string) : json :=
  JObj [ ("type", JStr "SQL");
         ("parameters",
          JArr [ JObj [("name", JStr "server"); ("value", JStr server_name)];
                 JObj [("name", JStr "database"); ("value", JStr database_name)] ]) ].

Definition cloud_request_body
    (connection_name server_name database_name credential_type user_name
     password privacy_level : string)
    (connectivity_type single_sign_on_type encryption : option string) : json :=
  JObj [ ("connectivityType", optional connectivity_type);
         ("name", JStr connection_name);
         ("connectionDetails", connection_details_sql server_name database_name);
         ("privacyLevel", JStr privacy_level);
         ("credentialDetails",
          JObj [ ("singleSignOnType", optional single_sign_on_type);
                 ("connectionEncryption", optional encryption);
                 ("skipTestConnection", JBool false);
                 ("credentials",
                  JObj [ ("credentialType", JStr credential_type);
                         ("username", JStr user_name);
                         ("password", JStr password) ]) ]) ].

Definition on_prem_request_body
    (connection_name gateway_id server_name database_name credential_type
     credentials privacy_level : string)
    (connectivity_type single_sign_on_type encryption : option string) : json :=
  JObj [ ("connectivityType", optional connectivity_type);
         ("gatewayId", JStr gateway_id);
         ("name", JStr connection_name);
         ("connectionDetails", connection_details_sql server_name database_name);
         ("privacyLevel", JStr privacy_level);
         ("credentialDetails",
          JObj [ ("singleSignOnType", optional single_sign_on_type);
                 ("connectionEncryption", optional encryption);
                 ("skipTestConnection", JBool false);
                 ("credentials",
                  JObj [ ("credentialType", JStr credential_type);
                         ("values",
                          JArr [ JObj [ ("gatewayId", JStr gateway_id);
                                        ("credentials", JStr credentials) ] ]) ]) ]) ].

Definition vnet_request_body
    (connection_name gateway_id server_name database_name user_name password
     credential_type privacy_level : string)
    (connectivity_type single_sign_on_type encryption : option string) : json :=
  JObj [ ("connectivityType", optional connectivity_type);
         ("gatewayId", JStr gateway_id);
         ("name", JStr connection_name);
         ("connectionDetails", connection_details_sql server_name database_name);
         ("privacyLevel", JStr privacy_level);
         ("credentialDetails",
          JObj [ ("singleSignOnType", optional single_sign_on_type);
                 ("connectionEncryption", optional encryption);
                 ("skipTestConnection", JBool false);
                 ("credentials",
                  JObj [ ("credentialType", JStr credential_type);
                         ("username", JStr user_name);
                         ("password", JStr password) ]) ]) ].

(** [response = client.post("/v1/connections", json=request_body)] and the
    status check that ends each of the three functions. *)
Definition post_connection (env : Env) (request_body : json) : M unit :=
  response <- send (client env) (mkRequest POST "/v1/connections" (AsJson request_body)) ;;
  if negb (Z.eqb (status_code response) 201)
  then raise (FabricHTTPException response)
  else ret tt.

Definition create_connection_cloud (env : Env)
    (connection_name server_name database_name credential_type user_name
     password privacy_level : string)
    (connectivity_type single_sign_on_type encryption : option string) : M unit :=
  post_connection env
    (cloud_request_body connection_name server_name database_name credential_type
       user_name password privacy_level connectivity_type single_sign_on_type
       encryption).

Definition create_connection_on_prem (env : Env)
    (connection_name gateway_id server_name database_name credential_type
     credentials privacy_level : string)
    (connectivity_type single_sign_on_type encryption : option string) : M unit :=
  post_connection env
    (on_prem_request_body connection_name gateway_id server_name database_name
       credential_type credentials privacy_level connectivity_type
       single_sign_on_type encryption).

Definition create_connection_vnet (env : Env)
    (connection_name gateway_id server_name database_name user_name password
     credential_type privacy_level : string)
    (connectivity_type single_sign_on_type encryption : option string) : M unit :=
  post_connection env
    (vnet_request_body connection_name gateway_id server_name database_name
       user_name password credential_type privacy_level connectivity_type
       single_sign_on_type encryption).

(** [connection_id = resolve_connection_id(connection_name=connection_name)]. *)
Definition resolve (env : Env) (connection_name : string) : M string :=
  emit (Resolve "resolve_connection_id" [connection_name]) ;;
  lift (resolve_connection_id env connection_name).

Definition invalid_principal_type (ic : Icons) (principal_type : string) : string :=
  red_dot ic ++ " '" ++ principal_type
    ++ "' is not a valid 'principal_type'. Valid options: "
    ++ Str.repr_list principal_types ++ ".".

Definition invalid_role (ic : Icons) (role : string) : string :=
  red_dot ic ++ " '" ++ role ++ "' is not a valid 'role'. Valid options: "
    ++ Str.repr_list connection_roles ++ ".".

Definition role_assignment_payload (email_address principal_type role : string) : json :=
  JObj [ ("principal",
          JObj [ ("id", JStr email_address); ("type", JStr principal_type) ]);
         ("role", JStr role) ].

Definition add_connection_role_assignemnt (env : Env)
    (connection_name email_address principal_type role : string) : M unit :=
  connection_id <- resolve env connection_name ;;
  if negb (Str.mem principal_type principal_types)
  then raise (ValueError (invalid_principal_type (icons env) principal_type))
  else if negb (Str.mem role connection_roles)
  then raise (ValueError (invalid_role (icons env) role))
  else
    let payload := role_assignment_payload email_address principal_type role in
    response <- send (client env)
                  (mkRequest POST ("/v1/connections/" ++ connection_id ++ "/roleAssignments")
                             (AsPayload payload)) ;;
    if negb (Z.eqb (status_code response) 201)
    then raise (FabricHTTPException response)
    else
      print (green_dot (icons env) ++ " The '" ++ email_address
             ++ "' user was added as a '" ++ role ++ "' role to the '"
             ++ connection_name ++ "' connection.").

Definition delete_connection (env : Env) (connection_name : string) : M unit :=
  connection_id <- resolve env connection_name ;;
  response <- send (client env)
                (mkRequest DELETE ("/v1/connections/" ++ connection_id) NoBody) ;;
  if negb (Z.eqb (status_code response) 200)
  then raise (FabricHTTPException response)
  else
    print (green_dot (icons env) ++ " The '" ++ connection_name
           ++ "' connection has been deleted.").

(** The columns [list_connection_role_assignments] declares. *)
Definition role_assignment_columns : list string :=
  [ "Connection Role Assignment Id"; "Principal Id"; "Principal Type"; "Role" ].

Definition role_assignment_new_data (v : json) : outcome (list (string * json)) :=
  id <~ Json.get v "id" JNull ;;
  princiapl <~ Json.get v "princiapl" (JObj []) ;;
  principal_id <~ Json.get princiapl "id" JNull ;;
  principal <~ Json.get v "principal" (JObj []) ;;
  principal_type <~ Json.get principal "type" JNull ;;
  role <~ Json.get v "role" JNull ;;
  Ok [ ("Connection Role Assignment Id", id);
       ("Principal Id", principal_id);
       ("Princiapl Type", principal_type);
       ("Role", role) ].

(** [for r in responses: for v in r.get('value', []): ...]. *)
Fixpoint append_pages (df : Frame) (responses : list json) : outcome Frame :=
  match responses with
  | [] => Ok df
  | r :: rest =>
      value <~ Json.get r "value" (JArr []) ;;
      items <~ Json.iter value ;;
      df' <~ append_records role_assignment_new_data df items ;;
      append_pages df' rest
  end.

Definition list_connection_role_assignments (fuel : nat) (env : Env)
    (connection_name : string) : M Frame :=
  connection_id <- resolve env connection_name ;;
  let df := Pd.empty role_assignment_columns in
  response <- send (client env)
                (mkRequest GET ("/v1/connections/" ++ connection_id ++ "/roleAssignments")
                           NoBody) ;;
  if negb (Z.eqb (status_code response) 200)
  then raise (FabricHTTPException response)
  else
    responses <- Helper.pagination fuel (client env) response ;;
    lift (append_pages df responses).

End Connections.

(** ** [_dataflows.py] *)

Module Dataflows.

Record Env : Type := mkEnv {
  client : Client;
  (* resolve_workspace_name_and_id(workspace) -> (name, id) *)
  resolve_workspace_name_and_id : option string -> outcome (string * string);
  icons : Icons
}.

(** The envelope around the mashup document. *)
Definition dataflow_def_payload (mashup_document : string) : json :=
  JObj [ ("editingSessionMashup",
          JObj [ ("mashupName", JStr EmptyString);
                 ("mashupDocument", JStr mashup_document);
                 ("queryGroups", JArr []);
                 ("documentLocale", JStr "en-US");
                 ("gatewayObjectId", JNull);
                 ("queriesMetadata", JNull);
                 ("connectionOverrides", JArr []);
                 ("trustedConnections", JNull);
                 ("useHostConnectionProvider", JBool false);
                 ("fastCombine", JBool false);
                 ("allowNativeQueries", JBool true);
                 ("allowedModules", JNull);
                 ("skipAutomaticTypeAndHeaderDetection", JBool false);
                 ("disableAutoAnonymousConnectionUpsert", JNull);
                 ("hostProperties",
                  JObj [ ("DataflowRefreshOutpuFileFormat", JStr "Parquet");
                         ("EnableDataTimeFieldsForStaging", JBool true);
                         ("EnablePublishWithoutLoadedQueries", JBool true) ]);
                 ("defaultOutputDestinationConfiguration", JNull);
                 ("stagingDefinition", JNull) ]) ].

(** The request body: [description] is present only when given. *)
Definition item_payload (dataflow_name mashup_document : string)
                        (description : option string) : json :=
  JObj ([ ("displayName", JStr dataflow_name); ("type", JStr "Dataflow") ]
        ++ match description with
           | Some d => [ ("description", JStr d) ]
           | None => []
           end
        ++ [ ("definition",
              JObj [ ("parts",
                      JArr [ JObj [ ("path", JStr "dataflow-content.json");
                                    ("payload",
                                     JStr (Helper._conv_b64
                                             (dataflow_def_payload mashup_document))) ] ]) ]) ])%list.

Definition create_dataflow (env : Env) (dataflow_name mashup_document : string)
    (description workspace : option string) : M unit :=
  emit (Resolve "resolve_workspace_name_and_id"
                match workspace with Some w => [w] | None => [] end) ;;
  ws <- lift (resolve_workspace_name_and_id env workspace) ;;
  let (workspace, workspace_id) := ws : string * string in
  let payload := item_payload dataflow_name mashup_document description in
  response <- send (client env)
                (mkRequest POST ("/v1/workspaces/" ++ workspace_id ++ "/items")
                           (AsJson payload)) ;;
  if negb (Z.eqb (status_code response) 200)
  then raise (FabricHTTPException response)
  else
    print (green_dot (icons env) ++ " The '" ++ dataflow_name
           ++ "' has been created within the '" ++ workspace ++ "' workspace.").

End Dataflows.

(** ** [_vertipaq_bulk.py] *)

Module VertipaqBulk.

(** A row of [fabric.list_workspaces()]. *)
Record WorkspaceRow : Type := mkWorkspaceRow {
  ws_name : string;      (* "Name" *)
  ws_id : string         (* "Id"   *)
}.

(** A row of [fabric.list_datasets(workspace, mode="rest")]. *)
Record DatasetRow : Type := mkDatasetRow {
  dataset_name : string;   (* "Dataset Name"  *)
  dataset_id : string;     (* "Dataset Id"    *)
  configured_by : string   (* "Configured By" *)
}.

(** A row of [fabric.list_items(workspace)]. *)
Record ItemRow : Type := mkItemRow {
  display_name : string;   (* "Display Name" *)
  item_type : string       (* "Type"         *)
}.

(** The [workspace] argument: [None], one name, or a list of names. *)
Inductive workspace_arg : Type :=
| AllWorkspaces
| OneWorkspace (name : string)
| Workspaces (names : list string).

Record Env : Type := mkEnv {
  lakehouse_attached : bool;
  now : Z;                                             (* datetime.datetime.now() *)
  resolve_workspace_name : outcome string;             (* fabric.resolve_workspace_name() *)
  get_lakehouse_id : outcome string;                   (* fabric.get_lakehouse_id() *)
  resolve_lakehouse_name : string -> string -> outcome string;
  (* get_lakehouse_tables(lakehouse, workspace)["Table Name"] *)
  get_lakehouse_tables : string -> string -> outcome (list string);
  (* spark.table(t).select(F.max("RunId")).collect()[0][0]; None on a table without rows *)
  spark_max_run_id : string -> outcome (option Z);
  list_workspaces : outcome (list WorkspaceRow);
  resolve_workspace_capacity : string -> outcome (string * string);  (* (id, name) *)
  list_datasets : string -> outcome (list DatasetRow);
  list_items : string -> outcome (list ItemRow);
  (* vertipaq_analyzer(dataset, workspace, read_stats_from_data, return_dataframe=True) *)
  vertipaq_analyzer : string -> string -> bool -> outcome (list Frame);
  icons : Icons
}.

Definition cols : list string :=
  [ "Capacity Name"; "Capacity Id"; "Workspace Name"; "Workspace Id";
    "Dataset Name"; "Dataset Id"; "Configured By" ].

Definition lakeTName : string := "vertipaq_analyzer_model".

(** A collaborator call, visible in the trace. *)
Definition call {A} (fn : string) (args : list string) (answer : outcome A) : M A :=
  emit (Call fn args) ;; lift answer.

(** Lines 58-66: the run id. *)
Definition determine_run_id (env : Env) (lakehouse lakehouse_workspace lakehouse_id : string)
  : M Z :=
  lakeT <- call "get_lakehouse_tables" [lakehouse; lakehouse_workspace]
             (get_lakehouse_tables env lakehouse lakehouse_workspace) ;;
  let lakeT_filt := filter (fun t => String.eqb t lakeTName) lakeT in
  if Nat.eqb (List.length lakeT_filt) 0
  then ret 1%Z
  else
    let table := "`" ++ lakehouse_id ++ "`." ++ lakeTName in
    maxRunId <- call "spark.table.select.max.collect" [table; "RunId"]
                  (spark_max_run_id env table) ;;
    match maxRunId with
    | Some m => ret (m + 1)%Z
    | None => raise (TypeError "unsupported operand type(s) for +: 'NoneType' and 'int'")
    end.

(** Lines 68-75: the workspaces to scan. *)
Definition filter_workspaces (workspace : workspace_arg) (dfW : list WorkspaceRow)
  : list WorkspaceRow :=
  match workspace with
  | AllWorkspaces => dfW
  | OneWorkspace name => filter (fun r => Str.mem (ws_name r) [name]) dfW
  | Workspaces names => filter (fun r => Str.mem (ws_name r) names) dfW
  end.

(** [set(wanted).issubset(set(have))]. *)
Definition issubset (wanted have : list string) : bool :=
  forallb (fun x => Str.mem x have) wanted.

(** The ["Type"] values of the group of items with one display name. *)
Definition group_types (dfI : list ItemRow) (name : string) : list string :=
  map item_type (filter (fun i => String.eqb (display_name i) name) dfI).

(** The predicate handed to [groupby("Display Name").filter]. *)
Definition is_default_group (types : list string) : bool :=
  issubset ["Warehouse"; "SemanticModel"] types
  || issubset ["Lakehouse"; "SemanticModel"] types.

(** Lines 87-91. *)
Definition default_semantic_models (dfI : list ItemRow) : list string :=
  let filtered_df :=
    filter (fun i => is_default_group (group_types dfI (display_name i))) dfI in
  Str.unique (map display_name filtered_df).

(** Lines 93-94. *)
Definition skip_models (ic : Icons) (dfI : list ItemRow) : list string :=
  (default_semantic_models dfI ++ [model_bpa_name ic])%list.

Definition dfD_filt (ic : Icons) (dfI : list ItemRow) (dfD : list DatasetRow)
  : list DatasetRow :=
  filter (fun d => negb (Str.mem (dataset_name d) (skip_models ic dfI))) dfD.

(** Lines 113-124: the body of [for z in [m, t, c, h, p, rel]], on the
    object behind the reference [z]. *)
Definition tag_frame (env : Env) (runId : Z)
    (capacity_id capacity_name wksp wksp_id : string) (d : DatasetRow) (z : nat)
  : M unit :=
  mutate z (Pd.set_col "Capacity Id" (Val (JStr capacity_id))) ;;
  mutate z (Pd.set_col "Capacity Name" (Val (JStr capacity_name))) ;;
  mutate z (Pd.set_col "Workspace Name" (Val (JStr wksp))) ;;
  mutate z (Pd.set_col "Workspace Id" (Val (JStr wksp_id))) ;;
  mutate z (Pd.set_col "Dataset Name" (Val (JStr (dataset_name d)))) ;;
  mutate z (Pd.set_col "Dataset Id" (Val (JStr (dataset_id d)))) ;;
  mutate z (Pd.set_col "Configured By" (Val (JStr (configured_by d)))) ;;
  mutate z (Pd.set_col "Timestamp" (Time (now env))) ;;
  mutate z (Pd.set_col "RunId" (Val (JNum runId))) ;;
  zf <- deref z ;;
  z' <- lift (Pd.select cols zf) ;;          (* z = z[cols]               *)
  _ <- lift (Pd.get_col "RunId" z') ;;       (* z["RunId"].astype("int")  *)
  ret tt.

Fixpoint alloc_all (fs : list Frame) : M (list nat) :=
  match fs with
  | [] => ret []
  | f :: rest =>
      r <- alloc f ;;
      rs <- alloc_all rest ;;
      ret (r :: rs)
  end.

(** [m, t, c, h, p, rel = ...]: exactly six values. *)
Definition unpack6 (fs : list Frame) : M (list nat) :=
  if Nat.eqb (List.length fs) 6
  then alloc_all fs
  else raise (ValueError "wrong number of values to unpack (expected 6)").

(** Lines 104-126: the body of the [try]. *)
Definition analyze_dataset (env : Env) (read_stats_from_data : bool) (runId : Z)
    (capacity_id capacity_name wksp wksp_id : string) (df : Frame) (d : DatasetRow)
  : M Frame :=
  fs <- call "vertipaq_analyzer" [dataset_name d; wksp]
          (vertipaq_analyzer env (dataset_name d) wksp read_stats_from_data) ;;
  zs <- unpack6 fs ;;
  for_each zs (tag_frame env runId capacity_id capacity_name wksp wksp_id d) ;;
  bpa_df <- undefined_name "bpa_df" ;;
  let df := Pd.concat df bpa_df in
  print (green_dot (icons env) ++ " Collected Vertipaq Analyzer stats for the '"
         ++ dataset_name d ++ "' semantic model within the '" ++ wksp
         ++ "' workspace.") ;;
  ret df.

Definition failed_message (ic : Icons) (dataset wksp : string) : string :=
  red_dot ic ++ " Vertipaq Analyzer stat collection failed for the '" ++ dataset
    ++ "' semantic model within the '" ++ wksp ++ "' workspace.".

(** Lines 97-134: one turn of the loop over [dfD_filt]. *)
Definition scan_dataset (env : Env) (read_stats_from_data : bool) (runId : Z)
    (capacity_id capacity_name wksp wksp_id : string) (df : Frame) (d : DatasetRow)
  : M Frame :=
  print (in_progress (icons env) ++ " Collecting Vertipaq Analyzer stats for the '"
         ++ dataset_name d ++ "' semantic model within the '" ++ wksp
         ++ "' workspace.") ;;
  try_except
    (analyze_dataset env read_stats_from_data runId capacity_id capacity_name
       wksp wksp_id df d)
    (fun e =>
       print (failed_message (icons env) (dataset_name d) wksp) ;;
       emit (PrintExn e) ;;
       ret df).

(** Lines 136-150: after the loop over the datasets of one workspace. *)
Definition save_workspace (env : Env) (wksp lakehouse lakehouse_workspace : string)
    (df : Frame) : M unit :=
  df <- lift (Pd.replace_col "Severity" (severity_mapping (icons env)) df) ;;
  output_table <- undefined_name "output_table" ;;
  print (in_progress (icons env) ++ " Saving the Vertipaq Analyzer results of the '"
         ++ wksp ++ "' workspace to the '" ++ output_table ++ "' within the '"
         ++ lakehouse ++ "' lakehouse within the '" ++ lakehouse_workspace
         ++ "' workspace...") ;;
  emit (SaveAsDeltaTable df output_table "append" true) ;;
  print (green_dot (icons env) ++ " Saved BPA results to the '" ++ output_table
         ++ "' delta table.").

(** Lines 78-150: one turn of the loop over [dfW_filt]. *)
Definition scan_workspace (env : Env) (read_stats_from_data : bool) (runId : Z)
    (lakehouse lakehouse_workspace : string) (r : WorkspaceRow) : M unit :=
  let wksp := ws_name r in
  let wksp_id := ws_id r in
  cap <- call "resolve_workspace_capacity" [wksp] (resolve_workspace_capacity env wksp) ;;
  let (capacity_id, capacity_name) := cap : string * string in
  let df := Pd.empty cols in
  dfD <- call "list_datasets" [wksp] (list_datasets env wksp) ;;
  if Nat.ltb 0 (List.length dfD) then
    dfI <- call "list_items" [wksp] (list_items env wksp) ;;
    let dfD_filt := dfD_filt (icons env) dfI dfD in
    if Nat.ltb 0 (List.length dfD_filt) then
      df <- for_fold dfD_filt df
              (scan_dataset env read_stats_from_data runId capacity_id capacity_name
                 wksp wksp_id) ;;
      save_workspace env wksp lakehouse lakehouse_workspace df
    else ret tt
  else ret tt.

Definition vertipaq_analyzer_bulk (env : Env) (workspace : workspace_arg)
    (read_stats_from_data : bool) : M unit :=
  if negb (lakehouse_attached env)
  then raise (ValueError (red_dot (icons env)
         ++ " No lakehouse is attached to this notebook. Must attach a lakehouse to the notebook."))
  else
    lakehouse_workspace <- call "resolve_workspace_name" [] (resolve_workspace_name env) ;;
    lakehouse_id <- call "get_lakehouse_id" [] (get_lakehouse_id env) ;;
    lakehouse <- call "resolve_lakehouse_name" [lakehouse_id; lakehouse_workspace]
                   (resolve_lakehouse_name env lakehouse_id lakehouse_workspace) ;;
    runId <- determine_run_id env lakehouse lakehouse_workspace lakehouse_id ;;
    dfW <- call "list_workspaces" [] (list_workspaces env) ;;
    let dfW_filt := filter_workspaces workspace dfW in
    for_each dfW_filt
      (scan_workspace env read_stats_from_data runId lakehouse lakehouse_workspace) ;;
    print (green_dot (icons env) ++ " Bulk Vertipaq Analyzer scan complete.").

End VertipaqBulk.

(** ** [_one_lake_integration.py] *)

Module OneLake.

(** [Microsoft.AnalysisServices.Tabular.ModeType]. *)
Inductive ModeType : Type :=
| Import | DirectQuery | Default | Push | Dual | DirectLake.

Definition is_import (m : ModeType) : bool :=
  match m with
  | Import => true
  | _ => false
  end.

(** What the loop reads of one table of [tom.model.Tables]. *)
Record Table : Type := mkTable {
  Name : string;
  CalculationGroup : option string;    (* None when the table has none *)
  SystemManaged : bool;
  Partitions : list ModeType;          (* p.Mode of each partition *)
  ColumnsCount : Z                     (* t.Columns.Count *)
}.

(** A row of [fabric.list_items(workspace, type="SemanticModel")]. *)
Record ItemRow : Type := mkItemRow {
  display_name : string;   (* "Display Name" *)
  item_id : string         (* "Id"           *)
}.

Record Env : Type := mkEnv {
  client : Client;
  init_analysis_services : outcome unit;
  resolve_workspace_name_and_id : option string -> outcome (string * string);
  resolve_dataset_id : string -> string -> outcome string;
  execute_tmsl : string -> string -> outcome unit;   (* script, workspace *)
  lakehouse_attached : bool;
  get_lakehouse_id : outcome string;
  get_workspace_id : outcome string;
  resolve_lakehouse_id : string -> string -> outcome string;
  list_items : string -> string -> outcome (list ItemRow);
  connect_semantic_model : string -> string -> outcome (list Table);
  icons : Icons
}.

Definition tmsl (dataset : string) : string :=
  Str.nl ++
  "        {" ++ Str.nl ++
  "        'export': {" ++ Str.nl ++
  "        'layout': 'delta'," ++ Str.nl ++
  "        'type': 'full'," ++ Str.nl ++
  "        'objects': [" ++ Str.nl ++
  "            {" ++ Str.nl ++
  "            'database': '" ++ dataset ++ "'" ++ Str.nl ++
  "            }" ++ Str.nl ++
  "        ]" ++ Str.nl ++
  "        }" ++ Str.nl ++
  "        }" ++ Str.nl ++
  "    ".

Definition exported_message (ic : Icons) (dataset workspace : string) : string :=
  green_dot ic ++ " The '" ++ dataset
    ++ "' semantic model's tables have been exported as delta tables to the '"
    ++ workspace ++ "' workspace." ++ Str.nl.

Definition no_lakehouse_message (ic : Icons) : string :=
  red_dot ic ++ " In order to create shortcuts, a lakehouse must be attached to the notebook or a lakehouse must be specified in the parameters of this function.".

(** The condition of line 107-112. *)
Definition eligible (t : Table) : bool :=
  match CalculationGroup t with None => true | Some _ => false end
  && negb (SystemManaged t)
  && forallb is_import (Partitions t)
  && (0 <? ColumnsCount t)%Z.

Definition shortcut_request_body (workspace_id sourceLakehouseId tableName : string) : json :=
  JObj [ ("path", JStr "Tables");
         ("name", JStr (Str.remove_spaces tableName));
         ("target",
          JObj [ ("oneLake",
                  JObj [ ("workspaceId", JStr workspace_id);
                         ("itemId", JStr sourceLakehouseId);
                         ("path", JStr ("Tables/" ++ tableName)) ]) ]) ].

Definition shortcut_request
    (destination_workspace_id destination_lakehouse_id workspace_id sourceLakehouseId
     tableName : string) : Request :=
  mkRequest POST
    ("/v1/workspaces/" ++ destination_workspace_id ++ "/items/"
       ++ destination_lakehouse_id ++ "/shortcuts")
    (AsJson (shortcut_request_body workspace_id sourceLakehouseId tableName)).

(** How an optional string shows inside an f-string. *)
Definition show (o : option string) : string :=
  match o with
  | Some s => s
  | None => "None"
  end.

(** Lines 106-136: the body of [for t in tom.model.Tables]. *)
Definition create_shortcut (env : Env)
    (dataset workspace workspace_id : string)
    (destination_lakehouse : option string)
    (destination_workspace destination_workspace_id destination_lakehouse_id
     sourceLakehouseId : string) (t : Table) : M unit :=
  let tableName := Name t in
  if eligible t then
    response <- send (client env)
                  (shortcut_request destination_workspace_id destination_lakehouse_id
                     workspace_id sourceLakehouseId tableName) ;;
    if negb (Z.eqb (status_code response) 201)
    then raise (FabricHTTPException response)
    else
      print (green_dot (icons env) ++ " The shortcut '" ++ Str.remove_spaces tableName
             ++ "' was created in the '" ++ show destination_lakehouse
             ++ "' lakehouse within the '" ++ destination_workspace
             ++ "' workspace. It is based on the '" ++ tableName
             ++ "' table in the '" ++ dataset ++ "' semantic model within the '"
             ++ workspace ++ "' workspace." ++ Str.nl)
  else ret tt.

Definition call {A} (fn : string) (args : list string) (answer : outcome A) : M A :=
  emit (Call fn args) ;; lift answer.

Definition resolve {A} (fn : string) (args : list string) (answer : outcome A) : M A :=
  emit (Resolve fn args) ;; lift answer.

Definition opt_arg (o : option string) : list string :=
  match o with
  | Some s => [s]
  | None => []
  end.

Definition export_model_to_onelake (env : Env) (dataset : string)
    (workspace destination_lakehouse destination_workspace : option string)
    (create_shortcuts : bool) : M unit :=
  call "_init_analysis_services" [] (init_analysis_services env) ;;
  ws <- resolve "resolve_workspace_name_and_id" (opt_arg workspace)
          (resolve_workspace_name_and_id env workspace) ;;
  let (workspace, workspace_id) := ws : string * string in
  dws <- resolve "resolve_workspace_name_and_id" (opt_arg destination_workspace)
           (resolve_workspace_name_and_id env destination_workspace) ;;
  let (destination_workspace, destination_workspace_id) := dws : string * string in
  dataset_id <- resolve "resolve_dataset_id" [dataset; workspace]
                  (resolve_dataset_id env dataset workspace) ;;
  (* Export model's tables as delta tables *)
  emit (ExecuteTmsl (tmsl dataset) workspace) ;;
  lift (execute_tmsl env (tmsl dataset) workspace) ;;
  print (exported_message (icons env) dataset workspace) ;;
  if create_shortcuts then
    ids <-
      match destination_lakehouse with
      | None =>
          if negb (lakehouse_attached env)
          then raise (ValueError (no_lakehouse_message (icons env)))
          else
            destination_lakehouse_id <- call "get_lakehouse_id" [] (get_lakehouse_id env) ;;
            destination_workspace_id <- call "get_workspace_id" [] (get_workspace_id env) ;;
            ret (destination_lakehouse_id, destination_workspace_id)
      | Some lakehouse =>
          destination_lakehouse_id <-
            resolve "resolve_lakehouse_id" [lakehouse; destination_workspace]
              (resolve_lakehouse_id env lakehouse destination_workspace) ;;
          ret (destination_lakehouse_id, destination_workspace_id)
      end ;;
    let (destination_lakehouse_id, destination_workspace_id) := ids : string * string in
    (* Source... *)
    dfI_Source <- call "list_items" [workspace; "SemanticModel"]
                    (list_items env workspace "SemanticModel") ;;
    let dfI_filtSource :=
      filter (fun i => String.eqb (display_name i) dataset) dfI_Source in
    match dfI_filtSource with
    | [] => raise (IndexError "single positional indexer is out-of-bounds")
    | first :: _ =>
        let sourceLakehouseId := item_id first in
        print (in_progress (icons env) ++ " Creating shortcuts..." ++ Str.nl) ;;
        tables <- call "connect_semantic_model" [dataset; workspace]
                    (connect_semantic_model env dataset workspace) ;;
        for_each tables
          (create_shortcut env dataset workspace workspace_id destination_lakehouse
             destination_workspace destination_workspace_id destination_lakehouse_id
             sourceLakehouseId)
    end
  else ret tt.

End OneLake.


(** ** Fixtures: concrete collaborators for examples *)

Module Sample.

Definition icons : Icons :=
  mkIcons "[red]" "[green]" "[...]" "ModelBPA"
          [("1", "Warning"); ("2", "Error"); ("3", "Info")].

(** A server that answers every request with one status and an empty body. *)
Definition answering (status : Z) : Client :=
  fun _ => Ok (mkResponse status JNull).

(** A resolver that knows every name: the id is the name in brackets. *)
Definition known (name : string) : outcome string := Ok ("<" ++ name ++ ">").

Definition connections (status : Z) : Connections.Env :=
  Connections.mkEnv (answering status) known icons.

(** A collection served in two pages: the first page carries a
    continuation token and the link to the second. *)
Definition continuation_uri : string := "/next?continuationToken=t1".

Definition page1 : json :=
  JObj [ ("value", JArr [ JObj [ ("id", JStr "1"); ("role", JStr "Owner") ] ]);
         ("continuationToken", JStr "t1");
         ("continuationUri", JStr continuation_uri) ].

Definition page2 : json :=
  JObj [ ("value", JArr [ JObj [ ("id", JStr "2"); ("role", JStr "User") ] ]) ].

Definition two_pages : Client :=
  fun req =>
    if String.eqb (url req) continuation_uri
    then Ok (mkResponse 200 page2)
    else Ok (mkResponse 200 page1).

Definition paged_connections : Connections.Env :=
  Connections.mkEnv two_pages known icons.

(** One page: with no item, and with one item that has only an id. *)
Definition serving (page : json) : Connections.Env :=
  Connections.mkEnv (fun _ => Ok (mkResponse 200 page)) known icons.

Definition no_item : json := JObj [ ("value", JArr []) ].
Definition one_item : json := JObj [ ("value", JArr [ JObj [ ("id", JStr "1") ] ]) ].

(** A tenant with one workspace and two datasets; the analyzer delivers
    six one-row frames for the first and fails for the second.  The
    lakehouse already holds results up to run 7. *)
Definition stats : Frame := mkFrame ["Name"] [[("Name", Val (JStr "rows"))]].

Definition bulk : VertipaqBulk.Env :=
  VertipaqBulk.mkEnv
    true 20240101
    (Ok "Home") (Ok "lh-1")
    (fun _ _ => Ok "Lake")
    (fun _ _ => Ok ["other"; "vertipaq_analyzer_model"])
    (fun _ => Ok (Some 7%Z))
    (Ok [VertipaqBulk.mkWorkspaceRow "Sales" "ws-1"])
    (fun _ => Ok ("cap-1", "Capacity"))
    (fun _ => Ok [ VertipaqBulk.mkDatasetRow "Revenue" "ds-1" "ann";
                   VertipaqBulk.mkDatasetRow "Costs" "ds-2" "bob";
                   VertipaqBulk.mkDatasetRow "Lake" "ds-3" "system" ])
    (fun _ => Ok [ VertipaqBulk.mkItemRow "Revenue" "SemanticModel";
                   VertipaqBulk.mkItemRow "Costs" "SemanticModel";
                   VertipaqBulk.mkItemRow "Lake" "Lakehouse";
                   VertipaqBulk.mkItemRow "Lake" "SemanticModel" ])
    (fun dataset _ _ =>
       if String.eqb dataset "Revenue"
       then Ok [stats; stats; stats; stats; stats; stats]
       else Raise (ExternalError "model is not readable"))
    icons.

(** A server that creates the shortcut named Orders and refuses every
    other shortcut. *)
Definition only_orders : Client :=
  fun req =>
    match sent req with
    | AsJson j =>
        match Json.path ["name"] j with
        | Some (JStr "Orders") => Ok (mkResponse 201 JNull)
        | _ => Ok (mkResponse 500 (JStr "shortcut refused"))
        end
    | _ => Ok (mkResponse 400 JNull)
    end.

Definition model_tables : list OneLake.Table :=
  [ OneLake.mkTable "Orders" None false [OneLake.Import] 4;
    OneLake.mkTable "Measures" (Some "group") false [OneLake.Import] 1;
    OneLake.mkTable "Order Lines" None false [OneLake.Import; OneLake.Import] 6;
    OneLake.mkTable "Customers" None false [OneLake.Import] 3 ].

(** The notebook has no lakehouse attached ([attached] false) or has one. *)
Definition onelake (attached : bool) : OneLake.Env :=
  OneLake.mkEnv
    only_orders
    (Ok tt)
    (fun w => match w with
              | Some name => Ok (name, "<" ++ name ++ ">")
              | None => Ok ("Home", "<Home>")
              end)
    (fun dataset _ => Ok ("<" ++ dataset ++ ">"))
    (fun _ _ => Ok tt)
    attached
    (Ok "lh-1") (Ok "<Home>")
    (fun lakehouse _ => Ok ("<" ++ lakehouse ++ ">"))
    (fun _ _ => Ok [ OneLake.mkItemRow "Budget" "item-0";
                     OneLake.mkItemRow "Sales" "item-1" ])
    (fun _ _ => Ok model_tables)
    icons.

(** A mashup document with a quote, a backslash, a line feed, a tab and
    the two bytes of a letter outside ASCII. *)
Definition document : string :=
  "section Section1;" ++ Str.nl
  ++ "shared Query = " ++ String JsonText.dquote "C:\caf"
  ++ String (ascii_of_nat 195) (String (ascii_of_nat 169) EmptyString)
  ++ String JsonText.dquote (String (ascii_of_nat 9) ";").

Definition dataflows (status : Z) : Dataflows.Env :=
  Dataflows.mkEnv (answering status)
    (fun w => match w with
              | Some name => Ok (name, "<" ++ name ++ ">")
              | None => Ok ("Home", "<Home>")
              end)
    icons.

End Sample.

(** ** Vocabulary of the properties *)

(** [runs phi psi c post]: from a world whose stored frames all satisfy
    [psi], the computation [c] only appends events that satisfy [phi],
    leaves a store whose frames all satisfy [psi], and, when it returns,
    returns a value that satisfies [post]. *)
Definition runs {A} (phi : event -> Prop) (psi : Frame -> Prop)
                (c : M A) (post : A -> Prop) : Prop :=
  forall w, Forall psi (heap w) ->
    forall o w', c w = (o, w') ->
      exists added,
        trace w' = (trace w ++ added)%list
        /\ Forall phi added
        /\ Forall psi (heap w')
        /\ (forall a, o = Ok a -> post a).

Module Spec.

(** Where the credentials sit in a create-connection body. *)
Definition credentials_path : list string := ["credentialDetails"; "credentials"].

(** An operation [c] that sends [req] to [cl] settles on [expected]: when
    the server answers [r], the operation returns exactly if the status is
    [expected] and otherwise raises with [r] attached, and in both cases
    [req] is the only request it sent. *)
Definition settles (expected : Z) (cl : Client) (req : Request) (c : M unit) : Prop :=
  forall r : Response,
    cl req = Ok r ->
    (status_code r = expected -> result_of c = Ok tt)
    /\ (status_code r <> expected -> result_of c = Raise (FabricHTTPException r))
    /\ http_requests (trace_of c) = [req].

(** The request of [add_connection_role_assignemnt]. *)
Definition role_assignment_request (connection_id email_address principal_type role : string)
  : Request :=
  mkRequest POST ("/v1/connections/" ++ connection_id ++ "/roleAssignments")
            (AsPayload (Connections.role_assignment_payload email_address principal_type role)).

(** [d.get(key)] on the members of a dictionary, [None] when missing. *)
Definition field (members : list (string * json)) (key : string) : json :=
  match Json.lookup key members with
  | Some v => v
  | None => JNull
  end.

(** The items of one page: [page.get("value", [])], iterated. *)
Definition page_items (page : json) : list json :=
  match and_then (Json.get page "value" (JArr [])) Json.iter with
  | Ok items => items
  | _ => []
  end.

(** The pages a server links together, starting from [page]: each page
    but the last carries a continuation token and the link under which the
    client finds the next one. *)
Inductive chain (cl : Client) : json -> list json -> Prop :=
| chain_last (page : json) (members : list (string * json)) :
    page = JObj members ->
    match Json.lookup "continuationToken" members with
    | None | Some JNull => True
    | _ => False
    end ->
    chain cl page []
| chain_next (page : json) (members : list (string * json)) (token : json) (u : string)
             (r : Response) (rest : list json) :
    page = JObj members ->
    Json.lookup "continuationToken" members = Some token ->
    token <> JNull ->
    Json.lookup "continuationUri" members = Some (JStr u) ->
    cl (mkRequest GET u NoBody) = Ok r ->
    chain cl (body r) rest ->
    chain cl page (body r :: rest).

(** *** JSON text *)

(** The number of values in a JSON value, counting every element and
    member once more: the fuel [JsonText.parse_value] needs for its text. *)
Fixpoint size (j : json) : nat :=
  match j with
  | JArr items =>
      S ((fix go (l : list json) : nat :=
            match l with
            | [] => 0
            | x :: rest => S (size x + go rest)
            end) items)
  | JObj members =>
      S ((fix go (l : list (string * json)) : nat :=
            match l with
            | [] => 0
            | kv :: rest => S (size (snd kv) + go rest)
            end) members)
  | _ => 1
  end.

Fixpoint size_items (l : list json) : nat :=
  match l with
  | [] => 0
  | x :: rest => S (size x + size_items rest)
  end.

Fixpoint size_members (l : list (string * json)) : nat :=
  match l with
  | [] => 0
  | kv :: rest => S (size (snd kv) + size_members rest)
  end.

(** The text begins with a digit or a minus sign. *)
Definition starts_num (s : string) : bool :=
  match s with
  | EmptyString => false
  | String c _ => JsonText.is_num_char c
  end.

(** The characters a JSON value can begin with. *)
Definition value_start (c : ascii) : bool :=
  Ascii.eqb c JsonText.dquote || Ascii.eqb c "["%char || Ascii.eqb c "{"%char
  || Ascii.eqb c "n"%char || Ascii.eqb c "t"%char || Ascii.eqb c "f"%char
  || JsonText.is_num_char c.

(** The text of [j] reads back as [j], whatever follows it, given fuel
    for its size. *)
Definition reads_back (j : json) : Prop :=
  forall (fuel : nat) (rest : string),
    size j <= fuel -> starts_num rest = false ->
    JsonText.parse_value fuel (JsonText.dumps j ++ rest) = Some (j, rest).

(** The text of one member of an object. *)
Definition member_text (kv : string * json) : string :=
  JsonText.quote (fst kv) ++ ": " ++ JsonText.dumps (snd kv).

(** *** Bulk scan *)

(** The display name [name] is that of a default semantic model: among
    the items with this name there is a semantic model and a warehouse or
    a lakehouse. *)
Definition shadow_model (dfI : list VertipaqBulk.ItemRow) (name : string) : Prop :=
  (exists i, In i dfI /\ VertipaqBulk.display_name i = name
             /\ VertipaqBulk.item_type i = "SemanticModel")
  /\ (exists i, In i dfI /\ VertipaqBulk.display_name i = name
                /\ (VertipaqBulk.item_type i = "Warehouse"
                    \/ VertipaqBulk.item_type i = "Lakehouse")).

(** A frame exactly as the analyzer delivered it. *)
Definition untouched (env : VertipaqBulk.Env) (f : Frame) : Prop :=
  exists dataset workspace flag fs,
    VertipaqBulk.vertipaq_analyzer env dataset workspace flag = Ok fs /\ In f fs.

(** Every row of the frame has [runId] in its ["RunId"] cell. *)
Definition carries (runId : Z) (f : Frame) : Prop :=
  forall r, In r (rows f) -> Pd.row_get "RunId" r = Val (JNum runId).

(** The nine assignments of lines 113-121, as one update of a frame. *)
Definition tagging (env : VertipaqBulk.Env) (runId : Z)
    (capacity_id capacity_name wksp wksp_id : string) (d : VertipaqBulk.DatasetRow)
    (f : Frame) : Frame :=
  Pd.set_col "RunId" (Val (JNum runId))
   (Pd.set_col "Timestamp" (Time (VertipaqBulk.now env))
    (Pd.set_col "Configured By" (Val (JStr (VertipaqBulk.configured_by d)))
     (Pd.set_col "Dataset Id" (Val (JStr (VertipaqBulk.dataset_id d)))
      (Pd.set_col "Dataset Name" (Val (JStr (VertipaqBulk.dataset_name d)))
       (Pd.set_col "Workspace Id" (Val (JStr wksp_id))
        (Pd.set_col "Workspace Name" (Val (JStr wksp))
         (Pd.set_col "Capacity Name" (Val (JStr capacity_name))
          (Pd.set_col "Capacity Id" (Val (JStr capacity_id)) f)))))))).

(** The query for the largest run id, and the events of the scan of a
    workspace. *)
Definition is_run_id_query (e : event) : bool :=
  match e with
  | Call fn _ => String.eqb fn "spark.table.select.max.collect"
                 || String.eqb fn "get_lakehouse_tables"
  | _ => false
  end.

Definition is_max_query (e : event) : bool :=
  match e with
  | Call fn _ => String.eqb fn "spark.table.select.max.collect"
  | _ => false
  end.

Definition is_workspace_event (e : event) : bool :=
  match e with
  | Call fn _ => String.eqb fn "resolve_workspace_capacity"
                 || String.eqb fn "list_datasets"
                 || String.eqb fn "list_items"
                 || String.eqb fn "vertipaq_analyzer"
  | SaveAsDeltaTable _ _ _ _ => true
  | _ => false
  end.

Definition is_analyzer_call (e : event) : bool :=
  match e with
  | Call fn _ => String.eqb fn "vertipaq_analyzer"
  | _ => false
  end.

(** What one turn of the dataset loop adds to the trace when the analysis
    ends with the exception [e]. *)
Definition failed_turn (ic : Icons) (dataset wksp : string) (e : exn) : list event :=
  [ Print (in_progress ic ++ " Collecting Vertipaq Analyzer stats for the '"
           ++ dataset ++ "' semantic model within the '" ++ wksp ++ "' workspace.");
    Call "vertipaq_analyzer" [dataset; wksp];
    Print (VertipaqBulk.failed_message ic dataset wksp);
    PrintExn e ].

(** The events the scan of the workspaces may add to the trace: prints,
    the calls that enumerate a workspace, and an analyzer call for a
    dataset that passed the filter of that workspace. *)
Inductive scan_event (env : VertipaqBulk.Env) : event -> Prop :=
| scan_print (msg : string) : scan_event env (Print msg)
| scan_print_exn (e : exn) : scan_event env (PrintExn e)
| scan_workspaces : scan_event env (Call "list_workspaces" [])
| scan_capacity (wksp : string) :
    scan_event env (Call "resolve_workspace_capacity" [wksp])
| scan_datasets (wksp : string) : scan_event env (Call "list_datasets" [wksp])
| scan_items (wksp : string) : scan_event env (Call "list_items" [wksp])
| scan_analyze (wksp : string) (dfD : list VertipaqBulk.DatasetRow)
               (dfI : list VertipaqBulk.ItemRow) (d : VertipaqBulk.DatasetRow) :
    VertipaqBulk.list_datasets env wksp = Ok dfD ->
    VertipaqBulk.list_items env wksp = Ok dfI ->
    In d (VertipaqBulk.dfD_filt (VertipaqBulk.icons env) dfI dfD) ->
    scan_event env (Call "vertipaq_analyzer" [VertipaqBulk.dataset_name d; wksp]).

(** The calls made before the run id is known. *)
Inductive prelude_event : event -> Prop :=
| prelude_workspace_name : prelude_event (Call "resolve_workspace_name" [])
| prelude_lakehouse_id : prelude_event (Call "get_lakehouse_id" [])
| prelude_lakehouse_name (args : list string) :
    prelude_event (Call "resolve_lakehouse_name" args)
| prelude_tables (args : list string) :
    prelude_event (Call "get_lakehouse_tables" args)
| prelude_max (args : list string) :
    prelude_event (Call "spark.table.select.max.collect" args).

Definition bulk_event (env : VertipaqBulk.Env) (e : event) : Prop :=
  prelude_event e \/ scan_event env e.

(** The trace of the prelude when every collaborator answers. *)
Definition prelude_trace (lakehouse lakehouse_workspace lakehouse_id : string)
    (tables : list string) : list event :=
  [ Call "resolve_workspace_name" [];
    Call "get_lakehouse_id" [];
    Call "resolve_lakehouse_name" [lakehouse_id; lakehouse_workspace];
    Call "get_lakehouse_tables" [lakehouse; lakehouse_workspace] ]
  ++ (if Str.mem VertipaqBulk.lakeTName tables
      then [ Call "spark.table.select.max.collect"
               [ ("`" ++ lakehouse_id ++ "`." ++ VertipaqBulk.lakeTName)%string; "RunId" ] ]
      else [])%list.

(** Lines 68-152 of [vertipaq_analyzer_bulk]: what runs once the run id
    is known. *)
Definition after_run_id (env : VertipaqBulk.Env) (workspace : VertipaqBulk.workspace_arg)
    (read_stats_from_data : bool) (lakehouse lakehouse_workspace : string) (runId : Z)
  : M unit :=
  bind (VertipaqBulk.call "list_workspaces" [] (VertipaqBulk.list_workspaces env))
    (fun dfW =>
       bind (for_each (VertipaqBulk.filter_workspaces workspace dfW)
               (VertipaqBulk.scan_workspace env read_stats_from_data runId lakehouse
                  lakehouse_workspace))
         (fun _ =>
            print (green_dot (VertipaqBulk.icons env)
                   ++ " Bulk Vertipaq Analyzer scan complete."))).

(** The Spark name of the results table. *)
Definition run_id_table (lakehouse_id : string) : string :=
  "`" ++ lakehouse_id ++ "`." ++ VertipaqBulk.lakeTName.

(** The run id a scan must use, given the tables of the lakehouse and the
    largest run id stored so far. *)
Definition expected_run_id (tables : list string) (maxRunId : Z) : Z :=
  if Str.mem VertipaqBulk.lakeTName tables then (maxRunId + 1)%Z else 1%Z.

(** *** OneLake export *)

(** The events of [export_model_to_onelake] up to and including the
    export and its confirmation, for argument [workspace] resolved to
    [ws] and [destination_workspace] as given. *)
Definition export_prefix (ic : Icons) (dataset : string)
    (workspace destination_workspace : option string) (ws : string) : list event :=
  [ Call "_init_analysis_services" [];
    Resolve "resolve_workspace_name_and_id" (OneLake.opt_arg workspace);
    Resolve "resolve_workspace_name_and_id" (OneLake.opt_arg destination_workspace);
    Resolve "resolve_dataset_id" [dataset; ws];
    ExecuteTmsl (OneLake.tmsl dataset) ws;
    Print (OneLake.exported_message ic dataset ws) ].

(** The request for the shortcut of each eligible table, in order. *)
Definition shortcut_requests (dwsid dlhid wsid source : string) (ts : list OneLake.Table)
  : list Request :=
  map (fun t => OneLake.shortcut_request dwsid dlhid wsid source (OneLake.Name t))
      (filter OneLake.eligible ts).

End Spec.


(** ** Vocabulary of the properties of the listings, the export and the scan *)

Module Terms.

(** A value pandas stores as one cell as it is. *)
Definition plain (v : json) : bool :=
  match v with
  | JArr _ | JObj _ => false
  | _ => true
  end.

(** The members of the dictionary under [key], none when the key is
    missing. *)
Definition details (members : list (string * json)) (key : string)
  : list (string * json) :=
  match Json.lookup key members with
  | Some (JObj d) => d
  | _ => []
  end.

(** A nested dictionary is there as a dictionary, or not at all. *)
Definition object_or_missing (members : list (string * json)) (key : string) : bool :=
  match Json.lookup key members with
  | None | Some (JObj _) => true
  | _ => false
  end.

(** An item of GET /v1/connections as the service sends it: a dictionary
    whose connectionDetails and credentialDetails are dictionaries or
    missing and whose listed fields are scalars or missing. *)
Definition tidy_connection (i : json) : bool :=
  match i with
  | JObj ms =>
      object_or_missing ms "connectionDetails"
      && object_or_missing ms "credentialDetails"
      && forallb plain
           [ Spec.field ms "id"; Spec.field ms "displayName"; Spec.field ms "gatewayId";
             Spec.field ms "connectivityType"; Spec.field ms "privacyLevel";
             Spec.field (details ms "connectionDetails") "path";
             Spec.field (details ms "connectionDetails") "type";
             Spec.field (details ms "credentialDetails") "credentialType";
             Spec.field (details ms "credentialDetails") "singleSignOnType";
             Spec.field (details ms "credentialDetails") "connectionEncryption";
             Spec.field (details ms "credentialDetails") "skipTestConnection" ]
  | _ => false
  end.

Definition members_of (i : json) : list (string * json) :=
  match i with
  | JObj ms => ms
  | _ => []
  end.

(** The columns of a listing of connections that has a row. *)
Definition connection_columns_with_rows : list string :=
  (Connections.connection_columns
   ++ ["Single Sign On Type"; "Connection Encryption"])%list.

(** The row of [list_connections] for one tidy item. *)
Definition connection_row (i : json) : Row :=
  let ms := members_of i in
  let cd := details ms "connectionDetails" in
  let cr := details ms "credentialDetails" in
  [ ("Connection Id", Val (Spec.field ms "id"));
    ("Connection Name", Val (Spec.field ms "displayName"));
    ("Gateway Id", Val (Spec.field ms "gatewayId"));
    ("Connectivity Type", Val (Spec.field ms "connectivityType"));
    ("Connection Path", Val (Spec.field cd "path"));
    ("Connection Type", Val (Spec.field cd "type"));
    ("Privacy Level", Val (Spec.field ms "privacyLevel"));
    ("Credential Type", Val (Spec.field cr "credentialType"));
    ("Single Sign on Type", NaN);
    ("Connection Encyrption", NaN);
    ("Skip Test Connection",
     Val (JBool (Json.truthy (Spec.field cr "skipTestConnection"))));
    ("Single Sign On Type", Val (Spec.field cr "singleSignOnType"));
    ("Connection Encryption", Val (Spec.field cr "connectionEncryption")) ].

(** The dictionary [new_data] of a tidy item. *)
Definition connection_record (i : json) : list (string * json) :=
  let ms := members_of i in
  let cd := details ms "connectionDetails" in
  let cr := details ms "credentialDetails" in
  [ ("Connection Id", Spec.field ms "id");
    ("Connection Name", Spec.field ms "displayName");
    ("Gateway Id", Spec.field ms "gatewayId");
    ("Connectivity Type", Spec.field ms "connectivityType");
    ("Connection Path", Spec.field cd "path");
    ("Connection Type", Spec.field cd "type");
    ("Privacy Level", Spec.field ms "privacyLevel");
    ("Credential Type", Spec.field cr "credentialType");
    ("Single Sign On Type", Spec.field cr "singleSignOnType");
    ("Connection Encryption", Spec.field cr "connectionEncryption");
    ("Skip Test Connection", Spec.field cr "skipTestConnection") ].

Definition assignment_record (v : json) : list (string * json) :=
  let ms := members_of v in
  [ ("Connection Role Assignment Id", Spec.field ms "id");
    ("Principal Id", JNull);
    ("Princiapl Type", Spec.field (details ms "principal") "type");
    ("Role", Spec.field ms "role") ].

(** The one row [pd.DataFrame(new_data, index=[0])] makes of scalars. *)
Definition row_of (d : list (string * json)) : Row :=
  map (fun kv => (fst kv, Val (snd kv))) d.

(** The table a listing returns: the declared columns while it has no
    row, the columns [final] from the first row on. *)
Definition table (declared final : list string) (rs : list Row) : Frame :=
  match rs with
  | [] => Pd.empty declared
  | _ => mkFrame final rs
  end.

(** The frame the loop of a listing holds after the one-row frames
    [raw]: each row aligned with the columns of the table. *)
Definition held (declared final : list string) (raw : list Row) : Frame :=
  table declared final (map (Pd.align final) raw).

(** An item of a page of role assignments as the service sends it. *)
Definition tidy_assignment (v : json) : bool :=
  match v with
  | JObj ms =>
      match Json.lookup "princiapl" ms with None => true | _ => false end
      && object_or_missing ms "principal"
      && forallb plain
           [ Spec.field ms "id"; Spec.field ms "role";
             Spec.field (details ms "principal") "type" ]
  | _ => false
  end.

(** The columns of a listing of role assignments that has a row. *)
Definition assignment_columns_with_rows : list string :=
  (Connections.role_assignment_columns ++ ["Princiapl Type"])%list.

(** The row of [list_connection_role_assignments] for one tidy item. *)
Definition assignment_row (v : json) : Row :=
  let ms := members_of v in
  [ ("Connection Role Assignment Id", Val (Spec.field ms "id"));
    ("Principal Id", Val JNull);
    ("Principal Type", NaN);
    ("Role", Val (Spec.field ms "role"));
    ("Princiapl Type", Val (Spec.field (details ms "principal") "type")) ].

(** A page whose items are tidy. *)
Definition tidy_page (page : json) : bool :=
  match page with
  | JObj ms =>
      match Json.lookup "value" ms with
      | None => true
      | Some (JArr items) => forallb tidy_assignment items
      | _ => false
      end
  | _ => false
  end.

(** An item [list_connections] cannot project: it is no dictionary, or
    its connectionDetails is there and is no dictionary, or its
    credentialDetails is a truthy value that is no dictionary. *)
Definition broken_connection (i : json) : bool :=
  match i with
  | JObj ms =>
      negb (object_or_missing ms "connectionDetails")
      || match Json.lookup "credentialDetails" ms with
         | Some (JObj _) | None => false
         | Some v => Json.truthy v
         end
  | _ => true
  end.

(** The value of a broken item on which [get] is called first. *)
Definition culprit (i : json) : json :=
  match i with
  | JObj ms =>
      match Json.lookup "connectionDetails" ms with
      | Some (JObj _) | None =>
          match Json.lookup "credentialDetails" ms with
          | Some v => v
          | None => JNull
          end
      | Some v => v
      end
  | _ => i
  end.

(** The exception of [x.get] on a value [x] that has no such method. *)
Definition no_get (x : json) : exn :=
  AttributeError ("'" ++ Json.type_name x ++ "' object has no attribute 'get'").

(** The requests of the two listings and of the deletion. *)
Definition connections_request : Request := mkRequest GET "/v1/connections" NoBody.

Definition role_assignments_request (connection_id : string) : Request :=
  mkRequest GET ("/v1/connections/" ++ connection_id ++ "/roleAssignments") NoBody.

Definition delete_request (connection_id : string) : Request :=
  mkRequest DELETE ("/v1/connections/" ++ connection_id) NoBody.

(** A message was printed. *)
Definition printed (t : list event) : Prop := exists msg, In (Print msg) t.

(** A TMSL script was executed. *)
Definition exported (t : list event) : Prop :=
  exists script workspace, In (ExecuteTmsl script workspace) t.

(** The server creates the shortcut of every eligible table of [ts]. *)
Definition served (env : OneLake.Env) (dwsid dlhid wsid source : string)
    (ts : list OneLake.Table) : Prop :=
  forall p, In p ts -> OneLake.eligible p = true ->
    exists rp,
      OneLake.client env (OneLake.shortcut_request dwsid dlhid wsid source (OneLake.Name p))
      = Ok rp
      /\ status_code rp = 201%Z.

(** The three names [export_model_to_onelake] resolves first. *)
Definition names_resolved (env : OneLake.Env) (dataset : string)
    (workspace destination_workspace : option string) : Prop :=
  OneLake.init_analysis_services env = Ok tt
  /\ exists ws wsid dws dwsid dataset_id,
       OneLake.resolve_workspace_name_and_id env workspace = Ok (ws, wsid)
       /\ OneLake.resolve_workspace_name_and_id env destination_workspace = Ok (dws, dwsid)
       /\ OneLake.resolve_dataset_id env dataset ws = Ok dataset_id.

(** The events between the export and the loop over the tables, with a
    destination lakehouse given. *)
Definition source_lookup (lakehouse dws ws : string) : list event :=
  [ Resolve "resolve_lakehouse_id" [lakehouse; dws];
    Call "list_items" [ws; "SemanticModel"] ].

(** *** The bulk scan *)

Definition is_capacity_call (e : event) : bool :=
  match e with
  | Call fn _ => String.eqb fn "resolve_workspace_capacity"
  | _ => false
  end.

(** The workspaces a trace shows the scan to have entered, and the
    datasets it shows to have been handed to the analyzer. *)
Definition capacity_calls (rs : list VertipaqBulk.WorkspaceRow) : list event :=
  map (fun r => Call "resolve_workspace_capacity" [VertipaqBulk.ws_name r]) rs.

Definition analyzer_calls (wksp : string) (ds : list VertipaqBulk.DatasetRow)
  : list event :=
  map (fun d => Call "vertipaq_analyzer" [VertipaqBulk.dataset_name d; wksp]) ds.

(** The datasets of a workspace that pass the filter of the scan. *)
Definition to_analyse (env : VertipaqBulk.Env) (dfD : list VertipaqBulk.DatasetRow)
    (dfI : list VertipaqBulk.ItemRow) : list VertipaqBulk.DatasetRow :=
  VertipaqBulk.dfD_filt (VertipaqBulk.icons env) dfI dfD.

(** A workspace that answers and has nothing to analyse: no dataset, or
    none that passes the filter. *)
Definition quiet (env : VertipaqBulk.Env) (r : VertipaqBulk.WorkspaceRow) : Prop :=
  exists cap dfD,
    VertipaqBulk.resolve_workspace_capacity env (VertipaqBulk.ws_name r) = Ok cap
    /\ VertipaqBulk.list_datasets env (VertipaqBulk.ws_name r) = Ok dfD
    /\ (dfD = []
        \/ exists dfI,
             VertipaqBulk.list_items env (VertipaqBulk.ws_name r) = Ok dfI
             /\ to_analyse env dfD dfI = []).

(** A workspace that answers and has the datasets [ds] to analyse, for
    each of which the analyzer answers. *)
Definition busy (env : VertipaqBulk.Env) (flag : bool) (r : VertipaqBulk.WorkspaceRow)
    (ds : list VertipaqBulk.DatasetRow) : Prop :=
  ds <> []
  /\ (exists cap dfD dfI,
        VertipaqBulk.resolve_workspace_capacity env (VertipaqBulk.ws_name r) = Ok cap
        /\ VertipaqBulk.list_datasets env (VertipaqBulk.ws_name r) = Ok dfD
        /\ VertipaqBulk.list_items env (VertipaqBulk.ws_name r) = Ok dfI
        /\ to_analyse env dfD dfI = ds)
  /\ (forall d, In d ds ->
        VertipaqBulk.vertipaq_analyzer env (VertipaqBulk.dataset_name d)
          (VertipaqBulk.ws_name r) flag <> Diverge).

(** The prelude of the scan answers: a lakehouse is attached, its names
    resolve, and its tables are [tables]. *)
Definition prelude_answers (env : VertipaqBulk.Env) (lw lid lh : string)
    (tables : list string) : Prop :=
  VertipaqBulk.lakehouse_attached env = true
  /\ VertipaqBulk.resolve_workspace_name env = Ok lw
  /\ VertipaqBulk.get_lakehouse_id env = Ok lid
  /\ VertipaqBulk.resolve_lakehouse_name env lid lw = Ok lh
  /\ VertipaqBulk.get_lakehouse_tables env lh lw = Ok tables.

Definition scan_complete (ic : Icons) : event :=
  Print (green_dot ic ++ " Bulk Vertipaq Analyzer scan complete.").

End Terms.

(** ** Further fixtures *)

Module Cases.

(** Two connections: one with every field, one with an id only. *)
Definition full_connection : json :=
  JObj [ ("id", JStr "c-1");
         ("displayName", JStr "Warehouse");
         ("gatewayId", JNull);
         ("connectivityType", JStr "ShareableCloud");
         ("connectionDetails",
          JObj [ ("type", JStr "SQL"); ("path", JStr "srv;db") ]);
         ("privacyLevel", JStr "Organizational");
         ("credentialDetails",
          JObj [ ("credentialType", JStr "Basic");
                 ("singleSignOnType", JStr "None");
                 ("connectionEncryption", JStr "NotEncrypted");
                 ("skipTestConnection", JBool false) ]) ].

Definition bare_connection : json := JObj [ ("id", JStr "c-2") ].

Definition connection_items : list json := [ full_connection; bare_connection ].

(** A connection whose connectionDetails is null. *)
Definition null_details : json :=
  JObj [ ("id", JStr "c-3"); ("connectionDetails", JNull) ].

Definition listing_of (items : list json) : Connections.Env :=
  Sample.serving (JObj [ ("value", JArr items) ]).

(** Two pages of role assignments, and a page without items. *)
Definition assignment_pages : list json :=
  [ JObj [ ("value",
            JArr [ JObj [ ("id", JStr "ra-1"); ("role", JStr "Owner");
                          ("principal",
                           JObj [ ("id", JStr "p-1"); ("type", JStr "User") ]) ] ]);
           ("continuationToken", JStr "t1") ];
    JObj [ ("continuationToken", JStr "t2") ];
    JObj [ ("value", JArr [ JObj [ ("id", JStr "ra-2") ] ]) ] ].

(** A resolver that knows no name. *)
Definition unknown (name : string) : outcome string :=
  Raise (ValueError ("connection not found: " ++ name)).

Definition strangers : Connections.Env :=
  Connections.mkEnv (Sample.answering 200) unknown Sample.icons.

(** The sample tenant with a server that creates every shortcut. *)
Definition lake (attached : bool) : OneLake.Env :=
  OneLake.mkEnv
    (Sample.answering 201)
    (Ok tt)
    (fun w => match w with
              | Some name => Ok (name, "<" ++ name ++ ">")
              | None => Ok ("Home", "<Home>")
              end)
    (fun dataset _ => Ok ("<" ++ dataset ++ ">"))
    (fun _ _ => Ok tt)
    attached
    (Ok "lh-1") (Ok "ws-1")
    (fun lakehouse _ => Ok ("<" ++ lakehouse ++ ">"))
    (fun _ _ => Ok [ OneLake.mkItemRow "Budget" "item-0";
                     OneLake.mkItemRow "Sales" "item-1" ])
    (fun _ _ => Ok Sample.model_tables)
    Sample.icons.

(** The sample tenant of the scan with other tables in its lakehouse, an
    empty results table, and other workspaces. *)
Definition tenant (tables : list string) (maxRunId : option Z)
    (workspaces : list VertipaqBulk.WorkspaceRow) : VertipaqBulk.Env :=
  VertipaqBulk.mkEnv
    true 20240101
    (Ok "Home") (Ok "lh-1")
    (fun _ _ => Ok "Lake")
    (fun _ _ => Ok tables)
    (fun _ => Ok maxRunId)
    (Ok workspaces)
    (fun _ => Ok ("cap-1", "Capacity"))
    (fun wksp =>
       if String.eqb wksp "Sales"
       then Ok [ VertipaqBulk.mkDatasetRow "Revenue" "ds-1" "ann";
                 VertipaqBulk.mkDatasetRow "Lake" "ds-3" "system" ]
       else if String.eqb wksp "Archive"
       then Ok [ VertipaqBulk.mkDatasetRow "ModelBPA" "ds-4" "system" ]
       else Ok [])
    (fun wksp =>
       if String.eqb wksp "Sales"
       then Ok [ VertipaqBulk.mkItemRow "Revenue" "SemanticModel";
                 VertipaqBulk.mkItemRow "Lake" "Lakehouse";
                 VertipaqBulk.mkItemRow "Lake" "SemanticModel" ]
       else Ok [ VertipaqBulk.mkItemRow "ModelBPA" "SemanticModel" ])
    (fun _ _ _ => Ok [ Sample.stats; Sample.stats; Sample.stats;
                       Sample.stats; Sample.stats; Sample.stats ])
    Sample.icons.

Definition four_workspaces : list VertipaqBulk.WorkspaceRow :=
  [ VertipaqBulk.mkWorkspaceRow "Empty" "ws-0";
    VertipaqBulk.mkWorkspaceRow "Archive" "ws-2";
    VertipaqBulk.mkWorkspaceRow "Sales" "ws-1";
    VertipaqBulk.mkWorkspaceRow "Later" "ws-3" ].

End Cases.
(* ===================================================================== *)
(** * Part II.  Properties *)
(* ===================================================================== *)

(** ** Strings *)

Module StrFacts.

Lemma append_assoc (a b c : string) : (a ++ b) ++ c = a ++ (b ++ c).
Proof. induction a as [| x a IH]; cbn; [reflexivity | now rewrite IH]. Qed.

Lemma append_nil_r (a : string) : a ++ EmptyString = a.
Proof. induction a as [| x a IH]; cbn; [reflexivity | now rewrite IH]. Qed.

Lemma length_append (a b : string) :
  String.length (a ++ b) = String.length a + String.length b.
Proof. induction a as [| x a IH]; cbn; [reflexivity | now rewrite IH]. Qed.

Lemma occurs_intro (pre needle post whole : string) :
  whole = pre ++ needle ++ post -> Str.occurs needle whole.
Proof. intros ->. exists pre, post. reflexivity. Qed.

Lemma mem_In (x : string) (xs : list string) : Str.mem x xs = true <-> In x xs.
Proof.
  unfold Str.mem. rewrite existsb_exists. split.
  - intros (y & Hy & E). apply String.eqb_eq in E. now subst.
  - intros H. exists x. split; [assumption | apply String.eqb_refl].
Qed.

Lemma mem_false (x : string) (xs : list string) : Str.mem x xs = false <-> ~ In x xs.
Proof.
  rewrite <- mem_In. destruct (Str.mem x xs); split; intros H; try reflexivity;
    try discriminate; try (intros H'; discriminate); now elim H.
Qed.

End StrFacts.

(** ** The monad *)

Ltac unfold_run := unfold result_of, trace_of, heap_of, run in *.
Ltac unfold_m := unfold send, print, bind, ret, raise, lift, emit, try_except in *.

Lemma http_requests_app (a b : list event) :
  http_requests (a ++ b)%list = (http_requests a ++ http_requests b)%list.
Proof. unfold http_requests. apply flat_map_app. Qed.

(** ** A program logic for [M]: the rules of [runs] *)

Module Logic.

Section Rules.

Context (phi : event -> Prop) (psi : Frame -> Prop).

Lemma runs_ret {A} (a : A) (post : A -> Prop) :
  post a -> runs phi psi (ret a) post.
Proof.
  intros Hp w Hh o w' E. inversion E; subst. exists []. rewrite app_nil_r.
  repeat split; auto. now intros a' [= <-].
Qed.

Lemma runs_raise {A} (e : exn) (post : A -> Prop) :
  runs phi psi (raise e) post.
Proof.
  intros w Hh o w' E. inversion E; subst. exists []. rewrite app_nil_r.
  repeat split; auto. discriminate.
Qed.

Lemma runs_diverge {A} (post : A -> Prop) :
  runs phi psi (@diverge A) post.
Proof.
  intros w Hh o w' E. inversion E; subst. exists []. rewrite app_nil_r.
  repeat split; auto. discriminate.
Qed.

Lemma runs_lift {A} (o : outcome A) (post : A -> Prop) :
  (forall a, o = Ok a -> post a) -> runs phi psi (lift o) post.
Proof.
  intros Hp w Hh o' w' E. inversion E; subst. exists []. rewrite app_nil_r.
  repeat split; auto.
Qed.

Lemma runs_emit (e : event) :
  phi e -> runs phi psi (emit e) (fun _ => True).
Proof.
  intros He w Hh o w' E. inversion E; subst. exists [e]. cbn.
  repeat split; auto.
Qed.

Lemma runs_bind {A B} (c : M A) (k : A -> M B) (mid : A -> Prop) (post : B -> Prop) :
  runs phi psi c mid ->
  (forall a, mid a -> runs phi psi (k a) post) ->
  runs phi psi (bind c k) post.
Proof.
  intros Hc Hk w Hh o w' E. unfold bind in E.
  destruct (c w) as [o1 w1] eqn:E1.
  destruct (Hc w Hh o1 w1 E1) as (ev1 & Ht1 & Hphi1 & Hh1 & Hmid).
  destruct o1 as [a | e |].
  - destruct (Hk a (Hmid a eq_refl) w1 Hh1 o w' E) as (ev2 & Ht2 & Hphi2 & Hh2 & Hpost).
    exists (ev1 ++ ev2)%list. rewrite Ht2, Ht1, app_assoc.
    repeat split; auto. now apply Forall_app.
  - inversion E; subst. exists ev1. repeat split; auto. discriminate.
  - inversion E; subst. exists ev1. repeat split; auto. discriminate.
Qed.

Lemma runs_weaken {A} (c : M A) (post post' : A -> Prop) :
  runs phi psi c post -> (forall a, post a -> post' a) -> runs phi psi c post'.
Proof.
  intros Hc Hw w Hh o w' E.
  destruct (Hc w Hh o w' E) as (ev & Ht & Hphi & Hh' & Hpost).
  exists ev. repeat split; auto.
Qed.

Lemma runs_try {A} (body : M A) (handler : exn -> M A) (post : A -> Prop) :
  runs phi psi body post ->
  (forall e, runs phi psi (handler e) post) ->
  runs phi psi (try_except body handler) post.
Proof.
  intros Hb Hh w Hw o w' E. unfold try_except in E.
  destruct (body w) as [o1 w1] eqn:E1.
  destruct (Hb w Hw o1 w1 E1) as (ev1 & Ht1 & Hphi1 & Hh1 & Hpost1).
  destruct o1 as [a | e |].
  - inversion E; subst. exists ev1. repeat split; auto.
  - destruct (Hh e w1 Hh1 o w' E) as (ev2 & Ht2 & Hphi2 & Hh2 & Hpost2).
    exists (ev1 ++ ev2)%list. rewrite Ht2, Ht1, app_assoc.
    repeat split; auto. now apply Forall_app.
  - inversion E; subst. exists ev1. repeat split; auto.
Qed.

Lemma runs_for_each {A} (xs : list A) (body : A -> M unit) :
  (forall x, In x xs -> runs phi psi (body x) (fun _ => True)) ->
  runs phi psi (for_each xs body) (fun _ => True).
Proof.
  induction xs as [| x xs IH]; intros Hb; cbn.
  - now apply runs_ret.
  - apply runs_bind with (mid := fun _ => True).
    + apply Hb. now left.
    + intros _ _. apply IH. intros y Hy. apply Hb. now right.
Qed.

Lemma runs_for_fold {A S} (xs : list A) (body : S -> A -> M S) (inv : S -> Prop) :
  (forall s x, In x xs -> inv s -> runs phi psi (body s x) inv) ->
  forall s, inv s -> runs phi psi (for_fold xs s body) inv.
Proof.
  induction xs as [| x xs IH]; intros Hb s Hs; cbn.
  - now apply runs_ret.
  - apply runs_bind with (mid := inv).
    + apply Hb; [now left | assumption].
    + intros s' Hs'. apply IH; [| assumption].
      intros s0 y Hy. apply Hb. now right.
Qed.

Lemma runs_alloc (f : Frame) :
  psi f -> runs phi psi (alloc f) (fun _ => True).
Proof.
  intros Hf w Hh o w' E. inversion E; subst. exists []. cbn. rewrite app_nil_r.
  repeat split; auto. apply Forall_app. split; [assumption | now constructor].
Qed.

Lemma Forall_update_nth (g : Frame -> Frame) (z : nat) (l : list Frame) :
  (forall x, psi x -> psi (g x)) -> Forall psi l -> Forall psi (update_nth z g l).
Proof.
  intros Hg. revert z. induction l as [| x l IH]; intros z Hl; destruct z; cbn;
    try constructor; inversion Hl; subst; auto.
Qed.

Lemma runs_mutate (z : nat) (g : Frame -> Frame) :
  (forall x, psi x -> psi (g x)) -> runs phi psi (mutate z g) (fun _ => True).
Proof.
  intros Hg w Hh o w' E. inversion E; subst. exists []. cbn. rewrite app_nil_r.
  repeat split; auto. now apply Forall_update_nth.
Qed.

Lemma runs_deref (z : nat) :
  runs phi psi (deref z) psi.
Proof.
  intros w Hh o w' E. unfold deref in E.
  destruct (nth_error (heap w) z) as [f |] eqn:Hz; inversion E; subst;
    exists []; rewrite app_nil_r; repeat split; auto; try discriminate.
  intros a [= <-].
  rewrite Forall_forall in Hh. apply Hh. eapply nth_error_In; eassumption.
Qed.

End Rules.

Lemma runs_events {A} (phi phi' : event -> Prop) (psi : Frame -> Prop) (c : M A)
    (post : A -> Prop) :
  (forall e, phi e -> phi' e) -> runs phi psi c post -> runs phi' psi c post.
Proof.
  intros Himp Hc w Hh o w' E.
  destruct (Hc w Hh o w' E) as (ev & Ht & Hphi & Hh' & Hpost).
  exists ev. repeat split; auto. eapply Forall_impl; eassumption.
Qed.

(** The conclusion of [runs] for a whole run from the initial world. *)
Lemma runs_run {A} (phi : event -> Prop) (psi : Frame -> Prop) (c : M A)
    (post : A -> Prop) :
  runs phi psi c post ->
  Forall phi (trace_of c) /\ Forall psi (heap_of c)
  /\ (forall a, result_of c = Ok a -> post a).
Proof.
  intros H. unfold trace_of, heap_of, result_of, run.
  destruct (c world0) as [o w'] eqn:E.
  destruct (H world0 (Forall_nil _) o w' E) as (ev & Ht & Hphi & Hh & Hpost).
  cbn in *. subst. repeat split; auto.
Qed.

End Logic.

(** ** Creating connections *)

Module ConnectionFacts.
Import Connections.

(** Whatever the server answers, [post_connection] sends one request. *)
Lemma post_connection_trace (env : Env) (request_body : json) :
  trace_of (post_connection env request_body)
  = [Http (mkRequest POST "/v1/connections" (AsJson request_body))].
Proof.
  unfold_run. unfold post_connection. unfold_m. cbn.
  destruct (client env _) as [r | e | ]; cbn; try reflexivity.
  destruct (negb _); reflexivity.
Qed.

(** The outcome of [post_connection] is decided by the status alone. *)
Lemma post_connection_result (env : Env) (request_body : json) (r : Response) :
  client env (mkRequest POST "/v1/connections" (AsJson request_body)) = Ok r ->
  result_of (post_connection env request_body)
  = if Z.eqb (status_code r) 201 then Ok tt else Raise (FabricHTTPException r).
Proof.
  intros H. unfold_run. unfold post_connection. unfold_m. cbn. rewrite H. cbn.
  destruct (Z.eqb _ _); reflexivity.
Qed.

(** C7.  The payloads of the three create-connection functions.  For
    every call, whatever the server answers, exactly one request is sent:
    a POST to /v1/connections whose JSON body is the field map written out
    below, key by key and in this order.  The cloud and the vnet body carry
    credentialType, username and password under credentials; the on-prem
    body carries a top-level gatewayId and, under credentials,
    credentialType and a values array with one gatewayId/credentials entry
    (the vnet body carries the top-level gatewayId too).  In all three
    skipTestConnection is false.  connectivityType, singleSignOnType and
    connectionEncryption hold what the caller passed, null for an argument
    passed as [None]; when the caller leaves them out they hold the
    defaults of the signature: the connectivity type of the function,
    'None' and 'Encyrpted'. *)
Theorem create_connection_payloads
    (env : Env)
    (connection_name gateway_id server_name database_name credential_type
     user_name password credentials privacy_level : string)
    (connectivity_type single_sign_on_type encryption : option string) :
  let given (v : option string) : json :=
    match v with Some s => JStr s | None => JNull end in
  let details :=
    JObj [ ("type", JStr "SQL");
           ("parameters",
            JArr [ JObj [("name", JStr "server"); ("value", JStr server_name)];
                   JObj [("name", JStr "database"); ("value", JStr database_name)] ]) ] in
  let cloud (c s e : json) :=
    JObj [ ("connectivityType", c);
           ("name", JStr connection_name);
           ("connectionDetails", details);
           ("privacyLevel", JStr privacy_level);
           ("credentialDetails",
            JObj [ ("singleSignOnType", s);
                   ("connectionEncryption", e);
                   ("skipTestConnection", JBool false);
                   ("credentials",
                    JObj [ ("credentialType", JStr credential_type);
                           ("username", JStr user_name);
                           ("password", JStr password) ]) ]) ] in
  let on_prem (c s e : json) :=
    JObj [ ("connectivityType", c);
           ("gatewayId", JStr gateway_id);
           ("name", JStr connection_name);
           ("connectionDetails", details);
           ("privacyLevel", JStr privacy_level);
           ("credentialDetails",
            JObj [ ("singleSignOnType", s);
                   ("connectionEncryption", e);
                   ("skipTestConnection", JBool false);
                   ("credentials",
                    JObj [ ("credentialType", JStr credential_type);
                           ("values",
                            JArr [ JObj [ ("gatewayId", JStr gateway_id);
                                          ("credentials", JStr credentials) ] ]) ]) ]) ] in
  let vnet (c s e : json) :=
    JObj [ ("connectivityType", c);
           ("gatewayId", JStr gateway_id);
           ("name", JStr connection_name);
           ("connectionDetails", details);
           ("privacyLevel", JStr privacy_level);
           ("credentialDetails",
            JObj [ ("singleSignOnType", s);
                   ("connectionEncryption", e);
                   ("skipTestConnection", JBool false);
                   ("credentials",
                    JObj [ ("credentialType", JStr credential_type);
                           ("username", JStr user_name);
                           ("password", JStr password) ]) ]) ] in
  let post (body : json) := [mkRequest POST "/v1/connections" (AsJson body)] in
  (* what the caller passed is what is sent *)
  http_requests (trace_of (create_connection_cloud env connection_name server_name
      database_name credential_type user_name password privacy_level
      connectivity_type single_sign_on_type encryption))
    = post (cloud (given connectivity_type) (given single_sign_on_type) (given encryption))
  /\ http_requests (trace_of (create_connection_on_prem env connection_name gateway_id
      server_name database_name credential_type credentials privacy_level
      connectivity_type single_sign_on_type encryption))
    = post (on_prem (given connectivity_type) (given single_sign_on_type)
              (given encryption))
  /\ http_requests (trace_of (create_connection_vnet env connection_name gateway_id
      server_name database_name user_name password credential_type privacy_level
      connectivity_type single_sign_on_type encryption))
    = post (vnet (given connectivity_type) (given single_sign_on_type) (given encryption))
  (* the optional arguments left out *)
  /\ http_requests (trace_of (create_connection_cloud env connection_name server_name
      database_name credential_type user_name password privacy_level
      cloud_connectivity_type default_single_sign_on_type default_encryption))
    = post (cloud (JStr "ShareableCloud") (JStr "None") (JStr "Encyrpted"))
  /\ http_requests (trace_of (create_connection_on_prem env connection_name gateway_id
      server_name database_name credential_type credentials privacy_level
      on_prem_connectivity_type default_single_sign_on_type default_encryption))
    = post (on_prem (JStr "OnPremisesDataGateway") (JStr "None") (JStr "Encyrpted"))
  /\ http_requests (trace_of (create_connection_vnet env connection_name gateway_id
      server_name database_name user_name password credential_type privacy_level
      vnet_connectivity_type default_single_sign_on_type default_encryption))
    = post (vnet (JStr "VirtualNetworkDataGateway") (JStr "None") (JStr "Encyrpted")).
Proof.
  cbv zeta.
  unfold create_connection_cloud, create_connection_on_prem, create_connection_vnet.
  rewrite !post_connection_trace.
  repeat split.
Qed.

(** ** Role assignments and deletion *)

#[local] Arguments Str.mem : simpl never.

Lemma invalid_principal_type_names (ic : Icons) (principal_type : string) :
  Str.occurs (Str.repr principal_type) (invalid_principal_type ic principal_type)
  /\ Str.occurs (Str.repr_list principal_types) (invalid_principal_type ic principal_type).
Proof.
  unfold invalid_principal_type, Str.repr. split.
  - apply StrFacts.occurs_intro with
      (pre := red_dot ic ++ " ")
      (post := " is not a valid 'principal_type'. Valid options: "
                 ++ Str.repr_list principal_types ++ ".").
    rewrite !StrFacts.append_assoc. reflexivity.
  - apply StrFacts.occurs_intro with
      (pre := red_dot ic ++ " '" ++ principal_type
                ++ "' is not a valid 'principal_type'. Valid options: ")
      (post := ".").
    rewrite !StrFacts.append_assoc. reflexivity.
Qed.

Lemma invalid_role_names (ic : Icons) (role : string) :
  Str.occurs (Str.repr role) (invalid_role ic role)
  /\ Str.occurs (Str.repr_list connection_roles) (invalid_role ic role).
Proof.
  unfold invalid_role, Str.repr. split.
  - apply StrFacts.occurs_intro with
      (pre := red_dot ic ++ " ")
      (post := " is not a valid 'role'. Valid options: "
                 ++ Str.repr_list connection_roles ++ ".").
    rewrite !StrFacts.append_assoc. reflexivity.
  - apply StrFacts.occurs_intro with
      (pre := red_dot ic ++ " '" ++ role ++ "' is not a valid 'role'. Valid options: ")
      (post := ".").
    rewrite !StrFacts.append_assoc. reflexivity.
Qed.

(** The allowed sets, as they are printed. *)
Example principal_types_repr :
  Str.repr_list principal_types
  = "['Group', 'ServicePrincipal', 'ServicePrincipalProfile', 'User']".
Proof. reflexivity. Qed.

Example connection_roles_repr :
  Str.repr_list connection_roles = "['Owner', 'User', 'UserWithReshare']".
Proof. reflexivity. Qed.

(** With an invalid value the function sends nothing, whatever the
    resolver answered. *)
Lemma add_role_invalid_sends_nothing (env : Env)
    (connection_name email_address principal_type role : string) :
  Str.mem principal_type principal_types = false
  \/ Str.mem role connection_roles = false ->
  http_requests (trace_of (add_connection_role_assignemnt env connection_name
                             email_address principal_type role)) = [].
Proof.
  intros Hbad. unfold_run. unfold add_connection_role_assignemnt, resolve. unfold_m. cbn.
  destruct (resolve_connection_id env connection_name) as [id | e | ]; cbn;
    try reflexivity.
  destruct (Str.mem principal_type principal_types); cbn; try reflexivity.
  destruct Hbad as [Hbad | Hbad]; [discriminate |].
  rewrite Hbad. reflexivity.
Qed.

Lemma add_role_invalid_principal_type (env : Env)
    (connection_name email_address principal_type role id : string) :
  resolve_connection_id env connection_name = Ok id ->
  Str.mem principal_type principal_types = false ->
  result_of (add_connection_role_assignemnt env connection_name email_address
               principal_type role)
  = Raise (ValueError (invalid_principal_type (icons env) principal_type)).
Proof.
  intros Hid Hbad. unfold_run. unfold add_connection_role_assignemnt, resolve.
  unfold_m. cbn. rewrite Hid. cbn. rewrite Hbad. reflexivity.
Qed.

Lemma add_role_invalid_role (env : Env)
    (connection_name email_address principal_type role id : string) :
  resolve_connection_id env connection_name = Ok id ->
  Str.mem principal_type principal_types = true ->
  Str.mem role connection_roles = false ->
  result_of (add_connection_role_assignemnt env connection_name email_address
               principal_type role)
  = Raise (ValueError (invalid_role (icons env) role)).
Proof.
  intros Hid Hpt Hbad. unfold_run. unfold add_connection_role_assignemnt, resolve.
  unfold_m. cbn. rewrite Hid. cbn. rewrite Hpt, Hbad. reflexivity.
Qed.

(** With valid values the request goes out once and its status decides. *)
Lemma add_role_settles (env : Env)
    (connection_name email_address principal_type role id : string) :
  resolve_connection_id env connection_name = Ok id ->
  Str.mem principal_type principal_types = true ->
  Str.mem role connection_roles = true ->
  Spec.settles 201 (client env)
    (Spec.role_assignment_request id email_address principal_type role)
    (add_connection_role_assignemnt env connection_name email_address principal_type role).
Proof.
  intros Hid Hpt Hrole r Hr. unfold Spec.role_assignment_request in *.
  unfold_run. unfold add_connection_role_assignemnt, resolve. unfold_m. cbn.
  rewrite Hid. cbn. rewrite Hpt, Hrole. cbn in Hr |- *. rewrite Hr. cbn.
  destruct (Z.eqb_spec (status_code r) 201) as [E | E]; cbn;
    repeat split; intros; try reflexivity; congruence.
Qed.

Lemma delete_connection_settles (env : Env) (connection_name id : string) :
  resolve_connection_id env connection_name = Ok id ->
  Spec.settles 200 (client env)
    (mkRequest DELETE ("/v1/connections/" ++ id) NoBody)
    (delete_connection env connection_name).
Proof.
  intros Hid r Hr. unfold_run. unfold delete_connection, resolve. unfold_m. cbn.
  rewrite Hid. cbn in Hr |- *. rewrite Hr. cbn.
  destruct (Z.eqb_spec (status_code r) 200) as [E | E]; cbn;
    repeat split; intros; try reflexivity; congruence.
Qed.

Lemma post_connection_settles (env : Env) (request_body : json) :
  Spec.settles 201 (client env)
    (mkRequest POST "/v1/connections" (AsJson request_body))
    (post_connection env request_body).
Proof.
  intros r Hr. rewrite post_connection_trace, (post_connection_result _ _ _ Hr).
  destruct (Z.eqb_spec (status_code r) 201) as [E | E];
    repeat split; intros; try reflexivity; congruence.
Qed.

(** C2 (as amended).  In [add_connection_role_assignemnt] a principal type
    outside [principal_types], or a role outside [connection_roles], stops
    the call before its POST: no request is sent, and once the connection
    name has been resolved the call raises a [ValueError] whose message
    holds the offending value and the allowed set (the principal type is
    checked first).  The three create-connection functions check nothing:
    whatever credential type and connectivity type they are given goes out
    in the one POST they send. *)
Theorem enum_validation_precedes_post
    (env : Env) (connection_name email_address principal_type role : string)
    (Hbad : Str.mem principal_type principal_types = false
            \/ Str.mem role connection_roles = false) :
  let add := add_connection_role_assignemnt env connection_name email_address
               principal_type role in
  http_requests (trace_of add) = []
  /\ (forall id, resolve_connection_id env connection_name = Ok id ->
        exists msg,
          result_of add = Raise (ValueError msg)
          /\ ((Str.mem principal_type principal_types = false
               /\ Str.occurs (Str.repr principal_type) msg
               /\ Str.occurs (Str.repr_list principal_types) msg)
              \/ (Str.mem principal_type principal_types = true
                  /\ Str.occurs (Str.repr role) msg
                  /\ Str.occurs (Str.repr_list connection_roles) msg)))
  /\ (forall name gateway server database user password credentials privacy
             credential_type connectivity_type sso encryption,
        exists cloud on_prem vnet,
          http_requests (trace_of (create_connection_cloud env name server database
             credential_type user password privacy (Some connectivity_type) sso encryption))
            = [mkRequest POST "/v1/connections" (AsJson cloud)]
          /\ http_requests (trace_of (create_connection_on_prem env name gateway server
             database credential_type credentials privacy (Some connectivity_type) sso
             encryption))
            = [mkRequest POST "/v1/connections" (AsJson on_prem)]
          /\ http_requests (trace_of (create_connection_vnet env name gateway server
             database user password credential_type privacy (Some connectivity_type) sso
             encryption))
            = [mkRequest POST "/v1/connections" (AsJson vnet)]
          /\ Forall (fun b =>
               Json.path ["connectivityType"] b = Some (JStr connectivity_type)
               /\ Json.path ["credentialDetails"; "credentials"; "credentialType"] b
                  = Some (JStr credential_type))
             [cloud; on_prem; vnet]).
Proof.
  cbv zeta. split; [| split].
  - now apply add_role_invalid_sends_nothing.
  - intros id Hid.
    destruct (Str.mem principal_type principal_types) eqn:Hpt.
    + destruct Hbad as [Hbad | Hbad]; [discriminate |].
      exists (invalid_role (icons env) role). split.
      * now apply add_role_invalid_role with (id := id).
      * right. split; [reflexivity | apply invalid_role_names].
    + exists (invalid_principal_type (icons env) principal_type). split.
      * now apply add_role_invalid_principal_type with (id := id).
      * left. split; [reflexivity | apply invalid_principal_type_names].
  - intros. do 3 eexists.
    unfold create_connection_cloud, create_connection_on_prem, create_connection_vnet.
    rewrite !post_connection_trace.
    repeat split. repeat constructor.
Qed.

Lemma enum_validation_precedes_post_witness :
  (Str.mem "Robot" principal_types = false \/ Str.mem "Owner" connection_roles = false)
  /\ http_requests (trace_of (add_connection_role_assignemnt (Sample.connections 201)
                                "sales" "a@contoso.com" "Robot" "Owner")) = [].
Proof.
  split.
  - left. reflexivity.
  - apply (enum_validation_precedes_post (Sample.connections 201) "sales"
             "a@contoso.com" "Robot" "Owner").
    left. reflexivity.
Defined.

(** C2 (as the claim words it) fails: with the principal type ["Robot"],
    which is not allowed, the connection name is resolved (a network call)
    before the value is rejected; and [create_connection_cloud] accepts a
    credential type and a connectivity type that are no member of any
    documented set, posts them and returns. *)
Lemma enum_validation_counterexample :
  Str.mem "Robot" principal_types = false
  /\ network_calls (trace_of (add_connection_role_assignemnt (Sample.connections 201)
                                "sales" "a@contoso.com" "Robot" "Owner"))
     = [Resolve "resolve_connection_id" ["sales"]]
  /\ result_of (create_connection_cloud (Sample.connections 201) "sales" "srv" "db"
                  "no such credential type" "u" "p" "None"
                  (Some "no such connectivity type") None None)
     = Ok tt
  /\ network_calls (trace_of (create_connection_cloud (Sample.connections 201) "sales"
                                "srv" "db" "no such credential type" "u" "p" "None"
                                (Some "no such connectivity type") None None))
     = [Http (mkRequest POST "/v1/connections"
                (AsJson (cloud_request_body "sales" "srv" "db" "no such credential type"
                           "u" "p" "None" (Some "no such connectivity type") None None)))].
Proof. repeat split. Qed.

(** ** Listing *)

Lemma len_concat (a b : Frame) : Pd.len (Pd.concat a b) = Pd.len a + Pd.len b.
Proof. unfold Pd.len, Pd.concat. cbn. now rewrite length_map, length_app. Qed.

Lemma len_of_record (d : list (string * json)) (f : Frame) :
  Pd.of_record d = Ok f -> Pd.len f = 1.
Proof.
  unfold Pd.of_record. destruct (Pd.row_of_record d); intros H; inversion H.
  reflexivity.
Qed.

Lemma append_record_len (nd : json -> outcome (list (string * json)))
    (df f : Frame) (i : json) :
  append_record nd df i = Ok f -> Pd.len f = Pd.len df + 1.
Proof.
  unfold append_record, and_then.
  destruct (nd i) as [d | |]; try discriminate.
  destruct (Pd.of_record d) as [one | |] eqn:E; try discriminate.
  intros H. inversion H. rewrite len_concat. now rewrite (len_of_record _ _ E).
Qed.

Lemma append_records_len (nd : json -> outcome (list (string * json)))
    (items : list json) :
  forall df f, append_records nd df items = Ok f ->
               Pd.len f = Pd.len df + List.length items.
Proof.
  induction items as [| i items IH]; cbn; intros df f H.
  - inversion H. lia.
  - unfold and_then in H.
    destruct (append_record nd df i) as [df' | |] eqn:E; try discriminate.
    rewrite (IH _ _ H), (append_record_len _ _ _ _ E). lia.
Qed.

Lemma len_astype_bool (c : string) (df : Frame) :
  Pd.len (Pd.astype_bool c df) = Pd.len df.
Proof. unfold Pd.len, Pd.astype_bool. cbn. apply length_map. Qed.

Lemma page_items_spec (page : json) (value : json) (items : list json) :
  Json.get page "value" (JArr []) = Ok value ->
  Json.iter value = Ok items ->
  Spec.page_items page = items.
Proof. intros Hv Hi. unfold Spec.page_items, and_then. now rewrite Hv, Hi. Qed.

(** [list_connections] sends one request, whatever comes back. *)
Lemma list_connections_one_request (env : Env) :
  http_requests (trace_of (list_connections env))
  = [mkRequest GET "/v1/connections" NoBody].
Proof.
  unfold_run. unfold list_connections. unfold_m. cbn.
  destruct (client env _) as [r | e |]; cbn; try reflexivity.
  destruct (negb _); cbn; try reflexivity.
  destruct (Json.get (body r) "value" (JArr [])) as [v | |]; cbn; try reflexivity.
  destruct (Json.iter v) as [items | |]; cbn; try reflexivity.
  destruct (append_records _ _ items); reflexivity.
Qed.

(** The rows of its result are the items of that one response. *)
Lemma list_connections_rows (env : Env) (df : Frame) :
  result_of (list_connections env) = Ok df ->
  exists r, client env (mkRequest GET "/v1/connections" NoBody) = Ok r
            /\ Pd.len df = List.length (Spec.page_items (body r)).
Proof.
  unfold_run. unfold list_connections. unfold_m. cbn.
  destruct (client env _) as [r | e |]; cbn; try discriminate.
  destruct (negb _); cbn; try discriminate.
  destruct (Json.get (body r) "value" (JArr [])) as [v | |] eqn:Hv; cbn; try discriminate.
  destruct (Json.iter v) as [items | |] eqn:Hi; cbn; try discriminate.
  destruct (append_records _ _ items) as [f | |] eqn:Hf; cbn; try discriminate.
  intros H. inversion H. exists r. split; [reflexivity |].
  rewrite len_astype_bool, (append_records_len _ _ _ _ Hf).
  now rewrite (page_items_spec _ _ _ Hv Hi).
Qed.

(** *** The paginated sibling *)

Lemma append_pages_len (pages : list json) :
  forall df f, append_pages df pages = Ok f ->
               Pd.len f = Pd.len df + List.length (flat_map Spec.page_items pages).
Proof.
  induction pages as [| p pages IH]; cbn; intros df f H.
  - inversion H. lia.
  - unfold and_then in H.
    destruct (Json.get p "value" (JArr [])) as [v | |] eqn:Hv; try discriminate.
    destruct (Json.iter v) as [items | |] eqn:Hi; try discriminate.
    destruct (append_records _ df items) as [df' | |] eqn:E; try discriminate.
    rewrite (IH _ _ H), (append_records_len _ _ _ _ E), length_app.
    rewrite (page_items_spec _ _ _ Hv Hi). lia.
Qed.

(** Along a chain of linked pages, with fuel for every link, [follow]
    returns the pages in the order the server linked them. *)
Lemma follow_chain (cl : Client) (page : json) (rest : list json) :
  Spec.chain cl page rest ->
  forall fuel seen w,
    List.length rest <= fuel ->
    exists w', Helper.follow fuel cl page seen w = (Ok (seen ++ page :: rest)%list, w').
Proof.
  induction 1 as [page members Hp Htok
                 | page members token u r rest Hp Htok Hnn Huri Hr Hch IH];
    intros fuel seen w Hfuel; subst page.
  - destruct fuel; cbn; unfold_m; cbn;
      destruct (Json.lookup "continuationToken" members) as [[] |];
      try contradiction; cbn;
      destruct (Json.lookup "continuationUri" members); cbn; eexists; reflexivity.
  - destruct fuel as [| fuel]; [cbn in Hfuel; lia |].
    cbn in Hfuel. apply le_S_n in Hfuel.
    destruct (IH fuel (seen ++ [JObj members])%list
                (mkWorld (trace w ++ [Http (mkRequest GET u NoBody)])%list (heap w)) Hfuel)
      as (w' & Hw').
    exists w'. cbn. unfold_m. cbn. rewrite Htok, Huri. cbn.
    rewrite Hr. cbn.
    destruct token; try congruence;
      (etransitivity; [exact Hw' |]); now rewrite <- app_assoc.
Qed.

(** [list_connection_role_assignments] reads every page of the chain: the
    row count of its result is the number of items of all pages. *)
Lemma role_assignments_all_pages (env : Env) (fuel : nat)
    (connection_name id : string) (r : Response) (rest : list json) (df : Frame) :
  resolve_connection_id env connection_name = Ok id ->
  client env (mkRequest GET ("/v1/connections/" ++ id ++ "/roleAssignments") NoBody) = Ok r ->
  status_code r = 200%Z ->
  Spec.chain (client env) (body r) rest ->
  List.length rest <= fuel ->
  result_of (list_connection_role_assignments fuel env connection_name) = Ok df ->
  Pd.len df = List.length (flat_map Spec.page_items (body r :: rest)).
Proof.
  intros Hid Hr Hst Hch Hfuel.
  unfold_run. unfold list_connection_role_assignments, resolve, Helper.pagination.
  unfold_m. cbn. rewrite Hid. cbn in Hr |- *. rewrite Hr. cbn. rewrite Hst. cbn.
  match goal with
  | |- context [Helper.follow fuel ?c ?p ?s ?w] =>
      destruct (follow_chain c p rest Hch fuel s w Hfuel) as (w' & Hw')
  end.
  rewrite Hw'. cbn.
  destruct (Json.get (body r) "value" (JArr [])) as [v | |] eqn:Hv; cbn; try discriminate.
  destruct (Json.iter v) as [items | |] eqn:Hi; cbn; try discriminate.
  destruct (append_records _ _ items) as [df' | |] eqn:E; cbn; try discriminate.
  destruct (append_pages df' rest) as [f | |] eqn:Hf; cbn; try discriminate.
  intros H. inversion H; subst f.
  rewrite (append_pages_len _ _ _ Hf), (append_records_len _ _ _ _ E), length_app.
  rewrite (page_items_spec _ _ _ Hv Hi). cbn. lia.
Qed.

(** *** Projection of one item *)

Lemma get_object (members : list (string * json)) (key : string) (default : json) :
  Json.get (JObj members) key default
  = Ok (match Json.lookup key members with Some v => v | None => default end).
Proof. unfold Json.get. now destruct (Json.lookup key members). Qed.

(** An item without [connectionDetails] and without [credentialDetails]
    is projected without an exception; each missing field is [None]. *)
Lemma connection_new_data_missing (members : list (string * json)) :
  Json.lookup "connectionDetails" members = None ->
  Json.lookup "credentialDetails" members = None ->
  connection_new_data (JObj members)
  = Ok [ ("Connection Id", Spec.field members "id");
         ("Connection Name", Spec.field members "displayName");
         ("Gateway Id", Spec.field members "gatewayId");
         ("Connectivity Type", Spec.field members "connectivityType");
         ("Connection Path", JNull);
         ("Connection Type", JNull);
         ("Privacy Level", Spec.field members "privacyLevel");
         ("Credential Type", JNull);
         ("Single Sign On Type", JNull);
         ("Connection Encryption", JNull);
         ("Skip Test Connection", JNull) ].
Proof.
  intros Hcon Hcred. unfold connection_new_data, credential_field, Spec.field.
  rewrite !get_object, Hcon, Hcred. cbn.
  repeat (rewrite get_object; cbn [and_then]). reflexivity.
Qed.

(** An item without [principal] is projected without an exception. *)
Lemma role_assignment_new_data_missing (members : list (string * json)) :
  Json.lookup "princiapl" members = None ->
  Json.lookup "principal" members = None ->
  role_assignment_new_data (JObj members)
  = Ok [ ("Connection Role Assignment Id", Spec.field members "id");
         ("Principal Id", JNull);
         ("Princiapl Type", JNull);
         ("Role", Spec.field members "role") ].
Proof.
  intros H1 H2. unfold role_assignment_new_data, Spec.field.
  repeat (rewrite get_object; cbn [and_then]). rewrite H1. cbn.
  repeat (rewrite get_object; cbn [and_then]). rewrite H2. cbn.
  repeat (rewrite get_object; cbn [and_then]). reflexivity.
Qed.

(** C1.  Row count and continuation.  [list_connections] sends its one GET
    and never another: at a server that serves two items in two linked
    pages it returns one row, where [list_connection_role_assignments],
    which goes through [pagination], returns two. *)
Theorem list_connections_stops_at_first_page :
  (forall env : Env,
      http_requests (trace_of (list_connections env))
      = [mkRequest GET "/v1/connections" NoBody])
  /\ Spec.chain Sample.two_pages Sample.page1 [Sample.page2]
  /\ List.length (flat_map Spec.page_items [Sample.page1; Sample.page2]) = 2
  /\ (exists df, result_of (list_connections Sample.paged_connections) = Ok df
                 /\ Pd.len df = 1)
  /\ (exists df, result_of (list_connection_role_assignments 1 Sample.paged_connections
                              "sales") = Ok df
                 /\ Pd.len df = 2).
Proof.
  split; [exact list_connections_one_request |].
  split.
  { eapply Spec.chain_next with (token := JStr "t1") (u := Sample.continuation_uri)
                                (r := mkResponse 200 Sample.page2);
      try reflexivity; try discriminate.
    eapply Spec.chain_last; [reflexivity | exact I]. }
  split; [reflexivity |].
  split; eexists; split; reflexivity.
Qed.

(** C9.  Columns of the result.  The keys of [new_data] are not all among
    the declared columns, so a result with a row has more columns than a
    result without one: thirteen against eleven for [list_connections],
    five against four for [list_connection_role_assignments]. *)
Theorem list_columns_depend_on_items :
  (exists df0 df1,
      result_of (list_connections (Sample.serving Sample.no_item)) = Ok df0
      /\ result_of (list_connections (Sample.serving Sample.one_item)) = Ok df1
      /\ columns df0 = connection_columns
      /\ columns df1
         = (connection_columns ++ ["Single Sign On Type"; "Connection Encryption"])%list)
  /\ (exists df0 df1,
      result_of (list_connection_role_assignments 0 (Sample.serving Sample.no_item) "sales")
        = Ok df0
      /\ result_of (list_connection_role_assignments 0 (Sample.serving Sample.one_item) "sales")
        = Ok df1
      /\ columns df0 = role_assignment_columns
      /\ columns df1 = (role_assignment_columns ++ ["Princiapl Type"])%list).
Proof.
  split; do 2 eexists; repeat split.
Qed.

End ConnectionFacts.

(** ** The bulk scan *)

Module BulkFacts.
Import VertipaqBulk.

(** *** Which datasets are scanned *)

Lemma In_unique (x : string) (xs : list string) : In x (Str.unique xs) <-> In x xs.
Proof.
  induction xs as [| y xs IH]; cbn; [tauto |].
  rewrite filter_In, IH. split.
  - intros [H | [H _]]; auto.
  - intros [H | H]; auto.
    destruct (String.eqb_spec y x) as [E | E]; auto.
Qed.

Lemma In_group_types (dfI : list ItemRow) (name t : string) :
  In t (group_types dfI name)
  <-> exists i, In i dfI /\ display_name i = name /\ item_type i = t.
Proof.
  unfold group_types. rewrite in_map_iff. split.
  - intros (i & Ht & Hi). apply filter_In in Hi. destruct Hi as [Hi E].
    apply String.eqb_eq in E. eauto.
  - intros (i & Hi & E & Ht). exists i. split; [assumption |].
    apply filter_In. split; [assumption |]. now apply String.eqb_eq.
Qed.

Lemma is_default_group_spec (types : list string) :
  is_default_group types = true
  <-> In "SemanticModel" types /\ (In "Warehouse" types \/ In "Lakehouse" types).
Proof.
  unfold is_default_group, issubset. cbn.
  rewrite orb_true_iff, !andb_true_iff, !StrFacts.mem_In. tauto.
Qed.

Lemma default_semantic_models_spec (dfI : list ItemRow) (name : string) :
  In name (default_semantic_models dfI) <-> Spec.shadow_model dfI name.
Proof.
  unfold default_semantic_models, Spec.shadow_model.
  rewrite In_unique, in_map_iff. split.
  - intros (i & E & Hi). apply filter_In in Hi. destruct Hi as [Hi Hg].
    rewrite E in Hg. apply is_default_group_spec in Hg.
    rewrite !In_group_types in Hg.
    destruct Hg as [Hs [(j & Hj & Ej & Hw) | (j & Hj & Ej & Hl)]];
      (split; [exact Hs | exists j; auto]).
  - intros [(i & Hi & E & Ht) Hs]. exists i. split; [assumption |].
    apply filter_In. split; [assumption |]. rewrite E.
    apply is_default_group_spec. rewrite !In_group_types.
    split; [eauto |]. destruct Hs as (j & Hj & Ej & [Hw | Hl]); eauto.
Qed.

(** The filter of line 94: a dataset of the workspace passes exactly when
    it is neither a default semantic model (its display name is that of a
    semantic-model item and of a warehouse or lakehouse item) nor the
    model named [icons.model_bpa_name]; in particular a dataset whose name
    belongs to semantic-model items only, and is not that name, passes. *)
Lemma dfD_filt_spec (ic : Icons) (dfI : list ItemRow) (dfD : list DatasetRow)
    (d : DatasetRow) :
  (In d (dfD_filt ic dfI dfD)
   <-> In d dfD
       /\ ~ (Spec.shadow_model dfI (dataset_name d)
             \/ dataset_name d = model_bpa_name ic))
  /\ ((forall i, In i dfI -> display_name i = dataset_name d ->
                 item_type i = "SemanticModel") ->
      dataset_name d <> model_bpa_name ic ->
      In d dfD -> In d (dfD_filt ic dfI dfD)).
Proof.
  assert (Hiff : In d (dfD_filt ic dfI dfD)
                 <-> In d dfD
                     /\ ~ (Spec.shadow_model dfI (dataset_name d)
                           \/ dataset_name d = model_bpa_name ic)).
  { unfold dfD_filt, skip_models. rewrite filter_In, negb_true_iff, StrFacts.mem_false.
    rewrite in_app_iff, default_semantic_models_spec. cbn.
    split; intros [Hd Hn]; split; auto; intros [H | H]; apply Hn; auto.
    destruct H as [H | []]. now right. }
  split; [exact Hiff |].
  intros Honly Hname Hd. apply Hiff. split; [assumption |].
  intros [[_ (i & Hi & E & [Ht | Ht])] | H]; auto;
    rewrite (Honly i Hi E) in Ht; discriminate.
Qed.

(** *** The frames the scan touches *)

Lemma update_nth_fuse {A} (g f : A -> A) (l : list A) :
  forall z, update_nth z g (update_nth z f l) = update_nth z (fun x => g (f x)) l.
Proof.
  induction l as [| x l IH]; intros [| z]; cbn; try reflexivity.
  now rewrite IH.
Qed.

Lemma row_get_row_set (c : string) (v : cell) (r : Row) :
  Pd.row_get c (Pd.row_set c v r) = v.
Proof.
  induction r as [| [k w] r IH]; cbn.
  - now rewrite String.eqb_refl.
  - destruct (String.eqb c k) eqn:E; cbn; rewrite E; [reflexivity | exact IH].
Qed.

Lemma carries_tagging (env : Env) (runId : Z)
    (capacity_id capacity_name wksp wksp_id : string) (d : DatasetRow) (f : Frame) :
  Spec.carries runId (Spec.tagging env runId capacity_id capacity_name wksp wksp_id d f).
Proof.
  unfold Spec.carries, Spec.tagging. intros r Hr.
  unfold Pd.set_col at 1 in Hr. cbn [rows] in Hr.
  apply in_map_iff in Hr. destruct Hr as (r0 & <- & _).
  apply row_get_row_set.
Qed.

(** [tag_frame] changes one stored object, by [Spec.tagging], and nothing
    else. *)
Lemma tag_frame_effect (env : Env) (runId : Z)
    (capacity_id capacity_name wksp wksp_id : string) (d : DatasetRow) (z : nat)
    (w : World) :
  snd (tag_frame env runId capacity_id capacity_name wksp wksp_id d z w)
  = mkWorld (trace w)
      (update_nth z (Spec.tagging env runId capacity_id capacity_name wksp wksp_id d)
                  (heap w)).
Proof.
  unfold tag_frame, Spec.tagging, mutate, deref. unfold_m. cbn.
  rewrite !update_nth_fuse.
  destruct (nth_error _ z) as [zf |]; cbn; [| reflexivity].
  destruct (Pd.select cols zf) as [z' | |]; cbn; try reflexivity.
  destruct (Pd.get_col "RunId" z'); reflexivity.
Qed.

Section Scan.

Context (env : Env) (runId : Z) (psi : Frame -> Prop).
Hypothesis psi_untouched : forall f, Spec.untouched env f -> psi f.
Hypothesis psi_tagging :
  forall capacity_id capacity_name wksp wksp_id d f,
    psi (Spec.tagging env runId capacity_id capacity_name wksp wksp_id d f).

Let phi := Spec.scan_event env.

Lemma runs_tag_frame (capacity_id capacity_name wksp wksp_id : string)
    (d : DatasetRow) (z : nat) :
  runs phi psi (tag_frame env runId capacity_id capacity_name wksp wksp_id d z)
       (fun _ => True).
Proof.
  intros w Hh o w' E.
  assert (Hw : w' = snd (tag_frame env runId capacity_id capacity_name wksp wksp_id d z w))
    by now rewrite E.
  rewrite tag_frame_effect in Hw. subst w'. exists []. cbn. rewrite List.app_nil_r.
  repeat split; auto.
  apply Logic.Forall_update_nth; [| assumption]. intros x _. apply psi_tagging.
Qed.

Lemma runs_alloc_all (fs : list Frame) :
  Forall psi fs -> runs phi psi (alloc_all fs) (fun _ => True).
Proof.
  induction fs as [| f fs IH]; intros Hfs; cbn.
  - now apply Logic.runs_ret.
  - inversion Hfs; subst.
    apply Logic.runs_bind with (mid := fun _ => True); [now apply Logic.runs_alloc |].
    intros r _. apply Logic.runs_bind with (mid := fun _ => True); [now apply IH |].
    intros rs _. now apply Logic.runs_ret.
Qed.

Lemma runs_call {A} (fn : string) (args : list string) (answer : outcome A) :
  phi (Call fn args) -> runs phi psi (call fn args answer) (fun a => answer = Ok a).
Proof.
  intros Hphi. unfold call.
  apply Logic.runs_bind with (mid := fun _ => True); [now apply Logic.runs_emit |].
  intros _ _. apply Logic.runs_lift. auto.
Qed.

Lemma runs_print (msg : string) : runs phi psi (print msg) (fun _ => True).
Proof. apply Logic.runs_emit. constructor. Qed.

(** The body of the [try] never completes: what it does not raise
    earlier, the read of [bpa_df] raises. *)
Lemma runs_analyze_dataset (flag : bool)
    (capacity_id capacity_name wksp wksp_id : string) (df : Frame) (d : DatasetRow) :
  phi (Call "vertipaq_analyzer" [dataset_name d; wksp]) ->
  runs phi psi
       (analyze_dataset env flag runId capacity_id capacity_name wksp wksp_id df d)
       (fun _ => False).
Proof.
  intros Hphi. unfold analyze_dataset.
  eapply Logic.runs_bind; [now apply runs_call |].
  intros fs Hfs. cbn beta in Hfs.
  apply Logic.runs_bind with (mid := fun _ => True).
  { unfold unpack6. destruct (Nat.eqb _ 6); [| apply Logic.runs_raise].
    apply runs_alloc_all. apply Forall_forall. intros f Hf.
    apply psi_untouched. now exists (dataset_name d), wksp, flag, fs. }
  intros zs _.
  apply Logic.runs_bind with (mid := fun _ => True).
  { apply Logic.runs_for_each. intros z _. apply runs_tag_frame. }
  intros _ _.
  apply Logic.runs_bind with (mid := fun _ => False); [apply Logic.runs_raise |].
  intros bpa_df [].
Qed.

(** One turn of the dataset loop hands back the [df] it was given. *)
Lemma runs_scan_dataset (flag : bool)
    (capacity_id capacity_name wksp wksp_id : string) (df : Frame) (d : DatasetRow) :
  phi (Call "vertipaq_analyzer" [dataset_name d; wksp]) ->
  runs phi psi
       (scan_dataset env flag runId capacity_id capacity_name wksp wksp_id df d)
       (fun df' => df' = df).
Proof.
  intros Hphi. unfold scan_dataset.
  apply Logic.runs_bind with (mid := fun _ => True); [apply runs_print |].
  intros _ _. apply Logic.runs_try.
  - eapply Logic.runs_weaken; [now apply runs_analyze_dataset |]. intros a [].
  - intros e.
    apply Logic.runs_bind with (mid := fun _ => True); [apply runs_print |].
    intros _ _.
    apply Logic.runs_bind with (mid := fun _ => True);
      [apply Logic.runs_emit; constructor |].
    intros _ _. now apply Logic.runs_ret.
Qed.

(** With the frame the loop starts from, [save_workspace] stops at the
    read of the column ["Severity"]. *)
Lemma runs_save_workspace (wksp lakehouse lakehouse_workspace : string) :
  runs phi psi (save_workspace env wksp lakehouse lakehouse_workspace (Pd.empty cols))
       (fun _ => False).
Proof.
  unfold save_workspace.
  apply Logic.runs_bind with (mid := fun _ => False).
  - apply Logic.runs_lift. cbn. discriminate.
  - intros df [].
Qed.

Lemma runs_scan_workspace (flag : bool) (lakehouse lakehouse_workspace : string)
    (r : WorkspaceRow) :
  runs phi psi (scan_workspace env flag runId lakehouse lakehouse_workspace r)
       (fun _ => True).
Proof.
  unfold scan_workspace.
  eapply Logic.runs_bind; [apply runs_call; constructor |].
  intros [capacity_id capacity_name] _.
  eapply Logic.runs_bind; [apply runs_call; constructor |].
  intros dfD HdfD. cbn beta in HdfD.
  destruct (Nat.ltb 0 (List.length dfD)); [| now apply Logic.runs_ret].
  eapply Logic.runs_bind; [apply runs_call; constructor |].
  intros dfI HdfI. cbn beta in HdfI.
  destruct (Nat.ltb 0 _); [| now apply Logic.runs_ret].
  apply Logic.runs_bind with (mid := fun df => df = Pd.empty cols).
  - apply Logic.runs_for_fold with (inv := fun df => df = Pd.empty cols);
      [| reflexivity].
    intros s d Hd ->. apply runs_scan_dataset.
    now apply Spec.scan_analyze with (dfD := dfD) (dfI := dfI).
  - intros df ->. eapply Logic.runs_weaken; [apply runs_save_workspace |].
    intros a [].
Qed.

Lemma runs_after_run_id (workspace : workspace_arg) (flag : bool)
    (lakehouse lakehouse_workspace : string) :
  runs phi psi (Spec.after_run_id env workspace flag lakehouse lakehouse_workspace runId)
       (fun _ => True).
Proof.
  unfold Spec.after_run_id.
  eapply Logic.runs_bind; [apply runs_call; constructor |].
  intros dfW _.
  apply Logic.runs_bind with (mid := fun _ => True).
  - apply Logic.runs_for_each. intros r _. apply runs_scan_workspace.
  - intros _ _. apply runs_print.
Qed.

End Scan.

(** *** The whole scan *)

#[local] Arguments Spec.after_run_id : simpl never.

Lemma bulk_unfold (env : Env) (workspace : workspace_arg) (flag : bool) :
  vertipaq_analyzer_bulk env workspace flag
  = if negb (lakehouse_attached env)
    then raise (ValueError (red_dot (icons env)
           ++ " No lakehouse is attached to this notebook. Must attach a lakehouse to the notebook."))
    else
      bind (call "resolve_workspace_name" [] (resolve_workspace_name env))
        (fun lakehouse_workspace =>
      bind (call "get_lakehouse_id" [] (get_lakehouse_id env))
        (fun lakehouse_id =>
      bind (call "resolve_lakehouse_name" [lakehouse_id; lakehouse_workspace]
              (resolve_lakehouse_name env lakehouse_id lakehouse_workspace))
        (fun lakehouse =>
      bind (determine_run_id env lakehouse lakehouse_workspace lakehouse_id)
        (fun runId =>
           Spec.after_run_id env workspace flag lakehouse lakehouse_workspace runId)))).
Proof. reflexivity. Qed.

Lemma table_absent (tables : list string) :
  Nat.eqb (List.length (filter (fun t => String.eqb t lakeTName) tables)) 0
  = negb (Str.mem lakeTName tables).
Proof.
  unfold Str.mem.
  induction tables as [| t tables IH]; cbn [filter existsb List.length];
    [reflexivity |].
  rewrite (String.eqb_sym lakeTName t).
  destruct (String.eqb t lakeTName); cbn [List.length orb negb Nat.eqb];
    [reflexivity | exact IH].
Qed.

(** The run id: 1 without the results table, the largest stored run id
    plus one with it; the world only gains the one or two queries. *)
Lemma determine_run_id_value (env : Env) (lakehouse lakehouse_workspace lakehouse_id : string)
    (tables : list string) (maxRunId : Z) (w : World) :
  get_lakehouse_tables env lakehouse lakehouse_workspace = Ok tables ->
  (Str.mem lakeTName tables = true ->
   spark_max_run_id env (Spec.run_id_table lakehouse_id) = Ok (Some maxRunId)) ->
  determine_run_id env lakehouse lakehouse_workspace lakehouse_id w
  = (Ok (Spec.expected_run_id tables maxRunId),
     mkWorld
       (trace w
        ++ Call "get_lakehouse_tables" [lakehouse; lakehouse_workspace]
           :: (if Str.mem lakeTName tables
               then [Call "spark.table.select.max.collect"
                       [Spec.run_id_table lakehouse_id; "RunId"]]
               else []))%list
       (heap w)).
Proof.
  intros Htables Hmax.
  unfold determine_run_id, call, Spec.expected_run_id. unfold_m.
  cbn [fst snd trace heap]. rewrite Htables, table_absent.
  fold (Spec.run_id_table lakehouse_id).
  destruct (Str.mem lakeTName tables); cbn [negb fst snd trace heap].
  - rewrite (Hmax eq_refl). cbn [trace heap]. now rewrite <- List.app_assoc.
  - reflexivity.
Qed.

Lemma runs_call_any {A} (phi : event -> Prop) (psi : Frame -> Prop)
    (fn : string) (args : list string) (answer : outcome A) :
  phi (Call fn args) -> runs phi psi (call fn args answer) (fun _ => True).
Proof.
  intros Hphi. unfold call.
  apply Logic.runs_bind with (mid := fun _ => True); [now apply Logic.runs_emit |].
  intros _ _. now apply Logic.runs_lift.
Qed.

(** Every event of a scan is a call of the prelude or an event of the
    loop over the workspaces. *)
Lemma runs_bulk (env : Env) (workspace : workspace_arg) (flag : bool) :
  runs (Spec.bulk_event env) (fun _ => True) (vertipaq_analyzer_bulk env workspace flag)
       (fun _ => True).
Proof.
  rewrite bulk_unfold. destruct (negb _); [apply Logic.runs_raise |].
  eapply Logic.runs_bind; [apply runs_call_any; left; constructor |].
  intros lw _.
  eapply Logic.runs_bind; [apply runs_call_any; left; constructor |].
  intros lid _.
  eapply Logic.runs_bind; [apply runs_call_any; left; constructor |].
  intros lh _.
  apply Logic.runs_bind with (mid := fun _ => True).
  - unfold determine_run_id.
    eapply Logic.runs_bind; [apply runs_call_any; left; constructor |].
    intros lakeT _. destruct (Nat.eqb _ 0); [now apply Logic.runs_ret |].
    eapply Logic.runs_bind; [apply runs_call_any; left; constructor |].
    intros [m |] _; [now apply Logic.runs_ret | apply Logic.runs_raise].
  - intros runId _.
    apply Logic.runs_events with (phi := Spec.scan_event env); [now right |].
    apply runs_after_run_id; auto.
Qed.

Lemma saved_none (t : list event) :
  Forall (fun e => match e with SaveAsDeltaTable _ _ _ _ => False | _ => True end) t ->
  saved t = [].
Proof.
  induction 1 as [| e t He _ IH]; cbn; [reflexivity |].
  destruct e; try contradiction; exact IH.
Qed.

Lemma bulk_event_is_no_save (env : Env) (e : event) :
  Spec.bulk_event env e ->
  match e with SaveAsDeltaTable _ _ _ _ => False | _ => True end.
Proof. intros [H | H]; destruct H; exact I. Qed.

(** Whatever the collaborators answer, [save_as_delta_table] is not
    reached. *)
Lemma bulk_saves_nothing (env : Env) (workspace : workspace_arg) (flag : bool) :
  saved (trace_of (vertipaq_analyzer_bulk env workspace flag)) = [].
Proof.
  apply saved_none.
  destruct (Logic.runs_run _ _ _ _ (runs_bulk env workspace flag)) as (Ht & _).
  eapply Forall_impl; [| exact Ht]. apply bulk_event_is_no_save.
Qed.

(** Only datasets that passed the filter of their workspace are handed to
    the analyzer. *)
Lemma bulk_analyzes_filtered (env : Env) (workspace : workspace_arg) (flag : bool)
    (dataset wksp : string) :
  In (Call "vertipaq_analyzer" [dataset; wksp])
     (trace_of (vertipaq_analyzer_bulk env workspace flag)) ->
  exists dfD dfI d,
    list_datasets env wksp = Ok dfD /\ list_items env wksp = Ok dfI
    /\ In d (dfD_filt (icons env) dfI dfD) /\ dataset_name d = dataset.
Proof.
  intros Hin.
  destruct (Logic.runs_run _ _ _ _ (runs_bulk env workspace flag)) as (Ht & _).
  rewrite Forall_forall in Ht. destruct (Ht _ Hin) as [H | H]; inversion H; subst.
  eauto 8.
Qed.

(** A failure of the analyzer is caught: the turn prints the message that
    names the dataset and the workspace, prints the exception, and hands
    the loop its frame back. *)
Lemma scan_dataset_catches (env : Env) (flag : bool) (runId : Z)
    (capacity_id capacity_name wksp wksp_id : string) (df : Frame) (d : DatasetRow)
    (e : exn) (w : World) :
  vertipaq_analyzer env (dataset_name d) wksp flag = Raise e ->
  scan_dataset env flag runId capacity_id capacity_name wksp wksp_id df d w
  = (Ok df,
     mkWorld
       (trace w
        ++ [ Print (in_progress (icons env)
                    ++ " Collecting Vertipaq Analyzer stats for the '"
                    ++ dataset_name d ++ "' semantic model within the '" ++ wksp
                    ++ "' workspace.");
             Call "vertipaq_analyzer" [dataset_name d; wksp];
             Print (failed_message (icons env) (dataset_name d) wksp);
             PrintExn e ])%list
       (heap w)).
Proof.
  intros He. unfold scan_dataset, analyze_dataset, call. unfold_m. cbn.
  rewrite He. cbn. now rewrite <- !List.app_assoc.
Qed.

Lemma failed_message_names (ic : Icons) (dataset wksp : string) :
  Str.occurs (Str.repr dataset) (failed_message ic dataset wksp)
  /\ Str.occurs (Str.repr wksp) (failed_message ic dataset wksp).
Proof.
  unfold failed_message, Str.repr. split.
  - apply StrFacts.occurs_intro with
      (pre := red_dot ic ++ " Vertipaq Analyzer stat collection failed for the ")
      (post := " semantic model within the '" ++ wksp ++ "' workspace.").
    rewrite !StrFacts.append_assoc. reflexivity.
  - apply StrFacts.occurs_intro with
      (pre := red_dot ic ++ " Vertipaq Analyzer stat collection failed for the '"
                ++ dataset ++ "' semantic model within the ")
      (post := " workspace.").
    rewrite !StrFacts.append_assoc. reflexivity.
Qed.

(** *** Every turn of the dataset loop ends in the handler *)

Lemma alloc_all_silent (fs : list Frame) :
  forall w, exists zs h, alloc_all fs w = (Ok zs, mkWorld (trace w) h).
Proof.
  induction fs as [| f fs IH]; intros w; cbn [alloc_all].
  - exists [], (heap w). now destruct w.
  - unfold bind at 1. unfold alloc at 1.
    destruct (IH (mkWorld (trace w) (heap w ++ [f])%list)) as (zs & h & E).
    unfold bind. rewrite E. unfold ret. cbn. eauto.
Qed.

Lemma tag_frame_raises (env : Env) (runId : Z)
    (capacity_id capacity_name wksp wksp_id : string) (d : DatasetRow) (z : nat)
    (w : World) :
  fst (tag_frame env runId capacity_id capacity_name wksp wksp_id d z w) <> Diverge.
Proof.
  unfold tag_frame, mutate, deref. unfold_m. cbn.
  destruct (nth_error _ z) as [zf |]; cbn; [| discriminate].
  unfold Pd.select. destruct (Pd.first_missing cols (columns zf)); cbn; [discriminate |].
  discriminate.
Qed.

Lemma tag_frames_silent (env : Env) (runId : Z)
    (capacity_id capacity_name wksp wksp_id : string) (d : DatasetRow) (zs : list nat) :
  forall w, exists o h,
    for_each zs (tag_frame env runId capacity_id capacity_name wksp wksp_id d) w
    = (o, mkWorld (trace w) h)
    /\ o <> Diverge.
Proof.
  induction zs as [| z zs IH]; intros w; cbn [for_each].
  - exists (Ok tt), (heap w). split; [now destruct w | discriminate].
  - unfold bind.
    pose proof (tag_frame_effect env runId capacity_id capacity_name wksp wksp_id d z w)
      as Heff.
    pose proof (tag_frame_raises env runId capacity_id capacity_name wksp wksp_id d z w)
      as Hno.
    destruct (tag_frame env runId capacity_id capacity_name wksp wksp_id d z w)
      as [o w1]. cbn [fst snd] in *. subst w1.
    destruct o as [[] | e |]; [| eexists _, _; split; [reflexivity | discriminate]
                               | contradiction].
    destruct (IH (mkWorld (trace w)
                    (update_nth z (Spec.tagging env runId capacity_id capacity_name
                                     wksp wksp_id d) (heap w))))
      as (o & h & E & Ho).
    exists o, h. split; [exact E | exact Ho].
Qed.

(** The analysis of a dataset, once the analyzer has answered: it raises,
    and prints nothing. *)
Lemma analysis_raises (env : Env) (flag : bool) (runId : Z)
    (capacity_id capacity_name wksp wksp_id : string) (df : Frame) (d : DatasetRow)
    (w : World) :
  vertipaq_analyzer env (dataset_name d) wksp flag <> Diverge ->
  exists e h,
    analyze_dataset env flag runId capacity_id capacity_name wksp wksp_id df d w
    = (Raise e,
       mkWorld (trace w ++ [Call "vertipaq_analyzer" [dataset_name d; wksp]])%list h).
Proof.
  intros Hno. unfold analyze_dataset, call. unfold bind at 1 2. unfold emit, lift.
  cbn [fst snd trace heap].
  destruct (vertipaq_analyzer env (dataset_name d) wksp flag) as [fs | e |];
    [| eauto | contradiction].
  unfold bind at 1. unfold unpack6.
  destruct (Nat.eqb (List.length fs) 6); [| unfold raise; eauto].
  match goal with
  | |- context [alloc_all fs ?w1] =>
      destruct (alloc_all_silent fs w1) as (zs & h & ->)
  end.
  cbn [trace]. unfold bind at 1.
  match goal with
  | |- context [for_each zs ?body ?w2] =>
      destruct (tag_frames_silent env runId capacity_id capacity_name wksp wksp_id d zs w2)
        as (o & h' & -> & Ho)
  end.
  cbn [trace]. destruct o as [[] | e |]; [| eauto | contradiction].
  unfold bind, undefined_name, raise. eauto.
Qed.

(** One turn of the loop, when the analyzer answers: the dataset is
    reported as failed and the loop gets its frame back. *)
Lemma scan_dataset_turn (env : Env) (flag : bool) (runId : Z)
    (capacity_id capacity_name wksp wksp_id : string) (df : Frame) (d : DatasetRow)
    (w : World) :
  vertipaq_analyzer env (dataset_name d) wksp flag <> Diverge ->
  exists e h,
    scan_dataset env flag runId capacity_id capacity_name wksp wksp_id df d w
    = (Ok df,
       mkWorld (trace w ++ Spec.failed_turn (icons env) (dataset_name d) wksp e)%list h).
Proof.
  intros Hno. unfold scan_dataset, try_except. unfold bind at 1. unfold print, emit.
  cbn [fst snd trace heap].
  match goal with
  | |- context [analyze_dataset _ _ _ _ _ _ _ _ _ ?w1] =>
      destruct (analysis_raises env flag runId capacity_id capacity_name wksp wksp_id
                  df d w1 Hno) as (e & h & ->)
  end.
  exists e, h. unfold bind, emit, ret. cbn [fst snd trace heap].
  unfold Spec.failed_turn. now rewrite <- !List.app_assoc.
Qed.

(** The loop over the datasets of a workspace: every dataset is handed to
    the analyzer, in order, every one is reported as failed, and the frame
    of results comes out as it went in. *)
Lemma scan_datasets_all (env : Env) (flag : bool) (runId : Z)
    (capacity_id capacity_name wksp wksp_id : string) (df : Frame) (ds : list DatasetRow) :
  (forall d, In d ds -> vertipaq_analyzer env (dataset_name d) wksp flag <> Diverge) ->
  forall w, exists w',
    for_fold ds df
      (scan_dataset env flag runId capacity_id capacity_name wksp wksp_id) w
    = (Ok df, w')
    /\ filter Spec.is_analyzer_call (trace w')
       = (filter Spec.is_analyzer_call (trace w)
          ++ map (fun d => Call "vertipaq_analyzer" [dataset_name d; wksp]) ds)%list
    /\ (forall d, In d ds ->
          In (Print (failed_message (icons env) (dataset_name d) wksp)) (trace w'))
    /\ (forall e, In e (trace w) -> In e (trace w')).
Proof.
  induction ds as [| d ds IH]; intros Hno w; cbn [for_fold].
  - exists w. unfold ret. rewrite List.app_nil_r. repeat split; auto.
    intros d [].
  - unfold bind.
    destruct (scan_dataset_turn env flag runId capacity_id capacity_name wksp wksp_id
                df d w (Hno d (or_introl eq_refl))) as (e & h & ->).
    destruct (IH (fun x Hx => Hno x (or_intror Hx))
                 (mkWorld (trace w ++ Spec.failed_turn (icons env) (dataset_name d) wksp e)
                          h))
      as (w' & Hrun & Hcalls & Hprints & Hmono).
    exists w'. split; [exact Hrun |]. cbn [trace] in *. split; [| split].
    + rewrite Hcalls, filter_app. cbn. now rewrite <- List.app_assoc.
    + intros x [<- | Hx]; [| now apply Hprints].
      apply Hmono. apply in_or_app. right. cbn. auto.
    + intros x Hx. apply Hmono. apply in_or_app. now left.
Qed.

(** With a lakehouse attached and a prelude that answers, the scan is
    the prelude's calls followed by the loop, run with the expected id. *)
Lemma bulk_run (env : Env) (workspace : workspace_arg) (flag : bool)
    (lw lid lh : string) (tables : list string) (maxRunId : Z) :
  lakehouse_attached env = true ->
  resolve_workspace_name env = Ok lw ->
  get_lakehouse_id env = Ok lid ->
  resolve_lakehouse_name env lid lw = Ok lh ->
  get_lakehouse_tables env lh lw = Ok tables ->
  (Str.mem lakeTName tables = true ->
   spark_max_run_id env (Spec.run_id_table lid) = Ok (Some maxRunId)) ->
  vertipaq_analyzer_bulk env workspace flag world0
  = Spec.after_run_id env workspace flag lh lw (Spec.expected_run_id tables maxRunId)
      (mkWorld (Spec.prelude_trace lh lw lid tables) []).
Proof.
  intros Hatt Hlw Hlid Hlh Htables Hmax.
  rewrite bulk_unfold, Hatt. cbn [negb]. unfold call. unfold_m.
  cbn [fst snd trace heap world0 app]. rewrite Hlw, Hlid, Hlh.
  rewrite (determine_run_id_value env lh lw lid tables maxRunId _ Htables Hmax).
  reflexivity.
Qed.

Lemma scan_event_not_query (env : Env) (e : event) :
  Spec.scan_event env e -> Spec.is_run_id_query e = false.
Proof. intros H; destruct H; reflexivity. Qed.

Lemma mem_columns_set_col (x c : string) (v : cell) (df : Frame) :
  Str.mem x (columns (Pd.set_col c v df))
  = (Str.mem x (columns df) || String.eqb x c)%bool.
Proof.
  unfold Pd.set_col. cbn [columns]. unfold Str.mem.
  destruct (existsb (String.eqb c) (columns df)) eqn:Hc.
  - destruct (String.eqb_spec x c) as [-> | _].
    + rewrite Hc. reflexivity.
    + now rewrite orb_false_r.
  - rewrite existsb_app. cbn. now rewrite orb_false_r.
Qed.

Lemma tagged_has_cols (env : Env) (runId : Z)
    (capacity_id capacity_name wksp wksp_id : string) (d : DatasetRow) (f : Frame) :
  Pd.first_missing cols
    (columns (Spec.tagging env runId capacity_id capacity_name wksp wksp_id d f)) = None.
Proof.
  unfold Spec.tagging, cols. cbn [Pd.first_missing].
  repeat (rewrite !mem_columns_set_col; cbn [String.eqb Ascii.eqb Bool.eqb orb andb]).
  rewrite !orb_true_r. reflexivity.
Qed.

Lemma nth_error_update_nth {A} (g : A -> A) (z : nat) (l : list A) :
  nth_error (update_nth z g l) z = option_map g (nth_error l z).
Proof.
  revert z. induction l as [| x l IH]; intros [| z]; cbn; try reflexivity. apply IH.
Qed.

(** The tagging of one frame ends at the read of its column RunId. *)
Lemma tag_frame_result (env : Env) (runId : Z)
    (capacity_id capacity_name wksp wksp_id : string) (d : DatasetRow) (z : nat)
    (w : World) (zf : Frame) :
  nth_error (heap w) z = Some zf ->
  fst (tag_frame env runId capacity_id capacity_name wksp wksp_id d z w)
  = Raise (KeyError "RunId").
Proof.
  intros Hz. unfold tag_frame, mutate, deref. unfold_m. cbn.
  rewrite !update_nth_fuse, nth_error_update_nth, Hz. cbn.
  pose proof (tagged_has_cols env runId capacity_id capacity_name wksp wksp_id d zf) as Hc.
  unfold Spec.tagging in Hc. unfold Pd.select. rewrite Hc. reflexivity.
Qed.

Lemma alloc_all_spec (fs : list Frame) : forall w,
  alloc_all fs w
  = (Ok (seq (List.length (heap w)) (List.length fs)),
     mkWorld (trace w) (heap w ++ fs)).
Proof.
  induction fs as [| f fs IH]; intros w; cbn [alloc_all].
  - unfold ret. cbn. rewrite List.app_nil_r. now destruct w.
  - unfold bind, alloc, ret. rewrite IH. cbn [trace heap].
    rewrite length_app, Nat.add_1_r, <- List.app_assoc. reflexivity.
Qed.

Lemma update_nth_middle {A} (g : A -> A) (l : list A) (x : A) (rest : list A) :
  update_nth (List.length l) g (l ++ x :: rest) = (l ++ g x :: rest)%list.
Proof. induction l as [| y l IH]; cbn; [reflexivity | now rewrite IH]. Qed.

Lemma nth_error_middle {A} (l : list A) (x : A) (rest : list A) :
  nth_error (l ++ x :: rest) (List.length l) = Some x.
Proof. induction l as [| y l IH]; cbn; [reflexivity | exact IH]. Qed.

(** The analysis of a dataset for which the analyzer delivers six frames:
    the frames are stored, the first is tagged, and the read of its
    column RunId ends the analysis before the second is touched. *)
Lemma analysis_of_six (env : Env) (flag : bool) (runId : Z)
    (capacity_id capacity_name wksp wksp_id : string) (df : Frame) (d : DatasetRow)
    (m : Frame) (others : list Frame) (w : World) :
  vertipaq_analyzer env (dataset_name d) wksp flag = Ok (m :: others) ->
  List.length others = 5 ->
  analyze_dataset env flag runId capacity_id capacity_name wksp wksp_id df d w
  = (Raise (KeyError "RunId"),
     mkWorld (trace w ++ [Call "vertipaq_analyzer" [dataset_name d; wksp]])
             (heap w
              ++ Spec.tagging env runId capacity_id capacity_name wksp wksp_id d m
                 :: others)).
Proof.
  intros Hfs Hlen. unfold analyze_dataset, call. unfold bind at 1 2. unfold emit, lift.
  cbn [fst snd trace heap]. rewrite Hfs. unfold bind at 1. unfold unpack6.
  cbn [List.length]. rewrite Hlen. cbn [Nat.eqb]. rewrite alloc_all_spec.
  cbn [trace heap List.length seq]. unfold bind at 1. cbn [for_each]. unfold bind at 1.
  match goal with
  | |- context [tag_frame ?e ?r ?a ?b ?c ?dd ?x ?z ?w1] =>
      pose proof (tag_frame_result e r a b c dd x z w1 m) as Hres;
      pose proof (tag_frame_effect e r a b c dd x z w1) as Heff;
      destruct (tag_frame e r a b c dd x z w1) as [o w2]
  end.
  cbn [fst snd heap trace] in Hres, Heff.
  rewrite (Hres (nth_error_middle _ _ _)). subst w2.
  now rewrite update_nth_middle.
Qed.

(** C4.  The run id, and the rows that carry it.  With a lakehouse
    attached and a prelude that answers, the run id is 1 when the
    lakehouse has no results table and the largest stored run id plus one
    when it has; the scan determines it in its prelude, with at most one
    query for the largest run id and before the first event of any
    workspace, asks for it no more, and runs the loop over the workspaces
    with that one value.  But the rows do not all carry it.  Of the six
    frames the analyzer delivers for a dataset, the loop of lines 112-124
    writes the run id into the first only: [z = z[cols]] drops the column
    RunId again, the read [z["RunId"]] raises [KeyError], and the other
    five frames stay as delivered.  In the sample tenant the scan leaves
    one frame whose rows hold run id 8 and five whose rows hold none, and
    hands no row to [save_as_delta_table]. *)
Theorem run_id_tags_one_frame_in_six :
  (forall (env : Env) (workspace : workspace_arg) (flag : bool)
          (lw lid lh : string) (tables : list string) (maxRunId : Z),
      lakehouse_attached env = true ->
      resolve_workspace_name env = Ok lw ->
      get_lakehouse_id env = Ok lid ->
      resolve_lakehouse_name env lid lw = Ok lh ->
      get_lakehouse_tables env lh lw = Ok tables ->
      (Str.mem lakeTName tables = true ->
       spark_max_run_id env (Spec.run_id_table lid) = Ok (Some maxRunId)) ->
      let runId := Spec.expected_run_id tables maxRunId in
      let scan := vertipaq_analyzer_bulk env workspace flag in
      (Str.mem lakeTName tables = false -> runId = 1%Z)
      /\ (Str.mem lakeTName tables = true -> runId = (maxRunId + 1)%Z)
      /\ result_of (determine_run_id env lh lw lid) = Ok runId
      /\ run scan
         = Spec.after_run_id env workspace flag lh lw runId
             (mkWorld (Spec.prelude_trace lh lw lid tables) [])
      /\ (exists post,
            trace_of scan = (Spec.prelude_trace lh lw lid tables ++ post)%list
            /\ Forall (fun e => Spec.is_run_id_query e = false) post)
      /\ Forall (fun e => Spec.is_workspace_event e = false)
                (Spec.prelude_trace lh lw lid tables)
      /\ List.length (filter Spec.is_max_query (Spec.prelude_trace lh lw lid tables)) <= 1)
  /\ (forall (env : Env) (flag : bool) (runId : Z)
             (capacity_id capacity_name wksp wksp_id : string) (df : Frame)
             (d : DatasetRow) (m t c h p rel : Frame) (w : World),
        vertipaq_analyzer env (dataset_name d) wksp flag = Ok [m; t; c; h; p; rel] ->
        let tagged :=
          Spec.tagging env runId capacity_id capacity_name wksp wksp_id d m in
        analyze_dataset env flag runId capacity_id capacity_name wksp wksp_id df d w
        = (Raise (KeyError "RunId"),
           mkWorld (trace w ++ [Call "vertipaq_analyzer" [dataset_name d; wksp]])
                   (heap w ++ [tagged; t; c; h; p; rel]))
        /\ Spec.carries runId tagged)
  /\ (let scan := vertipaq_analyzer_bulk Sample.bulk AllWorkspaces false in
      heap_of scan
      = [ Spec.tagging Sample.bulk 8 "cap-1" "Capacity" "Sales" "ws-1"
            (mkDatasetRow "Revenue" "ds-1" "ann") Sample.stats;
          Sample.stats; Sample.stats; Sample.stats; Sample.stats; Sample.stats ]
      /\ map (fun f => map (Pd.row_get "RunId") (rows f)) (heap_of scan)
         = [[Val (JNum 8)]; [NaN]; [NaN]; [NaN]; [NaN]; [NaN]]
      /\ (exists f, In f (heap_of scan) /\ ~ Spec.carries 8 f)
      /\ saved (trace_of scan) = []).
Proof.
  split; [| split].
  - intros env workspace flag lw lid lh tables maxRunId
           Hattached Hlw Hlid Hlh Htables Hmax.
    cbv zeta. split; [| split; [| split; [| split; [| split; [| split]]]]].
    + unfold Spec.expected_run_id. now intros ->.
    + unfold Spec.expected_run_id. now intros ->.
    + unfold_run. now rewrite (determine_run_id_value env lh lw lid tables maxRunId _
                                 Htables Hmax).
    + unfold run. now apply bulk_run.
    + unfold_run.
      rewrite (bulk_run env workspace flag lw lid lh tables maxRunId) by assumption.
      match goal with
      | |- context [Spec.after_run_id ?e ?ws ?f ?a ?b ?r ?w] =>
          destruct (Spec.after_run_id e ws f a b r w) as [o w'] eqn:E;
          destruct (runs_after_run_id e r (fun _ => True) (fun _ _ => I)
                      (fun _ _ _ _ _ _ => I)
                      ws f a b w (Forall_nil _) o w' E)
            as (added & Ht & Hphi & _)
      end.
      cbn [fst snd trace heap] in *. exists added. split; [exact Ht |].
      eapply Forall_impl; [| exact Hphi]. apply scan_event_not_query.
    + unfold Spec.prelude_trace. destruct (Str.mem lakeTName tables);
        repeat constructor.
    + unfold Spec.prelude_trace. destruct (Str.mem lakeTName tables); cbn; lia.
  - intros env flag runId capacity_id capacity_name wksp wksp_id df d m t c h p rel w Hfs.
    cbv zeta. split; [| apply carries_tagging].
    now apply (analysis_of_six env flag runId capacity_id capacity_name wksp wksp_id
                 df d m [t; c; h; p; rel] w).
  - cbv zeta.
    assert (Hheap : heap_of (vertipaq_analyzer_bulk Sample.bulk AllWorkspaces false)
                    = [ Spec.tagging Sample.bulk 8 "cap-1" "Capacity" "Sales" "ws-1"
                          (mkDatasetRow "Revenue" "ds-1" "ann") Sample.stats;
                        Sample.stats; Sample.stats; Sample.stats; Sample.stats;
                        Sample.stats ])
      by (vm_compute; reflexivity).
    rewrite Hheap. split; [reflexivity |]. split; [vm_compute; reflexivity |]. split.
    + exists Sample.stats. split.
      * right. left. reflexivity.
      * intros Hc. specialize (Hc _ (or_introl eq_refl)). discriminate Hc.
    + apply bulk_saves_nothing.
Qed.

(** The frame the scan wrote to holds run id 8; the other five are still
    as the analyzer delivered them. *)
Example tagged_frame_of_the_sample :
  map (fun f => map (Pd.row_get "RunId") (rows f))
      (heap_of (vertipaq_analyzer_bulk Sample.bulk AllWorkspaces false))
  = [[Val (JNum 8)]; [NaN]; [NaN]; [NaN]; [NaN]; [NaN]].
Proof. reflexivity. Qed.

(** C6.  Failure of one dataset, and the save of a workspace.  The rows of
    a workspace are never saved: [save_as_delta_table] is not reached in
    any run.  What holds is the first half: whenever the analyzer answers,
    with frames or with an exception, the turn of the loop ends in the
    handler, which prints the message naming dataset and workspace, and the
    loop goes on to the next dataset with its frame of results unchanged.
    In the sample tenant both datasets are reported as failed, then the
    read of the column Severity ends the scan. *)
Theorem workspace_rows_never_saved :
  (forall env workspace flag,
      saved (trace_of (vertipaq_analyzer_bulk env workspace flag)) = [])
  /\ (forall env flag runId capacity_id capacity_name wksp wksp_id df ds w,
        (forall d, In d ds ->
                   vertipaq_analyzer env (dataset_name d) wksp flag <> Diverge) ->
        exists w',
          for_fold ds df
            (scan_dataset env flag runId capacity_id capacity_name wksp wksp_id) w
          = (Ok df, w')
          /\ filter Spec.is_analyzer_call (trace w')
             = (filter Spec.is_analyzer_call (trace w)
                ++ map (fun d => Call "vertipaq_analyzer" [dataset_name d; wksp]) ds)%list
          /\ (forall d, In d ds ->
                In (Print (failed_message (icons env) (dataset_name d) wksp)) (trace w')))
  /\ result_of (vertipaq_analyzer_bulk Sample.bulk AllWorkspaces false)
     = Raise (KeyError "Severity")
  /\ filter (fun e => match e with Print _ | PrintExn _ => true | _ => false end)
       (trace_of (vertipaq_analyzer_bulk Sample.bulk AllWorkspaces false))
     = [ Print "[...] Collecting Vertipaq Analyzer stats for the 'Revenue' semantic model within the 'Sales' workspace.";
         Print (failed_message Sample.icons "Revenue" "Sales");
         PrintExn (KeyError "RunId");
         Print "[...] Collecting Vertipaq Analyzer stats for the 'Costs' semantic model within the 'Sales' workspace.";
         Print (failed_message Sample.icons "Costs" "Sales");
         PrintExn (ExternalError "model is not readable") ].
Proof.
  split; [exact bulk_saves_nothing |]. split.
  - intros env flag runId capacity_id capacity_name wksp wksp_id df ds w Hno.
    destruct (scan_datasets_all env flag runId capacity_id capacity_name wksp wksp_id
                df ds Hno w) as (w' & Hrun & Hcalls & Hprints & _).
    exists w'. auto.
  - split; reflexivity.
Qed.

End BulkFacts.

(** ** Dataflows *)

Module DataflowFacts.
Import Dataflows.

Lemma create_dataflow_settles (env : Env) (dataflow_name mashup_document : string)
    (description workspace : option string) (ws wsid : string) :
  resolve_workspace_name_and_id env workspace = Ok (ws, wsid) ->
  Spec.settles 200 (client env)
    (mkRequest POST ("/v1/workspaces/" ++ wsid ++ "/items")
               (AsJson (item_payload dataflow_name mashup_document description)))
    (create_dataflow env dataflow_name mashup_document description workspace).
Proof.
  intros Hws r Hr. unfold_run. unfold create_dataflow. unfold_m. cbn.
  rewrite Hws. cbn in Hr |- *. rewrite Hr. cbn.
  destruct (Z.eqb_spec (status_code r) 200) as [E | E]; cbn;
    repeat split; intros; try reflexivity; congruence.
Qed.

End DataflowFacts.

(** ** OneLake export *)

Module OneLakeFacts.
Import OneLake.

Lemma create_shortcut_settles (env : Env) (dataset workspace workspace_id : string)
    (destination_lakehouse : option string)
    (destination_workspace dwsid dlhid source : string) (t : Table) :
  eligible t = true ->
  Spec.settles 201 (client env)
    (shortcut_request dwsid dlhid workspace_id source (Name t))
    (create_shortcut env dataset workspace workspace_id destination_lakehouse
       destination_workspace dwsid dlhid source t).
Proof.
  intros He r Hr. unfold_run. unfold create_shortcut. rewrite He. unfold_m. cbn.
  cbn in Hr. rewrite Hr. cbn.
  destruct (Z.eqb_spec (status_code r) 201) as [E | E]; cbn;
    repeat split; intros; try reflexivity; congruence.
Qed.

(** The loop over the tables, when the shortcut of [t] is refused and the
    eligible tables before it were served: the loop raises with the refusal
    attached, having sent the requests for the tables before [t] and the
    one for [t], and none for a table after [t]. *)
Lemma shortcut_loop_fails (env : Env) (dataset workspace workspace_id : string)
    (destination_lakehouse : option string)
    (destination_workspace dwsid dlhid source : string)
    (t : Table) (later : list Table) (r : Response) :
  eligible t = true ->
  client env (shortcut_request dwsid dlhid workspace_id source (Name t)) = Ok r ->
  status_code r <> 201%Z ->
  forall (earlier : list Table) (w : World),
    (forall p, In p earlier -> eligible p = true ->
       exists rp, client env (shortcut_request dwsid dlhid workspace_id source (Name p))
                  = Ok rp /\ status_code rp = 201%Z) ->
    exists w',
      for_each (earlier ++ t :: later)%list
        (create_shortcut env dataset workspace workspace_id destination_lakehouse
           destination_workspace dwsid dlhid source) w
      = (Raise (FabricHTTPException r), w')
      /\ http_requests (trace w')
         = (http_requests (trace w)
            ++ Spec.shortcut_requests dwsid dlhid workspace_id source (earlier ++ [t]))%list
      /\ (forall e, In e (trace w) -> In e (trace w')).
Proof.
  intros He Hr Hst. induction earlier as [| p earlier IH]; intros w Hserved.
  - cbn [app for_each]. unfold bind, create_shortcut. rewrite He.
    unfold_m. cbn in Hr |- *. rewrite Hr. cbn.
    destruct (Z.eqb_spec (status_code r) 201) as [E | _]; [contradiction |]. cbn.
    eexists. split; [reflexivity |]. cbn. split.
    + unfold Spec.shortcut_requests. cbn. rewrite He. cbn.
      now rewrite http_requests_app.
    + intros e Hin. apply in_or_app. now left.
  - cbn [app for_each]. unfold bind at 1. unfold create_shortcut at 1.
    destruct (eligible p) eqn:Hp.
    + destruct (Hserved p (or_introl eq_refl) Hp) as (rp & Hrp & Hst').
      unfold_m. cbn in Hrp |- *. rewrite Hrp. cbn. rewrite Hst'. cbn.
      match goal with
      | |- context [for_each _ _ ?w1] =>
          destruct (IH w1 (fun q Hq => Hserved q (or_intror Hq))) as (w' & Hrun & Hreq & Hmono)
      end.
      exists w'. split; [exact Hrun |]. split.
      * rewrite Hreq. cbn. rewrite !http_requests_app. cbn.
        unfold Spec.shortcut_requests. cbn. rewrite Hp. cbn.
        rewrite <- !List.app_assoc. reflexivity.
      * intros e Hin. apply Hmono. cbn. apply in_or_app. left.
        apply in_or_app. now left.
    + unfold_m. cbn.
      destruct (IH w (fun q Hq => Hserved q (or_intror Hq))) as (w' & Hrun & Hreq & Hmono).
      exists w'. split; [exact Hrun |]. split; [| exact Hmono].
      rewrite Hreq. unfold Spec.shortcut_requests. cbn. now rewrite Hp.
Qed.

#[local] Arguments tmsl : simpl never.
#[local] Arguments exported_message : simpl never.
#[local] Arguments no_lakehouse_message : simpl never.

(** C10.  The export is not undone.  Once the TMSL export has run and
    answered, a later failure leaves it in place: with [create_shortcuts]
    set, no destination lakehouse given and none attached, the call raises
    its [ValueError] after the export, the last thing it did before being
    the confirmation of the export; and when the server refuses the
    shortcut of one table, the call raises with that response after the
    export and after the requests for the eligible tables before it, which
    the server had served, and sends nothing else: no request for a later
    table and none that would take anything back. *)
Theorem export_is_not_atomic
    (env : Env) (dataset : string) (workspace destination_workspace : option string)
    (ws wsid dws dwsid dataset_id : string)
    (Hinit : init_analysis_services env = Ok tt)
    (Hws : resolve_workspace_name_and_id env workspace = Ok (ws, wsid))
    (Hdws : resolve_workspace_name_and_id env destination_workspace = Ok (dws, dwsid))
    (Hds : resolve_dataset_id env dataset ws = Ok dataset_id)
    (Htmsl : execute_tmsl env (tmsl dataset) ws = Ok tt) :
  let prefix := Spec.export_prefix (icons env) dataset workspace destination_workspace ws in
  (lakehouse_attached env = false ->
   result_of (export_model_to_onelake env dataset workspace None destination_workspace true)
   = Raise (ValueError (no_lakehouse_message (icons env)))
   /\ trace_of (export_model_to_onelake env dataset workspace None destination_workspace true)
      = prefix)
  /\ (forall (lakehouse dlhid : string) (items : list ItemRow) (first : ItemRow)
             (others : list ItemRow) (earlier later : list Table) (t : Table)
             (r : Response),
        resolve_lakehouse_id env lakehouse dws = Ok dlhid ->
        list_items env ws "SemanticModel" = Ok items ->
        filter (fun i => String.eqb (display_name i) dataset) items = first :: others ->
        connect_semantic_model env dataset ws = Ok (earlier ++ t :: later)%list ->
        (forall p, In p earlier -> eligible p = true ->
           exists rp, client env (shortcut_request dwsid dlhid wsid (item_id first) (Name p))
                      = Ok rp /\ status_code rp = 201%Z) ->
        eligible t = true ->
        client env (shortcut_request dwsid dlhid wsid (item_id first) (Name t)) = Ok r ->
        status_code r <> 201%Z ->
        let run := export_model_to_onelake env dataset workspace (Some lakehouse)
                     destination_workspace true in
        result_of run = Raise (FabricHTTPException r)
        /\ (forall e, In e prefix -> In e (trace_of run))
        /\ http_requests (trace_of run)
           = Spec.shortcut_requests dwsid dlhid wsid (item_id first) (earlier ++ [t])
        /\ Forall (fun q => verb q = POST) (http_requests (trace_of run))).
Proof.
  cbv zeta. split.
  - intros Hatt. unfold_run. unfold export_model_to_onelake, call, resolve.
    unfold_m. cbn. rewrite Hinit. cbn. rewrite Hws. cbn. rewrite Hdws. cbn.
    rewrite Hds. cbn. rewrite Htmsl. cbn. rewrite Hatt. cbn. split; reflexivity.
  - intros lakehouse dlhid items first others earlier later t r
           Hlh Hitems Hfirst Htables Hserved He Hr Hst.
    unfold_run. unfold export_model_to_onelake, call, resolve.
    unfold bind, emit, lift, print, ret. cbn [fst snd trace heap world0 app].
    rewrite Hinit. cbn [fst snd trace heap]. rewrite Hws. cbn [fst snd trace heap app].
    rewrite Hdws. cbn [fst snd trace heap app]. rewrite Hds.
    cbn [fst snd trace heap app]. rewrite Htmsl. cbn [fst snd trace heap app].
    rewrite Hlh. cbn [fst snd trace heap app]. rewrite Hitems.
    cbn [fst snd trace heap app]. rewrite Hfirst. cbn [fst snd trace heap app emit].
    unfold emit. cbn [fst snd trace heap app]. rewrite Htables.
    match goal with
    | |- context [for_each _ _ ?w1] =>
        destruct (shortcut_loop_fails env dataset ws wsid (Some lakehouse)
                    dws dwsid dlhid (item_id first) t later r He Hr Hst earlier w1 Hserved)
          as (w' & Hrun & Hreq & Hmono)
    end.
    rewrite Hrun. cbn [fst snd]. split; [reflexivity |]. split; [| split].
    + intros e Hin. apply Hmono. cbn [trace].
      apply (in_or_app
               (Spec.export_prefix (icons env) dataset workspace destination_workspace ws)
               [ Resolve "resolve_lakehouse_id" [lakehouse; dws];
                 Call "list_items" [ws; "SemanticModel"];
                 Print (in_progress (icons env) ++ " Creating shortcuts..." ++ Str.nl);
                 Call "connect_semantic_model" [dataset; ws] ] e).
      now left.
    + rewrite Hreq. reflexivity.
    + rewrite Hreq. cbn. unfold Spec.shortcut_requests.
      apply Forall_forall. intros q Hq. apply in_map_iff in Hq.
      destruct Hq as (x & <- & _). reflexivity.
Qed.

Lemma export_is_not_atomic_witness :
  result_of (export_model_to_onelake (Sample.onelake false) "Sales" None None None true)
  = Raise (ValueError (no_lakehouse_message Sample.icons))
  /\ trace_of (export_model_to_onelake (Sample.onelake false) "Sales" None None None true)
     = Spec.export_prefix Sample.icons "Sales" None None "Home".
Proof.
  destruct (export_is_not_atomic (Sample.onelake false) "Sales" None None
              "Home" "<Home>" "Home" "<Home>" "<Sales>"
              eq_refl eq_refl eq_refl eq_refl eq_refl) as [Hraises _].
  exact (Hraises eq_refl).
Defined.

(** The second case at the sample server: the shortcut of Orders is
    created, the one of Order Lines is refused, Customers is never tried. *)
Example export_stops_at_order_lines :
  let run := export_model_to_onelake (Sample.onelake true) "Sales" None (Some "Gold")
               None true in
  result_of run
  = Raise (FabricHTTPException (mkResponse 500 (JStr "shortcut refused")))
  /\ map (fun q => Json.path ["name"] match sent q with AsJson j => j | _ => JNull end)
         (http_requests (trace_of run))
     = [Some (JStr "Orders"); Some (JStr "OrderLines")].
Proof. vm_compute. split; reflexivity. Qed.

End OneLakeFacts.

(** ** Base64 *)

Module Base64Facts.
Import Base64.

Lemma below_64 (P : N -> Prop) :
  (forall k : nat, (k < 64)%nat -> P (N.of_nat k)) -> forall n, (n < 64)%N -> P n.
Proof.
  intros H n Hn. rewrite <- (N2Nat.id n). apply H. lia.
Qed.

Lemma dec_enc (n : N) : (n < 64)%N -> dec (enc n) = Some n /\ is_pad (enc n) = false.
Proof.
  revert n. apply below_64. intros k Hk.
  do 64 (destruct k as [| k]; [split; reflexivity |]). lia.
Qed.

Ltac arith := zify; Z.to_euclidean_division_equations; lia.

(** The sextets of one, two and three bytes, and back. *)
Lemma regroup1 (x : N) :
  (x < 256)%N ->
  (x / 4 < 64 /\ (x mod 4) * 16 < 64
   /\ (x / 4) * 4 + ((x mod 4) * 16) / 16 = x)%N.
Proof. intros Hx. repeat split; arith. Qed.

Lemma regroup2 (x y : N) :
  (x < 256)%N -> (y < 256)%N ->
  let q := ((x mod 4) * 16 + y / 16)%N in
  let r := ((y mod 16) * 4)%N in
  (x / 4 < 64 /\ q < 64 /\ r < 64
   /\ (x / 4) * 4 + q / 16 = x
   /\ (q mod 16) * 16 + r / 4 = y)%N.
Proof. intros Hx Hy. cbv zeta. repeat split; arith. Qed.

Lemma regroup3 (x y z : N) :
  (x < 256)%N -> (y < 256)%N -> (z < 256)%N ->
  let q := ((x mod 4) * 16 + y / 16)%N in
  let r := ((y mod 16) * 4 + z / 64)%N in
  (x / 4 < 64 /\ q < 64 /\ r < 64 /\ z mod 64 < 64
   /\ (x / 4) * 4 + q / 16 = x
   /\ (q mod 16) * 16 + r / 4 = y
   /\ (r mod 4) * 64 + z mod 64 = z)%N.
Proof. intros Hx Hy Hz. cbv zeta. repeat split; arith. Qed.

Lemma decode_one (a : ascii) : decode (encode (String a EmptyString)) = Some (String a EmptyString).
Proof.
  cbn [encode decode].
  destruct (regroup1 _ (N_ascii_bounded a)) as (Hp & Hq & Ha).
  rewrite (proj1 (dec_enc _ Hp)), (proj1 (dec_enc _ Hq)).
  change (is_pad "=") with true. cbn [is_pad].
  now rewrite Ha, ascii_N_embedding.
Qed.

Lemma decode_two (a b : ascii) :
  decode (encode (String a (String b EmptyString))) = Some (String a (String b EmptyString)).
Proof.
  cbn [encode decode].
  destruct (regroup2 _ _ (N_ascii_bounded a) (N_ascii_bounded b))
    as (Hp & Hq & Hr & Ha & Hb).
  rewrite (proj1 (dec_enc _ Hp)), (proj1 (dec_enc _ Hq)).
  rewrite (proj2 (dec_enc _ Hr)), (proj1 (dec_enc _ Hr)).
  change (is_pad "=") with true.
  now rewrite Ha, Hb, !ascii_N_embedding.
Qed.

Lemma decode_three (a b c : ascii) (s : string) :
  decode (encode s) = Some s ->
  decode (encode (String a (String b (String c s))))
  = Some (String a (String b (String c s))).
Proof.
  intros IH. cbn [encode decode].
  destruct (regroup3 _ _ _ (N_ascii_bounded a) (N_ascii_bounded b) (N_ascii_bounded c))
    as (Hp & Hq & Hr & Ht & Ha & Hb & Hc).
  rewrite (proj1 (dec_enc _ Hp)), (proj1 (dec_enc _ Hq)).
  rewrite (proj2 (dec_enc _ Hr)), (proj1 (dec_enc _ Hr)).
  rewrite (proj2 (dec_enc _ Ht)), (proj1 (dec_enc _ Ht)), IH.
  now rewrite Ha, Hb, Hc, !ascii_N_embedding.
Qed.

(** [b64decode(b64encode(s)) == s] for every byte string. *)
Lemma decode_encode (s : string) : decode (encode s) = Some s.
Proof.
  enough (H : decode (encode s) = Some s
              /\ (forall a, decode (encode (String a s)) = Some (String a s))
              /\ (forall a b, decode (encode (String a (String b s)))
                              = Some (String a (String b s)))) by apply H.
  induction s as [| c s (IH0 & IH1 & IH2)].
  - split; [reflexivity |]. split; [apply decode_one | apply decode_two].
  - split; [apply IH1 |]. split; [intros a; apply IH2 |].
    intros a b. now apply decode_three.
Qed.

End Base64Facts.

(** ** JSON text *)

Module JsonTextFacts.
Import JsonText.

Ltac each_char c :=
  destruct c as [[|] [|] [|] [|] [|] [|] [|] [|]].

(** Reading one escaped byte. *)
Lemma parse_body_escape_char (c : ascii) (tail : string) :
  parse_body (escape_char c ++ tail) = cons_result c (parse_body tail).
Proof. each_char c; reflexivity. Qed.

(** A string literal reads back as the string it was written from. *)
Lemma parse_body_escape (s rest : string) :
  parse_body (escape s ++ String dquote rest) = Some (s, rest).
Proof.
  induction s as [| c s IH]; cbn [escape].
  - reflexivity.
  - rewrite StrFacts.append_assoc, parse_body_escape_char, IH. reflexivity.
Qed.

Lemma quote_unfold (s rest : string) :
  quote s ++ rest = String dquote (escape s ++ String dquote rest).
Proof. unfold quote. cbn. now rewrite StrFacts.append_assoc. Qed.

(** Facts about the first character of a value. *)
Lemma value_start_facts (c : ascii) :
  Spec.value_start c = true ->
  is_ws c = false /\ Ascii.eqb "]" c = false /\ Ascii.eqb "}" c = false.
Proof. each_char c; cbn; intros H; try discriminate; repeat split. Qed.

Lemma num_char_facts (c : ascii) :
  is_num_char c = true ->
  is_ws c = false
  /\ Ascii.eqb c dquote = false /\ Ascii.eqb c "[" = false /\ Ascii.eqb c "{" = false
  /\ Ascii.eqb c "n" = false /\ Ascii.eqb c "t" = false /\ Ascii.eqb c "f" = false.
Proof. each_char c; cbn; intros H; try discriminate; repeat split. Qed.

(** *** Numbers *)

Lemma span_num_stop (tail : string) :
  Spec.starts_num tail = false -> span_num tail = (EmptyString, tail).
Proof.
  destruct tail as [| c t]; cbn; [reflexivity |]. now intros ->.
Qed.

Lemma span_num_uint (d : Decimal.uint) (tail : string) :
  Spec.starts_num tail = false ->
  span_num (DecimalString.NilEmpty.string_of_uint d ++ tail)
  = (DecimalString.NilEmpty.string_of_uint d, tail).
Proof.
  intros Htail. induction d; cbn [DecimalString.NilEmpty.string_of_uint append];
    [now apply span_num_stop | ..];
    cbn [span_num]; rewrite IHd; reflexivity.
Qed.

Lemma span_num_uint0 (d : Decimal.uint) (tail : string) :
  Spec.starts_num tail = false ->
  span_num (DecimalString.NilZero.string_of_uint d ++ tail)
  = (DecimalString.NilZero.string_of_uint d, tail).
Proof.
  intros Htail.
  destruct d; [cbn; now rewrite (span_num_stop _ Htail) | ..];
    match goal with
    | |- context [DecimalString.NilZero.string_of_uint ?x] =>
        exact (span_num_uint x tail Htail)
    end.
Qed.

Lemma span_num_number (z : Z) (tail : string) :
  Spec.starts_num tail = false ->
  span_num (number z ++ tail) = (number z, tail).
Proof.
  intros Htail. unfold number.
  destruct (Z.to_int z) as [d | d]; cbn [DecimalString.NilZero.string_of_int].
  - now apply span_num_uint0.
  - change (String "-" (DecimalString.NilZero.string_of_uint d) ++ tail)
      with (String "-" (DecimalString.NilZero.string_of_uint d ++ tail)).
    cbn [span_num]. change (is_num_char "-") with true. cbv iota.
    now rewrite (span_num_uint0 _ _ Htail).
Qed.

Lemma number_reads (z : Z) :
  exists i, DecimalString.NilZero.int_of_string (number z) = Some i /\ Z.of_int i = z.
Proof.
  exists (Z.to_int z). split; [| apply DecimalZ.of_to].
  unfold number. apply DecimalString.NilZero.isi.
  - destruct z; cbn; try discriminate.
    intros [= H]. now apply DecimalPos.Unsigned.to_uint_nonnil in H.
  - destruct z; cbn; try discriminate.
    intros [= H]. now apply DecimalPos.Unsigned.to_uint_nonnil in H.
Qed.

Lemma parse_number_number (z : Z) (tail : string) :
  Spec.starts_num tail = false ->
  parse_number (number z ++ tail) = Some (z, tail).
Proof.
  intros Htail. unfold parse_number. rewrite (span_num_number _ _ Htail).
  destruct (number_reads z) as (i & -> & ->). reflexivity.
Qed.

Lemma uint_head (d : Decimal.uint) :
  exists c s, DecimalString.NilZero.string_of_uint d = String c s
              /\ is_num_char c = true.
Proof. destruct d; cbn; do 2 eexists; split; reflexivity. Qed.

Lemma number_head (z : Z) :
  exists c s, number z = String c s /\ is_num_char c = true.
Proof.
  unfold number. destruct (Z.to_int z) as [d | d]; cbn.
  - apply uint_head.
  - do 2 eexists. split; reflexivity.
Qed.

(** *** Values *)

(** Induction over JSON values, with the hypothesis for every element
    of an array and every member of an object. *)
Lemma json_induction (P : json -> Prop) :
  P JNull ->
  (forall b, P (JBool b)) ->
  (forall z, P (JNum z)) ->
  (forall s, P (JStr s)) ->
  (forall items, Forall P items -> P (JArr items)) ->
  (forall members, Forall (fun kv => P (snd kv)) members -> P (JObj members)) ->
  forall j, P j.
Proof.
  intros Hnull Hbool Hnum Hstr Harr Hobj.
  fix IH 1. intros [| b | z | s | items | members].
  - exact Hnull.
  - apply Hbool.
  - apply Hnum.
  - apply Hstr.
  - apply Harr. induction items as [| x items IHl]; constructor;
      [apply IH | exact IHl].
  - apply Hobj. induction members as [| kv members IHl]; constructor;
      [apply IH | exact IHl].
Qed.

Lemma size_array (items : list json) : Spec.size (JArr items) = S (Spec.size_items items).
Proof.
  reflexivity.
Qed.

Lemma size_object (members : list (string * json)) :
  Spec.size (JObj members) = S (Spec.size_members members).
Proof.
  reflexivity.
Qed.

Lemma num_char_starts_value (c : ascii) :
  is_num_char c = true -> Spec.value_start c = true.
Proof. intros H. unfold Spec.value_start. rewrite H. apply orb_true_r. Qed.

(** The text of a value begins with a character that starts a value. *)
Lemma dumps_head (j : json) :
  exists c s, dumps j = String c s /\ Spec.value_start c = true.
Proof.
  destruct j as [| [|] | z | s | items | members]; cbn [dumps];
    try (do 2 eexists; split; reflexivity).
  destruct (number_head z) as (c & s & E & Hc).
  exists c, s. split; [exact E | now apply num_char_starts_value].
Qed.

Lemma skip_ws_dumps (j : json) (tail : string) :
  skip_ws (dumps j ++ tail) = dumps j ++ tail.
Proof.
  destruct (dumps_head j) as (c & s & -> & Hc).
  cbn [append skip_ws]. now rewrite (proj1 (value_start_facts c Hc)).
Qed.

Lemma no_bracket_dumps (j : json) (tail : string) :
  strip_prefix "]" (dumps j ++ tail) = None /\ strip_prefix "}" (dumps j ++ tail) = None.
Proof.
  destruct (dumps_head j) as (c & s & -> & Hc).
  destruct (value_start_facts c Hc) as (_ & H1 & H2).
  cbn [append strip_prefix]. now rewrite H1, H2.
Qed.

Lemma parse_value_space (fuel : nat) (s : string) :
  parse_value fuel (String " " s) = parse_value fuel s.
Proof. destruct fuel; reflexivity. Qed.

Lemma parse_elements_space (fuel : nat) (s : string) :
  parse_elements fuel (String " " s) = parse_elements fuel s.
Proof. destruct fuel; [reflexivity |]. cbn [parse_elements]. now rewrite parse_value_space. Qed.

Lemma parse_members_space (fuel : nat) (s : string) :
  parse_members fuel (String " " s) = parse_members fuel s.
Proof. destruct fuel; reflexivity. Qed.

(** *** One step of the reader *)

Lemma elements_last (fuel : nat) (s : string) (v : json) (rest : string) :
  parse_value fuel s = Some (v, String "]" rest) ->
  parse_elements (S fuel) s = Some ([v], rest).
Proof. intros H. cbn [parse_elements]. rewrite H. reflexivity. Qed.

Lemma elements_more (fuel : nat) (s : string) (v : json) (tail : string)
    (items : list json) (rest : string) :
  parse_value fuel s = Some (v, String "," tail) ->
  parse_elements fuel tail = Some (items, rest) ->
  parse_elements (S fuel) s = Some (v :: items, rest).
Proof.
  intros H1 H2. cbn [parse_elements]. rewrite H1.
  change (skip_ws (String "," tail)) with (String "," tail). cbv iota.
  change (Ascii.eqb "," "]") with false. change (Ascii.eqb "," ",") with true.
  cbv iota. now rewrite H2.
Qed.

Lemma member_key (fuel : nat) (k : string) (s : string) :
  parse_members (S fuel) (quote k ++ String ":" (String " " s))
  = match parse_value fuel s with
    | Some (v, r3) =>
        match skip_ws r3 with
        | String c r4 =>
            if Ascii.eqb c "}" then Some ([(k, v)], r4)
            else if Ascii.eqb c "," then
              match parse_members fuel r4 with
              | Some (members, r5) => Some ((k, v) :: members, r5)
              | None => None
              end
            else None
        | EmptyString => None
        end
    | None => None
    end.
Proof.
  rewrite quote_unfold. cbn [parse_members].
  change (skip_ws (String dquote ?x)) with (String dquote x). cbv iota.
  rewrite Ascii.eqb_refl, parse_body_escape.
  change (skip_ws (String ":" (String " " s))) with (String ":" (String " " s)).
  change (strip_prefix ":" (String ":" (String " " s))) with (Some (String " " s)).
  cbv iota. now rewrite parse_value_space.
Qed.

Lemma members_last (fuel : nat) (k : string) (s : string) (v : json) (rest : string) :
  parse_value fuel s = Some (v, String "}" rest) ->
  parse_members (S fuel) (quote k ++ String ":" (String " " s)) = Some ([(k, v)], rest).
Proof. intros H. rewrite member_key, H. reflexivity. Qed.

Lemma members_more (fuel : nat) (k : string) (s : string) (v : json) (tail : string)
    (members : list (string * json)) (rest : string) :
  parse_value fuel s = Some (v, String "," tail) ->
  parse_members fuel tail = Some (members, rest) ->
  parse_members (S fuel) (quote k ++ String ":" (String " " s))
  = Some ((k, v) :: members, rest).
Proof.
  intros H1 H2. rewrite member_key, H1.
  change (skip_ws (String "," tail)) with (String "," tail). cbv iota.
  change (Ascii.eqb "," "}") with false. change (Ascii.eqb "," ",") with true.
  cbv iota. now rewrite H2.
Qed.

(** *** Arrays and objects *)

Lemma join_cons (sep x y : string) (rest : list string) :
  Str.join sep (x :: y :: rest) = x ++ sep ++ Str.join sep (y :: rest).
Proof. reflexivity. Qed.

Lemma elements_read_back (items : list json) :
  Forall Spec.reads_back items -> items <> [] ->
  forall fuel rest,
    Spec.size_items items <= fuel ->
    parse_elements fuel (Str.join ", " (map dumps items) ++ String "]" rest)
    = Some (items, rest).
Proof.
  induction items as [| x items IH]; intros HF Hne fuel rest Hfuel;
    [contradiction |].
  inversion HF as [| ? ? Hx Hrest]; subst.
  destruct fuel as [| n]; [cbn in Hfuel; lia |]. cbn [Spec.size_items] in Hfuel.
  destruct items as [| y items].
  - cbn [map Str.join]. apply elements_last. apply Hx; [lia | reflexivity].
  - cbn [map]. rewrite join_cons, !StrFacts.append_assoc.
    change (", " ++ ?t) with (String "," (String " " t)).
    eapply elements_more.
    + apply Hx; [lia | reflexivity].
    + rewrite parse_elements_space.
      apply (IH Hrest); [discriminate | lia].
Qed.

Lemma members_read_back (members : list (string * json)) :
  Forall (fun kv => Spec.reads_back (snd kv)) members -> members <> [] ->
  forall fuel rest,
    Spec.size_members members <= fuel ->
    parse_members fuel (Str.join ", " (map Spec.member_text members) ++ String "}" rest)
    = Some (members, rest).
Proof.
  induction members as [| [k v] members IH]; intros HF Hne fuel rest Hfuel;
    [contradiction |].
  inversion HF as [| ? ? Hv Hrest]; subst. cbn [snd] in Hv.
  destruct fuel as [| n]; [cbn in Hfuel; lia |].
  cbn [Spec.size_members snd] in Hfuel.
  destruct members as [| kv members].
  - cbn [map Str.join]. unfold Spec.member_text. cbn [fst snd].
    rewrite !StrFacts.append_assoc.
    change (": " ++ ?t) with (String ":" (String " " t)).
    apply members_last. apply Hv; [lia | reflexivity].
  - cbn [map]. rewrite join_cons. unfold Spec.member_text at 1. cbn [fst snd].
    rewrite !StrFacts.append_assoc.
    change (": " ++ ?t) with (String ":" (String " " t)).
    change (", " ++ ?t) with (String "," (String " " t)).
    eapply members_more.
    + apply Hv; [lia | reflexivity].
    + rewrite parse_members_space.
      apply (IH Hrest); [discriminate | lia].
Qed.

Lemma elements_head (x : json) (items : list json) (t : string) :
  strip_prefix "]" (skip_ws (Str.join ", " (map dumps (x :: items)) ++ t)) = None.
Proof.
  destruct items as [| y items]; cbn [map].
  - cbn [Str.join]. now rewrite skip_ws_dumps, (proj1 (no_bracket_dumps x _)).
  - rewrite join_cons, StrFacts.append_assoc.
    now rewrite skip_ws_dumps, (proj1 (no_bracket_dumps x _)).
Qed.

Lemma members_head (kv : string * json) (members : list (string * json)) (t : string) :
  strip_prefix "}" (skip_ws (Str.join ", " (map Spec.member_text (kv :: members)) ++ t))
  = None.
Proof.
  destruct members as [| kv' members]; cbn [map].
  - cbn [Str.join]. unfold Spec.member_text.
    rewrite StrFacts.append_assoc, quote_unfold. reflexivity.
  - rewrite join_cons. unfold Spec.member_text at 1.
    rewrite !StrFacts.append_assoc, quote_unfold. reflexivity.
Qed.

(** The text of every value reads back as the value. *)
Lemma parse_value_dumps (j : json) : Spec.reads_back j.
Proof.
  induction j as [| b | z | s | items IH | members IH] using json_induction;
    intros fuel rest Hfuel Hrest;
    (destruct fuel as [| n]; [cbn in Hfuel; lia |]).
  - reflexivity.
  - destruct b; reflexivity.
  - cbn [dumps]. destruct (number_head z) as (c & s & E & Hc).
    destruct (num_char_facts c Hc) as (Hws & H1 & H2 & H3 & H4 & H5 & H6).
    assert (Hp := parse_number_number z rest Hrest).
    rewrite E in *. cbn [append] in *. cbn [parse_value skip_ws].
    rewrite Hws. cbv iota. rewrite H1, H2, H3, H4, H5, H6, Hp. reflexivity.
  - cbn [dumps]. rewrite quote_unfold. cbn [parse_value].
    change (skip_ws (String dquote ?x)) with (String dquote x). cbv iota.
    now rewrite Ascii.eqb_refl, parse_body_escape.
  - rewrite size_array in Hfuel. destruct items as [| x items]; [reflexivity |].
    cbn [dumps]. rewrite !StrFacts.append_assoc.
    change ("[" ++ ?t) with (String "[" t). change ("]" ++ ?t) with (String "]" t).
    cbn [parse_value].
    change (skip_ws (String "[" ?t)) with (String "[" t). cbv iota.
    change (Ascii.eqb "[" dquote) with false. change (Ascii.eqb "[" "[") with true.
    cbv iota.
    rewrite elements_head.
    rewrite (elements_read_back (x :: items) IH); [reflexivity | discriminate | lia].
  - rewrite size_object in Hfuel. destruct members as [| kv members]; [reflexivity |].
    cbn [dumps]. rewrite !StrFacts.append_assoc.
    change ("{" ++ ?t) with (String "{" t). change ("}" ++ ?t) with (String "}" t).
    cbn [parse_value].
    change (skip_ws (String "{" ?t)) with (String "{" t). cbv iota.
    change (Ascii.eqb "{" dquote) with false. change (Ascii.eqb "{" "[") with false.
    change (Ascii.eqb "{" "{") with true. cbv iota.
    fold Spec.member_text.
    rewrite members_head.
    rewrite (members_read_back (kv :: members) IH); [reflexivity | discriminate | lia].
Qed.

(** *** Fuel: the length of the text is enough *)

Lemma size_items_le (items : list json) :
  Forall (fun j => Spec.size j <= String.length (dumps j)) items ->
  Spec.size_items items <= String.length (Str.join ", " (map dumps items)) + 1.
Proof.
  induction items as [| x items IH]; intros HF; [cbn; lia |].
  inversion HF as [| ? ? Hx Hrest]; subst. specialize (IH Hrest).
  destruct items as [| y items].
  - cbn. lia.
  - cbn [map Spec.size_items] in *. rewrite join_cons, !StrFacts.length_append.
    cbn [String.length]. lia.
Qed.

Lemma size_members_le (members : list (string * json)) :
  Forall (fun kv => Spec.size (snd kv) <= String.length (dumps (snd kv))) members ->
  Spec.size_members members
  <= String.length (Str.join ", " (map Spec.member_text members)) + 1.
Proof.
  induction members as [| kv members IH]; intros HF; [cbn; lia |].
  inversion HF as [| ? ? Hv Hrest]; subst. specialize (IH Hrest).
  assert (Hm : Spec.size (snd kv) <= String.length (Spec.member_text kv)).
  { unfold Spec.member_text. rewrite !StrFacts.length_append. lia. }
  destruct members as [| kv' members].
  - cbn [map Str.join Spec.size_members]. lia.
  - cbn [map Spec.size_members] in *. rewrite join_cons, !StrFacts.length_append.
    cbn [String.length]. lia.
Qed.

Lemma size_le_length (j : json) : Spec.size j <= String.length (dumps j).
Proof.
  induction j as [| b | z | s | items IH | members IH] using json_induction.
  - cbn. lia.
  - destruct b; cbn; lia.
  - cbn [dumps Spec.size]. destruct (number_head z) as (c & s & -> & _). cbn. lia.
  - cbn. lia.
  - rewrite size_array. cbn [dumps]. rewrite !StrFacts.length_append.
    cbn [String.length]. pose proof (size_items_le items IH). lia.
  - rewrite size_object. cbn [dumps]. fold Spec.member_text.
    rewrite !StrFacts.length_append.
    cbn [String.length]. pose proof (size_members_le members IH). lia.
Qed.

(** [json.loads(json.dumps(j)) == j] for every value. *)
Lemma loads_dumps (j : json) : loads (dumps j) = Some j.
Proof.
  pose proof (parse_value_dumps j (S (String.length (dumps j))) EmptyString) as H.
  rewrite StrFacts.append_nil_r in H. unfold loads. rewrite H; [reflexivity | | reflexivity].
  pose proof (size_le_length j). lia.
Qed.

End JsonTextFacts.

(** ** The dataflow envelope *)

Module EnvelopeFacts.

(** Reading an encoded part back gives the value it was made from. *)
Lemma unconv_conv (j : json) : Helper.unconv_b64 (Helper._conv_b64 j) = Some j.
Proof.
  unfold Helper.unconv_b64, Helper._conv_b64.
  now rewrite Base64Facts.decode_encode, JsonTextFacts.loads_dumps.
Qed.

(** C8.  The envelope round trip.  For every mashup document, whatever
    bytes it holds (quotes, backslashes, control characters, text outside
    ASCII): the encoded envelope decodes to the envelope, with the
    document unchanged in its field and every constant field as written;
    and the encoded text is a function of the document alone: whatever the
    environment, the one request of [create_dataflow] carries it in the part
    dataflow-content.json. *)
Theorem envelope_round_trip (mashup_document : string) :
  Helper.unconv_b64 (Helper._conv_b64 (Dataflows.dataflow_def_payload mashup_document))
  = Some (Dataflows.dataflow_def_payload mashup_document)
  /\ (forall decoded,
        Helper.unconv_b64
          (Helper._conv_b64 (Dataflows.dataflow_def_payload mashup_document))
        = Some decoded ->
        Json.path ["editingSessionMashup"; "mashupDocument"] decoded
        = Some (JStr mashup_document)
        /\ Json.path ["editingSessionMashup"; "documentLocale"] decoded
           = Some (JStr "en-US")
        /\ Json.path ["editingSessionMashup"; "hostProperties";
                      "DataflowRefreshOutpuFileFormat"] decoded
           = Some (JStr "Parquet"))
  /\ (forall (env : Dataflows.Env) (dataflow_name : string)
             (description workspace : option string) (req : Request),
        In req (http_requests (trace_of (Dataflows.create_dataflow env dataflow_name
                                           mashup_document description workspace))) ->
        exists body,
          sent req = AsJson body
          /\ Json.path ["definition"; "parts"] body
             = Some (JArr [ JObj [ ("path", JStr "dataflow-content.json");
                                   ("payload",
                                    JStr (Helper._conv_b64
                                            (Dataflows.dataflow_def_payload
                                               mashup_document))) ] ])).
Proof.
  split; [apply unconv_conv |]. split.
  - intros decoded H. rewrite unconv_conv in H. injection H as <-.
    repeat split.
  - intros env dataflow_name description workspace req Hin.
    exists (Dataflows.item_payload dataflow_name mashup_document description).
    unfold_run. unfold Dataflows.create_dataflow in Hin. unfold_m. cbn in Hin.
    destruct (Dataflows.resolve_workspace_name_and_id env workspace) as [[ws wsid] | e |];
      cbn in Hin; try contradiction.
    destruct (Dataflows.client env _) as [r | e |]; cbn in Hin;
      [destruct (negb _); cbn in Hin | | ];
      destruct Hin as [<- | []]; (split; [reflexivity |]);
      destruct description; reflexivity.
Qed.

Lemma envelope_round_trip_witness :
  Helper.unconv_b64 (Helper._conv_b64 (Dataflows.dataflow_def_payload Sample.document))
  = Some (Dataflows.dataflow_def_payload Sample.document).
Proof. exact (proj1 (envelope_round_trip Sample.document)). Defined.

End EnvelopeFacts.

(** ** Status codes of the mutating operations *)

Module StatusFacts.

(** C3.  One success code per operation.  Each operation that creates,
    deletes or changes something sends its one request and compares the
    status of the response with one code: 201 for the three create-
    connection functions, for the role assignment and for a shortcut, 200
    for the deletion of a connection and for the creation of a dataflow.
    With that code the operation returns; with any other it raises
    [FabricHTTPException] holding the response; it sends no second
    request, and there is no third outcome. *)
Theorem one_success_code
    (cenv : Connections.Env) (denv : Dataflows.Env) (oenv : OneLake.Env)
    (connection_name gateway_id server_name database_name credential_type user_name
     password credentials privacy_level email_address principal_type role
     connection_id : string)
    (connectivity_type single_sign_on_type encryption : option string)
    (dataflow_name mashup_document : string) (description workspace : option string)
    (ws wsid : string)
    (dataset source_workspace source_workspace_id : string)
    (destination_lakehouse : option string)
    (destination_workspace dwsid dlhid source : string) (t : OneLake.Table)
    (Hid : Connections.resolve_connection_id cenv connection_name = Ok connection_id)
    (Hpt : Str.mem principal_type Connections.principal_types = true)
    (Hrole : Str.mem role Connections.connection_roles = true)
    (Hws : Dataflows.resolve_workspace_name_and_id denv workspace = Ok (ws, wsid))
    (Ht : OneLake.eligible t = true) :
  Spec.settles 201 (Connections.client cenv)
    (mkRequest POST "/v1/connections"
       (AsJson (Connections.cloud_request_body connection_name server_name database_name
                  credential_type user_name password privacy_level connectivity_type
                  single_sign_on_type encryption)))
    (Connections.create_connection_cloud cenv connection_name server_name database_name
       credential_type user_name password privacy_level connectivity_type
       single_sign_on_type encryption)
  /\ Spec.settles 201 (Connections.client cenv)
    (mkRequest POST "/v1/connections"
       (AsJson (Connections.on_prem_request_body connection_name gateway_id server_name
                  database_name credential_type credentials privacy_level
                  connectivity_type single_sign_on_type encryption)))
    (Connections.create_connection_on_prem cenv connection_name gateway_id server_name
       database_name credential_type credentials privacy_level connectivity_type
       single_sign_on_type encryption)
  /\ Spec.settles 201 (Connections.client cenv)
    (mkRequest POST "/v1/connections"
       (AsJson (Connections.vnet_request_body connection_name gateway_id server_name
                  database_name user_name password credential_type privacy_level
                  connectivity_type single_sign_on_type encryption)))
    (Connections.create_connection_vnet cenv connection_name gateway_id server_name
       database_name user_name password credential_type privacy_level connectivity_type
       single_sign_on_type encryption)
  /\ Spec.settles 201 (Connections.client cenv)
    (Spec.role_assignment_request connection_id email_address principal_type role)
    (Connections.add_connection_role_assignemnt cenv connection_name email_address
       principal_type role)
  /\ Spec.settles 200 (Connections.client cenv)
    (mkRequest DELETE ("/v1/connections/" ++ connection_id) NoBody)
    (Connections.delete_connection cenv connection_name)
  /\ Spec.settles 200 (Dataflows.client denv)
    (mkRequest POST ("/v1/workspaces/" ++ wsid ++ "/items")
       (AsJson (Dataflows.item_payload dataflow_name mashup_document description)))
    (Dataflows.create_dataflow denv dataflow_name mashup_document description workspace)
  /\ Spec.settles 201 (OneLake.client oenv)
    (OneLake.shortcut_request dwsid dlhid source_workspace_id source (OneLake.Name t))
    (OneLake.create_shortcut oenv dataset source_workspace source_workspace_id
       destination_lakehouse destination_workspace dwsid dlhid source t).
Proof.
  split; [apply ConnectionFacts.post_connection_settles |].
  split; [apply ConnectionFacts.post_connection_settles |].
  split; [apply ConnectionFacts.post_connection_settles |].
  split; [apply ConnectionFacts.add_role_settles; assumption |].
  split; [apply ConnectionFacts.delete_connection_settles; assumption |].
  split; [apply DataflowFacts.create_dataflow_settles with (ws := ws); assumption |].
  apply OneLakeFacts.create_shortcut_settles; assumption.
Qed.

Lemma one_success_code_witness :
  result_of (Connections.delete_connection (Sample.connections 200) "sales") = Ok tt
  /\ result_of (Connections.delete_connection (Sample.connections 204) "sales")
     = Raise (FabricHTTPException (mkResponse 204 JNull))
  /\ result_of (Connections.add_connection_role_assignemnt (Sample.connections 200)
                  "sales" "a@contoso.com" "User" "Owner")
     = Raise (FabricHTTPException (mkResponse 200 JNull)).
Proof.
  pose (t := OneLake.mkTable "Orders" None false [OneLake.Import] 4).
  destruct (one_success_code (Sample.connections 200) (Sample.dataflows 200)
              (Sample.onelake true) "sales" "gw" "srv" "db" "Basic" "u" "p" "c" "None"
              "a@contoso.com" "User" "Owner" "<sales>" None None None "flow" "doc" None
              None "Home" "<Home>" "Sales" "Home" "<Home>" None "Home" "<Home>" "lh-1"
              "item-1" t eq_refl eq_refl eq_refl eq_refl eq_refl)
    as (_ & _ & _ & Hadd & Hdel & _ & _).
  destruct (one_success_code (Sample.connections 204) (Sample.dataflows 200)
              (Sample.onelake true) "sales" "gw" "srv" "db" "Basic" "u" "p" "c" "None"
              "a@contoso.com" "User" "Owner" "<sales>" None None None "flow" "doc" None
              None "Home" "<Home>" "Sales" "Home" "<Home>" None "Home" "<Home>" "lh-1"
              "item-1" t eq_refl eq_refl eq_refl eq_refl eq_refl)
    as (_ & _ & _ & _ & Hdel' & _ & _).
  split; [| split].
  - destruct (Hdel (mkResponse 200 JNull) eq_refl) as (Hok & _ & _). now apply Hok.
  - destruct (Hdel' (mkResponse 204 JNull) eq_refl) as (_ & Hno & _).
    apply Hno. discriminate.
  - destruct (Hadd (mkResponse 200 JNull) eq_refl) as (_ & Hno & _).
    apply Hno. discriminate.
Defined.

End StatusFacts.

(** * Part III. Further properties of the code *)

(** ** The listings, row by row *)

Module ListingFacts.
Import Connections.

Lemma row_get_align (c : string) (cs : list string) (r : Row) :
  In c cs -> Pd.row_get c (Pd.align cs r) = Pd.row_get c r.
Proof.
  induction cs as [| c' cs IH]; intros Hin; [contradiction |].
  cbn. destruct (String.eqb_spec c c') as [-> | Hne]; [reflexivity |].
  apply IH. destruct Hin as [E | Hin]; [congruence | assumption].
Qed.

Lemma align_align (cs : list string) (r : Row) :
  Pd.align cs (Pd.align cs r) = Pd.align cs r.
Proof.
  unfold Pd.align at 1 3. apply map_ext_in. intros c Hc.
  now rewrite row_get_align.
Qed.

Lemma cell_of_plain (v : json) : Terms.plain v = true -> Pd.cell_of_value v = Ok (Val v).
Proof. destruct v; cbn; intros H; try reflexivity; discriminate. Qed.

Lemma of_record_plain (d : list (string * json)) :
  forallb Terms.plain (map snd d) = true ->
  Pd.of_record d = Ok (mkFrame (map fst d) [Terms.row_of d]).
Proof.
  intros H. unfold Pd.of_record.
  assert (Hrow : Pd.row_of_record d = Ok (Terms.row_of d)).
  { induction d as [| [k v] d IH]; [reflexivity |].
    cbn in H. apply andb_true_iff in H. destruct H as [Hv Hd].
    cbn. rewrite (cell_of_plain v Hv), (IH Hd). reflexivity. }
  now rewrite Hrow.
Qed.

Lemma credential_field_object (d : list (string * json)) (key : string) :
  credential_field (JObj d) key = Ok (Spec.field d key).
Proof.
  unfold credential_field. destruct d as [| kv d]; [reflexivity |].
  cbn [Json.truthy]. apply ConnectionFacts.get_object.
Qed.

(** The dictionary built for a tidy item. *)
Lemma tidy_connection_new_data (i : json) :
  Terms.tidy_connection i = true ->
  connection_new_data i = Ok (Terms.connection_record i)
  /\ forallb Terms.plain (map snd (Terms.connection_record i)) = true.
Proof.
  destruct i as [| | | | | ms]; try discriminate. cbn [Terms.tidy_connection].
  rewrite !andb_true_iff. intros [[Hcd Hcr] Hplain].
  unfold Terms.connection_record, Terms.members_of.
  split.
  - unfold connection_new_data, Terms.details, Terms.object_or_missing in *.
    rewrite !ConnectionFacts.get_object. cbn [and_then].
    destruct (Json.lookup "connectionDetails" ms) as [[| | | | | cd] |];
      try discriminate;
      destruct (Json.lookup "credentialDetails" ms) as [[| | | | | cr] |];
      try discriminate;
      repeat (rewrite ?ConnectionFacts.get_object, ?credential_field_object;
              cbn [and_then]);
      reflexivity.
  - cbn [map snd]. cbn [forallb] in *.
    repeat (apply andb_true_iff in Hplain; destruct Hplain as [? Hplain]).
    repeat (apply andb_true_iff; split); assumption.
Qed.

Section Appending.

Variable nd : json -> outcome (list (string * json)).
Variable record : json -> list (string * json).
Variable tidy : json -> bool.
Variables declared final keys : list string.

Hypothesis nd_tidy : forall i, tidy i = true ->
  nd i = Ok (record i) /\ forallb Terms.plain (map snd (record i)) = true.
Hypothesis record_keys : forall i, map fst (record i) = keys.
Hypothesis first_row :
  (declared ++ filter (fun c => negb (Str.mem c declared)) keys)%list = final.
Hypothesis next_row :
  (final ++ filter (fun c => negb (Str.mem c final)) keys)%list = final.

Lemma concat_held (raw : list Row) (i : json) :
  Pd.concat (Terms.held declared final raw) (mkFrame keys [Terms.row_of (record i)])
  = Terms.held declared final (raw ++ [Terms.row_of (record i)]).
Proof.
  unfold Terms.held, Pd.concat. destruct raw as [| r raw].
  - cbn [map Terms.table Pd.empty columns rows app]. now rewrite first_row.
  - cbn [map Terms.table columns rows app]. rewrite next_row. f_equal.
    cbn [map]. rewrite align_align. f_equal.
    rewrite !map_app, map_map. cbn [map]. f_equal.
    apply map_ext. intros r'. apply align_align.
Qed.

Lemma append_records_held (items : list json) : forall raw : list Row,
  forallb tidy items = true ->
  append_records nd (Terms.held declared final raw) items
  = Ok (Terms.held declared final (raw ++ map (fun i => Terms.row_of (record i)) items)).
Proof.
  induction items as [| i items IH]; intros raw Htidy.
  - cbn. now rewrite List.app_nil_r.
  - cbn [forallb] in Htidy. apply andb_true_iff in Htidy. destruct Htidy as [Hi Hitems].
    destruct (nd_tidy i Hi) as [Hnd Hplain].
    cbn [append_records]. unfold append_record. rewrite Hnd. cbn [and_then].
    rewrite (of_record_plain _ Hplain). cbn [and_then]. rewrite record_keys.
    rewrite concat_held, (IH _ Hitems). cbn [map].
    now rewrite <- List.app_assoc.
Qed.

End Appending.

Lemma tidy_assignment_new_data (v : json) :
  Terms.tidy_assignment v = true ->
  role_assignment_new_data v = Ok (Terms.assignment_record v)
  /\ forallb Terms.plain (map snd (Terms.assignment_record v)) = true.
Proof.
  destruct v as [| | | | | ms]; try discriminate. cbn [Terms.tidy_assignment].
  rewrite !andb_true_iff. intros [[Hty Hpr] Hplain].
  unfold Terms.assignment_record, Terms.members_of.
  split.
  - unfold role_assignment_new_data, Terms.details, Terms.object_or_missing, Spec.field in *.
    cbn [Json.get and_then].
    destruct (Json.lookup "princiapl" ms); [discriminate |].
    destruct (Json.lookup "principal" ms) as [[| | | | | pr] |];
      try discriminate; cbn [Json.get Json.lookup and_then];
      destruct (Json.lookup "id" ms), (Json.lookup "role" ms); cbn [and_then];
      try destruct (Json.lookup "type" pr); reflexivity.
  - cbn [map snd]. cbn [forallb] in *.
    repeat (apply andb_true_iff in Hplain; destruct Hplain as [? Hplain]).
    repeat (apply andb_true_iff; split); try assumption; reflexivity.
Qed.

Lemma connection_rows_closed (raw : list Row) (items : list json) :
  forallb Terms.tidy_connection items = true ->
  append_records connection_new_data
    (Terms.table connection_columns Terms.connection_columns_with_rows
       (map (Pd.align Terms.connection_columns_with_rows) raw)) items
  = Ok (Terms.table connection_columns Terms.connection_columns_with_rows
          (map (Pd.align Terms.connection_columns_with_rows)
               (raw ++ map (fun i => Terms.row_of (Terms.connection_record i)) items))).
Proof.
  apply (append_records_held connection_new_data Terms.connection_record
           Terms.tidy_connection connection_columns Terms.connection_columns_with_rows
           (map fst (Terms.connection_record JNull))).
  - apply tidy_connection_new_data.
  - reflexivity.
  - reflexivity.
  - reflexivity.
Qed.

Lemma assignment_rows_closed (raw : list Row) (items : list json) :
  forallb Terms.tidy_assignment items = true ->
  append_records role_assignment_new_data
    (Terms.table role_assignment_columns Terms.assignment_columns_with_rows
       (map (Pd.align Terms.assignment_columns_with_rows) raw)) items
  = Ok (Terms.table role_assignment_columns Terms.assignment_columns_with_rows
          (map (Pd.align Terms.assignment_columns_with_rows)
               (raw ++ map (fun i => Terms.row_of (Terms.assignment_record i)) items))).
Proof.
  apply (append_records_held role_assignment_new_data Terms.assignment_record
           Terms.tidy_assignment role_assignment_columns Terms.assignment_columns_with_rows
           (map fst (Terms.assignment_record JNull))).
  - apply tidy_assignment_new_data.
  - reflexivity.
  - reflexivity.
  - reflexivity.
Qed.

Lemma tidy_page_items (page : json) :
  Terms.tidy_page page = true ->
  exists value,
    Json.get page "value" (JArr []) = Ok value
    /\ Json.iter value = Ok (Spec.page_items page)
    /\ forallb Terms.tidy_assignment (Spec.page_items page) = true.
Proof.
  destruct page as [| | | | | ms]; try discriminate.
  unfold Terms.tidy_page, Spec.page_items. cbn [Json.get].
  destruct (Json.lookup "value" ms) as [[| | | | items |] |]; try discriminate;
    cbn [and_then Json.iter]; intros H; eexists; repeat split; try reflexivity; assumption.
Qed.

Lemma assignment_pages_closed (pages : list json) : forall raw : list Row,
  forallb Terms.tidy_page pages = true ->
  append_pages
    (Terms.table role_assignment_columns Terms.assignment_columns_with_rows
       (map (Pd.align Terms.assignment_columns_with_rows) raw)) pages
  = Ok (Terms.table role_assignment_columns Terms.assignment_columns_with_rows
          (map (Pd.align Terms.assignment_columns_with_rows)
               (raw ++ map (fun i => Terms.row_of (Terms.assignment_record i))
                           (flat_map Spec.page_items pages)))).
Proof.
  induction pages as [| page pages IH]; intros raw Htidy.
  - cbn. now rewrite List.app_nil_r.
  - cbn [forallb] in Htidy. apply andb_true_iff in Htidy. destruct Htidy as [Hp Hps].
    destruct (tidy_page_items page Hp) as (value & Hvalue & Hitems & Htidy).
    cbn [append_pages flat_map]. rewrite Hvalue. cbn [and_then].
    rewrite Hitems. cbn [and_then].
    rewrite (assignment_rows_closed raw _ Htidy). cbn [and_then].
    rewrite (IH _ Hps). rewrite (map_app _ (Spec.page_items page)).
    now rewrite List.app_assoc.
Qed.

Lemma astype_bool_table (c : string) (declared final : list string) (rs : list Row) :
  Pd.astype_bool c (Terms.table declared final rs)
  = Terms.table declared final
      (map (Pd.row_map_col c (fun x => Val (JBool (Pd.cell_truthy x)))) rs).
Proof. destruct rs; reflexivity. Qed.

Lemma connection_row_spec (i : json) :
  Pd.row_map_col "Skip Test Connection" (fun x => Val (JBool (Pd.cell_truthy x)))
    (Pd.align Terms.connection_columns_with_rows (Terms.row_of (Terms.connection_record i)))
  = Terms.connection_row i.
Proof. reflexivity. Qed.

Lemma assignment_row_spec (v : json) :
  Pd.align Terms.assignment_columns_with_rows (Terms.row_of (Terms.assignment_record v))
  = Terms.assignment_row v.
Proof. reflexivity. Qed.

(** X1.  The table of [list_connections].  When the server answers 200
    and every item is a dictionary of scalars whose connectionDetails and
    credentialDetails are dictionaries or missing, the call returns one row
    per item, in the order of the response.  A row holds the fields of its
    item under the declared labels, [None] for a field the item lacks; the
    declared columns Single Sign on Type and Connection Encyrption hold NaN
    in every row, their values sit in the two added columns; and Skip Test
    Connection holds a boolean, [False] where the item has no such field.
    Without items the table has the declared columns and no row. *)
Theorem list_connections_table (env : Env) (r : Response) (items : list json) :
  client env Terms.connections_request = Ok r ->
  status_code r = 200%Z ->
  Json.get (body r) "value" (JArr []) = Ok (JArr items) ->
  forallb Terms.tidy_connection items = true ->
  result_of (list_connections env)
  = Ok (Terms.table connection_columns Terms.connection_columns_with_rows
          (map Terms.connection_row items)).
Proof.
  intros Hr Hs Hv Htidy. unfold Terms.connections_request in Hr.
  unfold list_connections. unfold_run. unfold_m. cbn. rewrite Hr. cbn.
  rewrite Hs. cbn. rewrite Hv. cbn.
  change (Pd.empty connection_columns)
    with (Terms.table connection_columns Terms.connection_columns_with_rows
            (map (Pd.align Terms.connection_columns_with_rows) [])).
  rewrite (connection_rows_closed [] items Htidy). cbn [fst app].
  rewrite astype_bool_table, !map_map. do 2 f_equal.
Qed.

Lemma list_connections_table_witness :
  result_of (list_connections (Cases.listing_of Cases.connection_items))
  = Ok (mkFrame Terms.connection_columns_with_rows
          [ Terms.connection_row Cases.full_connection;
            Terms.connection_row Cases.bare_connection ]).
Proof.
  apply (list_connections_table (Cases.listing_of Cases.connection_items)
           (mkResponse 200 (JObj [ ("value", JArr Cases.connection_items) ]))
           Cases.connection_items); reflexivity.
Defined.

(** The rows of the two sample connections, cell by cell. *)
Example rows_of_the_sample_connections :
  map (map snd) (map Terms.connection_row Cases.connection_items)
  = [ [ Val (JStr "c-1"); Val (JStr "Warehouse"); Val JNull;
        Val (JStr "ShareableCloud"); Val (JStr "srv;db"); Val (JStr "SQL");
        Val (JStr "Organizational"); Val (JStr "Basic"); NaN; NaN;
        Val (JBool false); Val (JStr "None"); Val (JStr "NotEncrypted") ];
      [ Val (JStr "c-2"); Val JNull; Val JNull; Val JNull; Val JNull; Val JNull;
        Val JNull; Val JNull; NaN; NaN; Val (JBool false); Val JNull; Val JNull ] ].
Proof. reflexivity. Qed.

(** X2.  The table of the role assignments.  The loop of
    [list_connection_role_assignments] over the pages it was handed, each a
    dictionary whose value is missing or a list of dictionaries of scalars
    without the key princiapl: one row per item, page after page in the
    order of the pages.  In every row Principal Id is [None] (it is read
    from the key princiapl) and the declared column Principal Type is NaN;
    the type of the principal sits in the added column Princiapl Type.  A
    page without value adds nothing. *)
Theorem role_assignment_table (pages : list json) :
  forallb Terms.tidy_page pages = true ->
  append_pages (Pd.empty role_assignment_columns) pages
  = Ok (Terms.table role_assignment_columns Terms.assignment_columns_with_rows
          (map Terms.assignment_row (flat_map Spec.page_items pages))).
Proof.
  intros Htidy.
  change (Pd.empty role_assignment_columns)
    with (Terms.table role_assignment_columns Terms.assignment_columns_with_rows
            (map (Pd.align Terms.assignment_columns_with_rows) [])).
  rewrite (assignment_pages_closed pages [] Htidy). cbn [app].
  now rewrite map_map.
Qed.

Lemma role_assignment_table_witness :
  append_pages (Pd.empty role_assignment_columns) Cases.assignment_pages
  = Ok (mkFrame Terms.assignment_columns_with_rows
          [ [ ("Connection Role Assignment Id", Val (JStr "ra-1"));
              ("Principal Id", Val JNull);
              ("Principal Type", NaN);
              ("Role", Val (JStr "Owner"));
              ("Princiapl Type", Val (JStr "User")) ];
            [ ("Connection Role Assignment Id", Val (JStr "ra-2"));
              ("Principal Id", Val JNull);
              ("Principal Type", NaN);
              ("Role", Val JNull);
              ("Princiapl Type", Val JNull) ] ]).
Proof.
  apply (role_assignment_table Cases.assignment_pages). reflexivity.
Defined.

(** X3.  A listing that is refused.  When the server answers the request
    of a listing with a status other than 200, the listing raises
    [FabricHTTPException] holding that response and builds no table;
    [list_connection_role_assignments] has then sent its one request and
    follows no continuation link, whatever the refused response holds. *)
Theorem listing_refused (env : Env) (fuel : nat) (connection_name id : string)
    (r r' : Response) :
  client env Terms.connections_request = Ok r ->
  status_code r <> 200%Z ->
  resolve_connection_id env connection_name = Ok id ->
  client env (Terms.role_assignments_request id) = Ok r' ->
  status_code r' <> 200%Z ->
  result_of (list_connections env) = Raise (FabricHTTPException r)
  /\ result_of (list_connection_role_assignments fuel env connection_name)
     = Raise (FabricHTTPException r')
  /\ http_requests (trace_of (list_connection_role_assignments fuel env connection_name))
     = [Terms.role_assignments_request id].
Proof.
  unfold Terms.connections_request, Terms.role_assignments_request.
  intros Hr Hs Hid Hr' Hs'.
  unfold_run. unfold list_connections, list_connection_role_assignments, resolve.
  unfold_m. cbn in Hr, Hr' |- *. rewrite Hr, Hid. cbn in Hr' |- *. rewrite Hr'. cbn.
  destruct (Z.eqb_spec (status_code r) 200) as [E | _]; [contradiction |].
  destruct (Z.eqb_spec (status_code r') 200) as [E | _]; [contradiction |].
  cbn. repeat split.
Qed.

Lemma listing_refused_witness :
  result_of (list_connections (Sample.connections 403))
  = Raise (FabricHTTPException (mkResponse 403 JNull))
  /\ result_of (list_connection_role_assignments 5 (Sample.connections 403) "sales")
     = Raise (FabricHTTPException (mkResponse 403 JNull))
  /\ http_requests
       (trace_of (list_connection_role_assignments 5 (Sample.connections 403) "sales"))
     = [Terms.role_assignments_request "<sales>"].
Proof.
  apply (listing_refused (Sample.connections 403) 5 "sales" "<sales>"
           (mkResponse 403 JNull) (mkResponse 403 JNull));
    try reflexivity; discriminate.
Defined.

Lemma append_records_app (nd : json -> outcome (list (string * json)))
    (a b : list json) : forall df : Frame,
  append_records nd df (a ++ b)
  = and_then (append_records nd df a) (fun df' => append_records nd df' b).
Proof.
  induction a as [| i a IH]; intros df; [reflexivity |].
  cbn [app append_records]. destruct (append_record nd df i); cbn [and_then];
    [apply IH | reflexivity | reflexivity].
Qed.

Lemma broken_connection_new_data (i : json) :
  Terms.broken_connection i = true ->
  connection_new_data i = Raise (Terms.no_get (Terms.culprit i)).
Proof.
  destruct i as [| | | | | ms]; try reflexivity.
  unfold Terms.broken_connection, Terms.object_or_missing, connection_new_data,
    Terms.culprit, Terms.no_get.
  repeat (rewrite ConnectionFacts.get_object; cbn [and_then]).
  unfold credential_field.
  destruct (Json.lookup "connectionDetails" ms) as [[| | | | | cd] |];
    destruct (Json.lookup "credentialDetails" ms) as [[| | | | | cr] |];
    cbn [negb orb Json.get and_then]; try discriminate; try reflexivity;
    intros Ht; try rewrite Ht;
    try (destruct (Json.lookup "path" cd), (Json.lookup "type" cd));
    reflexivity.
Qed.

(** X4.  One item that cannot be projected loses the whole listing.  When
    the response holds, after any number of well-formed items, an item
    that is no dictionary, or whose connectionDetails is there but is no
    dictionary (null, say), or whose credentialDetails is a truthy value
    that is no dictionary, [list_connections] raises the [AttributeError]
    of the first [get] on a value without that method, whose message names
    the type of that value ('NoneType' for a null): the rows of the items
    before it are not returned, and the items after it are not looked at. *)
Theorem one_broken_item_loses_listing (env : Env) (r : Response)
    (good : list json) (bad : json) (rest : list json) :
  client env Terms.connections_request = Ok r ->
  status_code r = 200%Z ->
  Json.get (body r) "value" (JArr []) = Ok (JArr (good ++ bad :: rest)) ->
  forallb Terms.tidy_connection good = true ->
  Terms.broken_connection bad = true ->
  result_of (list_connections env) = Raise (Terms.no_get (Terms.culprit bad)).
Proof.
  intros Hr Hs Hv Htidy Hbad. unfold Terms.connections_request in Hr.
  unfold list_connections. unfold_run. unfold_m. cbn. rewrite Hr. cbn.
  rewrite Hs. cbn. rewrite Hv. cbn.
  rewrite append_records_app.
  change (Pd.empty connection_columns)
    with (Terms.table connection_columns Terms.connection_columns_with_rows
            (map (Pd.align Terms.connection_columns_with_rows) [])).
  rewrite (connection_rows_closed [] good Htidy). cbn [and_then append_records].
  unfold append_record. rewrite (broken_connection_new_data bad Hbad). reflexivity.
Qed.

Lemma one_broken_item_loses_listing_witness :
  result_of (list_connections
               (Cases.listing_of (Cases.connection_items ++ [Cases.null_details])))
  = Raise (AttributeError "'NoneType' object has no attribute 'get'").
Proof.
  apply (one_broken_item_loses_listing
           (Cases.listing_of (Cases.connection_items ++ [Cases.null_details]))
           (mkResponse 200
              (JObj [ ("value", JArr (Cases.connection_items ++ [Cases.null_details])) ]))
           Cases.connection_items Cases.null_details []); reflexivity.
Defined.

(** X5.  A falsy credentialDetails reads as an empty one.  The guard
    [if credential_details] makes an item whose credentialDetails is null,
    false, zero, or an empty string, list or dictionary project exactly as
    if it were an empty dictionary: the four credential fields are [None];
    whereas connectionDetails has no such guard (a null there is the
    [AttributeError] of the broken item). *)
Theorem falsy_credentials_read_as_empty (ms : list (string * json)) (v : json) :
  Json.lookup "credentialDetails" ms = Some v ->
  Json.truthy v = false ->
  connection_new_data (JObj ms)
  = connection_new_data (JObj (("credentialDetails", JObj []) :: ms))
  /\ (Terms.object_or_missing ms "connectionDetails" = true ->
      exists d,
        connection_new_data (JObj ms) = Ok d
        /\ Spec.field d "Credential Type" = JNull
        /\ Spec.field d "Single Sign On Type" = JNull
        /\ Spec.field d "Connection Encryption" = JNull
        /\ Spec.field d "Skip Test Connection" = JNull).
Proof.
  intros Hv Ht.
  assert (Hcf : forall key, credential_field v key = Ok JNull).
  { intros key. unfold credential_field. now rewrite Ht. }
  unfold connection_new_data, Terms.object_or_missing.
  repeat (rewrite ConnectionFacts.get_object; cbn [and_then]).
  cbn [Json.lookup String.eqb Ascii.eqb Bool.eqb]. rewrite Hv. cbn [and_then].
  split.
  - destruct (Json.lookup "connectionDetails" ms) as [cd |]; cbn [and_then];
      [destruct (Json.get cd "path" JNull); cbn [and_then]; try reflexivity;
       destruct (Json.get cd "type" JNull); cbn [and_then]; try reflexivity |];
      rewrite !Hcf; reflexivity.
  - destruct (Json.lookup "connectionDetails" ms) as [[| | | | | cd] |];
      try discriminate; intros _;
      repeat (rewrite ?ConnectionFacts.get_object; cbn [and_then]);
      rewrite !Hcf; cbn [and_then]; eexists; (split; [reflexivity |]);
      repeat split.
Qed.

Lemma falsy_credentials_read_as_empty_witness :
  connection_new_data (JObj [ ("id", JStr "c-4"); ("credentialDetails", JNull) ])
  = connection_new_data
      (JObj [ ("credentialDetails", JObj []);
              ("id", JStr "c-4"); ("credentialDetails", JNull) ]).
Proof.
  exact (proj1 (falsy_credentials_read_as_empty
                  [ ("id", JStr "c-4"); ("credentialDetails", JNull) ] JNull
                  eq_refl eq_refl)).
Defined.

(** X6.  A name that does not resolve.  When [resolve_connection_id]
    raises, the role assignment, the deletion and the listing of role
    assignments raise that exception and send no request.  For the role
    assignment this holds whatever [principal_type] and [role] are: the
    resolver's exception comes before the [ValueError] of an invalid
    value. *)
Theorem unresolved_connection_sends_nothing (env : Env) (fuel : nat)
    (connection_name email_address principal_type role : string) (e : exn) :
  resolve_connection_id env connection_name = Raise e ->
  let unresolved (c : M unit) :=
    result_of c = Raise e
    /\ trace_of c = [Resolve "resolve_connection_id" [connection_name]] in
  unresolved (add_connection_role_assignemnt env connection_name email_address
                principal_type role)
  /\ unresolved (delete_connection env connection_name)
  /\ result_of (list_connection_role_assignments fuel env connection_name) = Raise e
  /\ http_requests (trace_of (list_connection_role_assignments fuel env connection_name))
     = [].
Proof.
  intros He. cbv zeta. unfold_run.
  unfold add_connection_role_assignemnt, delete_connection,
    list_connection_role_assignments, resolve.
  unfold_m. cbn. rewrite He. cbn. repeat split.
Qed.

Lemma unresolved_connection_sends_nothing_witness :
  result_of (add_connection_role_assignemnt Cases.strangers "sales" "a@contoso.com"
               "Robot" "Owner")
  = Raise (ValueError "connection not found: sales")
  /\ trace_of (add_connection_role_assignemnt Cases.strangers "sales" "a@contoso.com"
                 "Robot" "Owner")
     = [Resolve "resolve_connection_id" ["sales"]].
Proof.
  exact (proj1 (unresolved_connection_sends_nothing Cases.strangers 0 "sales"
                  "a@contoso.com" "Robot" "Owner"
                  (ValueError "connection not found: sales") eq_refl)).
Defined.

End ListingFacts.

(** ** What a printed confirmation means *)

Module ConfirmationFacts.

(** A trace without a print holds no message. *)
Ltac no_print H :=
  let m := fresh "m" in
  exfalso; destruct H as [m H]; cbn in H;
  repeat (destruct H as [H | H]; [discriminate H |]); exact H.

Ltac has_print := eexists; cbn; repeat (try (left; reflexivity); right).

(** X7.  A confirmation is printed exactly when the server accepted.  For
    every behaviour of the resolver and of the server, [delete_connection],
    [add_connection_role_assignemnt] and [create_dataflow] print their
    message if and only if they return; and they return only when the name
    resolved, the values passed the checks and the server answered the one
    request with the success code (200, 201 and 200). *)
Theorem confirmation_means_accepted
    (cenv : Connections.Env) (denv : Dataflows.Env)
    (connection_name email_address principal_type role : string)
    (dataflow_name mashup_document : string) (description workspace : option string) :
  let deletion := Connections.delete_connection cenv connection_name in
  let assignment :=
    Connections.add_connection_role_assignemnt cenv connection_name email_address
      principal_type role in
  let creation :=
    Dataflows.create_dataflow denv dataflow_name mashup_document description workspace in
  (Terms.printed (trace_of deletion) <-> result_of deletion = Ok tt)
  /\ (result_of deletion = Ok tt ->
      exists id r,
        Connections.resolve_connection_id cenv connection_name = Ok id
        /\ Connections.client cenv (Terms.delete_request id) = Ok r
        /\ status_code r = 200%Z)
  /\ (Terms.printed (trace_of assignment) <-> result_of assignment = Ok tt)
  /\ (result_of assignment = Ok tt ->
      exists id r,
        Connections.resolve_connection_id cenv connection_name = Ok id
        /\ Str.mem principal_type Connections.principal_types = true
        /\ Str.mem role Connections.connection_roles = true
        /\ Connections.client cenv
             (Spec.role_assignment_request id email_address principal_type role) = Ok r
        /\ status_code r = 201%Z)
  /\ (Terms.printed (trace_of creation) <-> result_of creation = Ok tt)
  /\ (result_of creation = Ok tt ->
      exists ws wsid r,
        Dataflows.resolve_workspace_name_and_id denv workspace = Ok (ws, wsid)
        /\ Dataflows.client denv
             (mkRequest POST ("/v1/workspaces/" ++ wsid ++ "/items")
                (AsJson (Dataflows.item_payload dataflow_name mashup_document
                           description))) = Ok r
        /\ status_code r = 200%Z).
Proof.
  cbv zeta. unfold Terms.printed, Terms.delete_request, Spec.role_assignment_request.
  unfold_run.
  unfold Connections.delete_connection, Connections.add_connection_role_assignemnt,
    Dataflows.create_dataflow, Connections.resolve.
  unfold_m. cbn [fst snd trace heap world0 app].
  split; [| split; [| split; [| split; [| split]]]].
  - destruct (Connections.resolve_connection_id cenv connection_name) as [id | e |];
      cbn [fst snd trace heap app];
      try (split; intros H; [no_print H | discriminate H]).
    destruct (Connections.client cenv _) as [r | e |]; cbn [fst snd trace heap app];
      try (split; intros H; [no_print H | discriminate H]).
    destruct (negb _); cbn [fst snd trace heap app];
      (split; intros H; [first [reflexivity | no_print H]
                        | first [discriminate H | has_print]]).
  - destruct (Connections.resolve_connection_id cenv connection_name) as [id | e |];
      cbn [fst snd trace heap app]; try discriminate.
    destruct (Connections.client cenv _) as [r | e |] eqn:Hr;
      cbn [fst snd trace heap app]; try discriminate.
    destruct (Z.eqb_spec (status_code r) 200) as [E | E]; cbn [negb fst snd];
      try discriminate.
    intros _. exists id, r. auto.
  - destruct (Connections.resolve_connection_id cenv connection_name) as [id | e |];
      cbn [fst snd trace heap app];
      try (split; intros H; [no_print H | discriminate H]).
    destruct (negb (Str.mem principal_type _)); cbn [fst snd trace heap app];
      try (split; intros H; [no_print H | discriminate H]).
    destruct (negb (Str.mem role _)); cbn [fst snd trace heap app];
      try (split; intros H; [no_print H | discriminate H]).
    destruct (Connections.client cenv _) as [r | e |]; cbn [fst snd trace heap app];
      try (split; intros H; [no_print H | discriminate H]).
    destruct (negb (Z.eqb _ _)); cbn [fst snd trace heap app];
      (split; intros H; [first [reflexivity | no_print H]
                        | first [discriminate H | has_print]]).
  - destruct (Connections.resolve_connection_id cenv connection_name) as [id | e |];
      cbn [fst snd trace heap app]; try discriminate.
    destruct (Str.mem principal_type _); cbn [negb fst snd trace heap app];
      try discriminate.
    destruct (Str.mem role _); cbn [negb fst snd trace heap app]; try discriminate.
    destruct (Connections.client cenv _) as [r | e |] eqn:Hr;
      cbn [fst snd trace heap app]; try discriminate.
    destruct (Z.eqb_spec (status_code r) 201) as [E | E]; cbn [negb fst snd];
      try discriminate.
    intros _. exists id, r. auto.
  - destruct (Dataflows.resolve_workspace_name_and_id denv workspace)
      as [[ws wsid] | e |]; cbn [fst snd trace heap app];
      try (split; intros H; [no_print H | discriminate H]).
    destruct (Dataflows.client denv _) as [r | e |]; cbn [fst snd trace heap app];
      try (split; intros H; [no_print H | discriminate H]).
    destruct (negb _); cbn [fst snd trace heap app];
      (split; intros H; [first [reflexivity | no_print H]
                        | first [discriminate H | has_print]]).
  - destruct (Dataflows.resolve_workspace_name_and_id denv workspace)
      as [[ws wsid] | e |]; cbn [fst snd trace heap app]; try discriminate.
    destruct (Dataflows.client denv _) as [r | e |] eqn:Hr;
      cbn [fst snd trace heap app]; try discriminate.
    destruct (Z.eqb_spec (status_code r) 200) as [E | E]; cbn [negb fst snd];
      try discriminate.
    intros _. exists ws, wsid, r. auto.
Qed.

End ConfirmationFacts.

(** ** The export to OneLake, beyond its failures *)

Module ExportFacts.
Import OneLake.

#[local] Arguments tmsl : simpl never.
#[local] Arguments exported_message : simpl never.
#[local] Arguments no_lakehouse_message : simpl never.
#[local] Arguments shortcut_request : simpl never.

(** The loop over the tables when every eligible table is served: it
    returns, having sent the request of each eligible table, in order. *)
Lemma shortcut_loop_served (env : Env) (dataset workspace workspace_id : string)
    (destination_lakehouse : option string)
    (destination_workspace dwsid dlhid source : string) (ts : list Table) :
  Terms.served env dwsid dlhid workspace_id source ts ->
  forall w : World, exists w',
    for_each ts
      (create_shortcut env dataset workspace workspace_id destination_lakehouse
         destination_workspace dwsid dlhid source) w
    = (Ok tt, w')
    /\ http_requests (trace w')
       = (http_requests (trace w)
          ++ Spec.shortcut_requests dwsid dlhid workspace_id source ts)%list
    /\ (forall e, In e (trace w) -> In e (trace w')).
Proof.
  induction ts as [| p ts IH]; intros Hserved w.
  - exists w. split; [reflexivity |]. unfold Spec.shortcut_requests. cbn.
    rewrite List.app_nil_r. split; [reflexivity | auto].
  - cbn [for_each]. unfold bind at 1. unfold create_shortcut at 1.
    assert (Hrest : Terms.served env dwsid dlhid workspace_id source ts).
    { intros q Hq. apply Hserved. now right. }
    destruct (eligible p) eqn:Hp.
    + destruct (Hserved p (or_introl eq_refl) Hp) as (rp & Hrp & Hst).
      unfold_m. cbn [fst snd trace heap]. rewrite Hrp. cbn [fst snd trace heap].
      rewrite Hst. cbn [Z.eqb Pos.eqb negb fst snd trace heap].
      match goal with
      | |- context [for_each _ _ ?w1] =>
          destruct (IH Hrest w1) as (w' & Hrun & Hreq & Hmono)
      end.
      exists w'. split; [exact Hrun |]. split.
      * rewrite Hreq. cbn [trace].
        rewrite !http_requests_app. cbn [http_requests flat_map app].
        unfold Spec.shortcut_requests. cbn [filter]. rewrite Hp. cbn [map].
        rewrite List.app_nil_r, <- !List.app_assoc. reflexivity.
      * intros e Hin. apply Hmono. cbn [trace]. apply in_or_app. left.
        apply in_or_app. now left.
    + unfold_m. destruct (IH Hrest w) as (w' & Hrun & Hreq & Hmono).
      exists w'. split; [exact Hrun |]. split; [| exact Hmono]. rewrite Hreq.
      unfold Spec.shortcut_requests. cbn [filter]. now rewrite Hp.
Qed.


Ltac step := cbn [fst snd trace heap world0 app].

(** X8.  The export completes.  With names that resolve and an export
    that answers: without [create_shortcuts] the call returns after the
    export and its confirmation, whatever destination lakehouse was named,
    and resolves no lakehouse, lists no item and sends no request; with
    [create_shortcuts] and a destination lakehouse, when the server
    creates every shortcut asked for, the call returns having sent one
    POST per eligible table, in the order of the tables, to the resolved
    destination, each naming the source workspace and the id of the first
    item that has the name of the dataset; a table with a calculation
    group, a system-managed table, a table with a partition that is not in
    import mode and a table without columns are passed over. *)
Theorem export_completes
    (env : Env) (dataset : string) (workspace destination_workspace : option string)
    (ws wsid dws dwsid dataset_id : string)
    (Hinit : init_analysis_services env = Ok tt)
    (Hws : resolve_workspace_name_and_id env workspace = Ok (ws, wsid))
    (Hdws : resolve_workspace_name_and_id env destination_workspace = Ok (dws, dwsid))
    (Hds : resolve_dataset_id env dataset ws = Ok dataset_id)
    (Htmsl : execute_tmsl env (tmsl dataset) ws = Ok tt) :
  let prefix := Spec.export_prefix (icons env) dataset workspace destination_workspace ws in
  (forall destination_lakehouse,
     let run := export_model_to_onelake env dataset workspace destination_lakehouse
                  destination_workspace false in
     result_of run = Ok tt /\ trace_of run = prefix)
  /\ (forall (lakehouse dlhid : string) (items : list ItemRow) (first : ItemRow)
             (others : list ItemRow) (tables : list Table),
        resolve_lakehouse_id env lakehouse dws = Ok dlhid ->
        list_items env ws "SemanticModel" = Ok items ->
        filter (fun i => String.eqb (display_name i) dataset) items = first :: others ->
        connect_semantic_model env dataset ws = Ok tables ->
        Terms.served env dwsid dlhid wsid (item_id first) tables ->
        let run := export_model_to_onelake env dataset workspace (Some lakehouse)
                     destination_workspace true in
        result_of run = Ok tt
        /\ http_requests (trace_of run)
           = Spec.shortcut_requests dwsid dlhid wsid (item_id first) tables).
Proof.
  cbv zeta. split.
  - intros destination_lakehouse. unfold_run.
    unfold export_model_to_onelake, call, resolve. unfold_m. step.
    rewrite Hinit. step. rewrite Hws. step. rewrite Hdws. step. rewrite Hds. step.
    rewrite Htmsl. step. split; reflexivity.
  - intros lakehouse dlhid items first others tables Hlh Hitems Hfirst Htables Hserved.
    unfold_run. unfold export_model_to_onelake, call, resolve.
    unfold bind, emit, lift, print, ret. step.
    rewrite Hinit. step. rewrite Hws. step. rewrite Hdws. step. rewrite Hds. step.
    rewrite Htmsl. step. rewrite Hlh. step. rewrite Hitems. step. rewrite Hfirst.
    step. unfold emit. step. rewrite Htables.
    match goal with
    | |- context [for_each _ _ ?w1] =>
        destruct (shortcut_loop_served env dataset ws wsid (Some lakehouse)
                    dws dwsid dlhid (item_id first) tables Hserved w1)
          as (w' & Hrun & Hreq & _)
    end.
    rewrite Hrun. step. split; [reflexivity |]. rewrite Hreq. reflexivity.
Qed.

Lemma export_completes_witness :
  result_of (export_model_to_onelake (Cases.lake false) "Sales" None (Some "Gold")
               None false) = Ok tt
  /\ trace_of (export_model_to_onelake (Cases.lake false) "Sales" None (Some "Gold")
                 None false)
     = Spec.export_prefix Sample.icons "Sales" None None "Home".
Proof.
  destruct (export_completes (Cases.lake false) "Sales" None None
              "Home" "<Home>" "Home" "<Home>" "<Sales>"
              eq_refl eq_refl eq_refl eq_refl eq_refl) as [Hplain _].
  exact (Hplain (Some "Gold")).
Defined.

(** In the sample model the table Measures has a calculation group: three
    shortcuts are asked for, and spaces are gone from their names. *)
Example shortcuts_of_the_sample_model :
  let run := export_model_to_onelake (Cases.lake true) "Sales" None (Some "Gold")
               None true in
  result_of run = Ok tt
  /\ map (fun q => Json.path ["name"] match sent q with AsJson j => j | _ => JNull end)
         (http_requests (trace_of run))
     = [Some (JStr "Orders"); Some (JStr "OrderLines"); Some (JStr "Customers")].
Proof. vm_compute. split; reflexivity. Qed.

(** X9.  The notebook's lakehouse as destination.  With [create_shortcuts]
    and no destination lakehouse named, and a lakehouse attached to the
    notebook: the shortcuts go to the lakehouse and the workspace of the
    notebook, as [get_lakehouse_id] and [get_workspace_id] answer.  The
    workspace given as [destination_workspace] is resolved, but its id
    appears in no request. *)
Theorem attached_lakehouse_is_the_destination
    (env : Env) (dataset : string) (workspace destination_workspace : option string)
    (ws wsid dws dwsid dataset_id notebook_lakehouse notebook_workspace : string)
    (items : list ItemRow) (first : ItemRow) (others : list ItemRow)
    (tables : list Table)
    (Hinit : init_analysis_services env = Ok tt)
    (Hws : resolve_workspace_name_and_id env workspace = Ok (ws, wsid))
    (Hdws : resolve_workspace_name_and_id env destination_workspace = Ok (dws, dwsid))
    (Hds : resolve_dataset_id env dataset ws = Ok dataset_id)
    (Htmsl : execute_tmsl env (tmsl dataset) ws = Ok tt)
    (Hattached : lakehouse_attached env = true)
    (Hlh : get_lakehouse_id env = Ok notebook_lakehouse)
    (Hnw : get_workspace_id env = Ok notebook_workspace)
    (Hitems : list_items env ws "SemanticModel" = Ok items)
    (Hfirst : filter (fun i => String.eqb (display_name i) dataset) items
              = first :: others)
    (Htables : connect_semantic_model env dataset ws = Ok tables)
    (Hserved : Terms.served env notebook_workspace notebook_lakehouse wsid
                 (item_id first) tables) :
  let run := export_model_to_onelake env dataset workspace None destination_workspace
               true in
  result_of run = Ok tt
  /\ http_requests (trace_of run)
     = Spec.shortcut_requests notebook_workspace notebook_lakehouse wsid
         (item_id first) tables
  /\ In (Resolve "resolve_workspace_name_and_id" (opt_arg destination_workspace))
        (trace_of run).
Proof.
  cbv zeta. unfold_run. unfold export_model_to_onelake, call, resolve.
  unfold bind, emit, lift, print, ret. step.
  rewrite Hinit. step. rewrite Hws. step. rewrite Hdws. step. rewrite Hds. step.
  rewrite Htmsl. step. rewrite Hattached. cbn [negb]. step.
  rewrite Hlh. step. rewrite Hnw. step. rewrite Hitems. step. rewrite Hfirst.
  step. unfold emit. step. rewrite Htables.
  match goal with
  | |- context [for_each _ _ ?w1] =>
      destruct (shortcut_loop_served env dataset ws wsid None
                  dws notebook_workspace notebook_lakehouse (item_id first) tables
                  Hserved w1)
        as (w' & Hrun & Hreq & Hmono)
  end.
  rewrite Hrun. step. split; [reflexivity |]. split; [rewrite Hreq; reflexivity |].
  apply Hmono. cbn [trace In]. auto.
Qed.

Lemma attached_lakehouse_is_the_destination_witness :
  http_requests
    (trace_of (export_model_to_onelake (Cases.lake true) "Sales" None None
                 (Some "Gold") true))
  = Spec.shortcut_requests "ws-1" "lh-1" "<Home>" "item-1" Sample.model_tables.
Proof.
  destruct (attached_lakehouse_is_the_destination (Cases.lake true) "Sales" None
              (Some "Gold") "Home" "<Home>" "Gold" "<Gold>" "<Sales>" "lh-1" "ws-1"
              [ mkItemRow "Budget" "item-0"; mkItemRow "Sales" "item-1" ]
              (mkItemRow "Sales" "item-1") [] Sample.model_tables
              eq_refl eq_refl eq_refl eq_refl eq_refl eq_refl eq_refl eq_refl eq_refl
              eq_refl eq_refl
              (fun p _ _ => ex_intro _ (mkResponse 201 JNull) (conj eq_refl eq_refl)))
    as (_ & Hreq & _).
  exact Hreq.
Defined.

(** X10.  A dataset that is not among the items.  With
    [create_shortcuts], when no SemanticModel item of the workspace has the
    name of the dataset, the read of the first id raises [IndexError]: by
    then the export has run and the destination lakehouse is resolved; no
    request is sent and the model is not opened. *)
Theorem export_without_source_item
    (env : Env) (dataset : string) (workspace destination_workspace : option string)
    (ws wsid dws dwsid dataset_id lakehouse dlhid : string) (items : list ItemRow)
    (Hinit : init_analysis_services env = Ok tt)
    (Hws : resolve_workspace_name_and_id env workspace = Ok (ws, wsid))
    (Hdws : resolve_workspace_name_and_id env destination_workspace = Ok (dws, dwsid))
    (Hds : resolve_dataset_id env dataset ws = Ok dataset_id)
    (Htmsl : execute_tmsl env (tmsl dataset) ws = Ok tt)
    (Hlh : resolve_lakehouse_id env lakehouse dws = Ok dlhid)
    (Hitems : list_items env ws "SemanticModel" = Ok items)
    (Hnone : forall i, In i items -> display_name i <> dataset) :
  let run := export_model_to_onelake env dataset workspace (Some lakehouse)
               destination_workspace true in
  result_of run = Raise (IndexError "single positional indexer is out-of-bounds")
  /\ trace_of run
     = (Spec.export_prefix (icons env) dataset workspace destination_workspace ws
        ++ Terms.source_lookup lakehouse dws ws)%list
  /\ http_requests (trace_of run) = [].
Proof.
  assert (Hfilter : filter (fun i => String.eqb (display_name i) dataset) items = []).
  { clear - Hnone. induction items as [| i items IH]; [reflexivity |].
    cbn [filter]. destruct (String.eqb_spec (display_name i) dataset) as [E | _].
    - exfalso. apply (Hnone i); [now left | exact E].
    - apply IH. intros j Hj. apply Hnone. now right. }
  cbv zeta. unfold_run. unfold export_model_to_onelake, call, resolve.
  unfold_m. step.
  rewrite Hinit. step. rewrite Hws. step. rewrite Hdws. step. rewrite Hds. step.
  rewrite Htmsl. step. rewrite Hlh. step. rewrite Hitems. step. rewrite Hfilter.
  step. repeat split.
Qed.

Lemma export_without_source_item_witness :
  result_of (export_model_to_onelake (Cases.lake true) "Forecast" None (Some "Gold")
               None true)
  = Raise (IndexError "single positional indexer is out-of-bounds").
Proof.
  destruct (export_without_source_item (Cases.lake true) "Forecast" None None
              "Home" "<Home>" "Home" "<Home>" "<Forecast>" "Gold" "<Gold>"
              [ mkItemRow "Budget" "item-0"; mkItemRow "Sales" "item-1" ]
              eq_refl eq_refl eq_refl eq_refl eq_refl eq_refl eq_refl)
    as (Hraise & _).
  - intros i [<- | [<- | []]]; discriminate.
  - exact Hraise.
Defined.

Ltac no_event H :=
  exfalso; cbn in H;
  repeat (destruct H as [H | H]; [discriminate H |]); exact H.

(** X11.  Nothing is written before the names resolve.  Whatever the
    collaborators answer: a TMSL script is executed only when the analysis
    services were initialised and the workspace, the destination workspace
    and the dataset all resolved (the destination workspace also when no
    shortcut is asked for); and a request is sent only when moreover
    [create_shortcuts] is set and the export answered. *)
Theorem export_only_after_resolution
    (env : Env) (dataset : string)
    (workspace destination_lakehouse destination_workspace : option string)
    (create_shortcuts : bool) :
  let run := export_model_to_onelake env dataset workspace destination_lakehouse
               destination_workspace create_shortcuts in
  (Terms.exported (trace_of run) ->
   Terms.names_resolved env dataset workspace destination_workspace)
  /\ (http_requests (trace_of run) <> [] ->
      create_shortcuts = true
      /\ Terms.names_resolved env dataset workspace destination_workspace
      /\ exists ws wsid,
           resolve_workspace_name_and_id env workspace = Ok (ws, wsid)
           /\ execute_tmsl env (tmsl dataset) ws = Ok tt).
Proof.
  cbv zeta. unfold Terms.exported, Terms.names_resolved. unfold_run.
  unfold export_model_to_onelake, call, resolve.
  unfold bind, emit, lift, print, ret, raise. step.
  destruct (init_analysis_services env) as [[] | e |]; step;
    try (split; [intros (s & w & H); no_event H | intros H; now contradiction H]).
  destruct (resolve_workspace_name_and_id env workspace) as [[ws wsid] | e |] eqn:Hws;
    step;
    try (split; [intros (s & w & H); no_event H | intros H; now contradiction H]).
  destruct (resolve_workspace_name_and_id env destination_workspace)
    as [[dws dwsid] | e |] eqn:Hdws; step;
    try (split; [intros (s & w & H); no_event H | intros H; now contradiction H]).
  destruct (resolve_dataset_id env dataset ws) as [dataset_id | e |] eqn:Hds; step;
    try (split; [intros (s & w & H); no_event H | intros H; now contradiction H]).
  assert (Hnames : Ok tt = Ok tt
                   /\ exists ws0 wsid0 dws0 dwsid0 dataset_id0,
                        Ok (ws, wsid) = Ok (ws0, wsid0)
                        /\ Ok (dws, dwsid) = Ok (dws0, dwsid0)
                        /\ resolve_dataset_id env dataset ws0 = Ok dataset_id0).
  { split; [reflexivity |]. exists ws, wsid, dws, dwsid, dataset_id. auto. }
  split; [intros _; exact Hnames |].
  destruct (execute_tmsl env (tmsl dataset) ws) as [[] | e |] eqn:Htmsl; step;
    try (intros H; now contradiction H).
  destruct create_shortcuts; [| step; intros H; now contradiction H].
  intros _. split; [reflexivity |]. split; [exact Hnames |].
  exists ws, wsid. auto.
Qed.

(** X12.  Shortcut names that collide.  The name of a shortcut is the name
    of the table without its spaces, its target path keeps them: two tables
    whose names differ only by a space ask for shortcuts of one name to
    different tables, and the name of a shortcut holds no space. *)
Theorem shortcut_names_collide (workspace_id source a b : string) :
  let spaced := shortcut_request_body workspace_id source (a ++ " " ++ b) in
  let joined := shortcut_request_body workspace_id source (a ++ b) in
  Json.path ["name"] spaced = Json.path ["name"] joined
  /\ Json.path ["target"; "oneLake"; "path"] spaced
     <> Json.path ["target"; "oneLake"; "path"] joined
  /\ Json.path ["name"] joined = Some (JStr (Str.remove_spaces (a ++ b)))
  /\ ~ In " "%char (list_ascii_of_string (Str.remove_spaces (a ++ b))).
Proof.
  cbv zeta.
  assert (Hrm : forall x y, Str.remove_spaces (x ++ y)
                            = Str.remove_spaces x ++ Str.remove_spaces y).
  { induction x as [| c x IH]; intros y; [reflexivity |].
    cbn. rewrite IH. now destruct (Ascii.eqb c " "). }
  assert (Hno : forall x, ~ In " "%char (list_ascii_of_string (Str.remove_spaces x))).
  { induction x as [| c x IH]; [intros [] |].
    cbn. destruct (Ascii.eqb_spec c " ") as [-> | Hne]; [exact IH |].
    cbn. intros [E | Hin]; [congruence | now apply IH]. }
  split; [| split; [| split]].
  - change (Some (JStr (Str.remove_spaces (a ++ " " ++ b)))
            = Some (JStr (Str.remove_spaces (a ++ b)))).
    rewrite (Hrm a (" " ++ b)), (Hrm a b). reflexivity.
  - change (Some (JStr ("Tables/" ++ (a ++ " " ++ b)))
            <> Some (JStr ("Tables/" ++ (a ++ b)))).
    intros E.
    assert (Hlen : String.length ("Tables/" ++ (a ++ " " ++ b))
                   = String.length ("Tables/" ++ (a ++ b))) by congruence.
    rewrite !StrFacts.length_append in Hlen. cbn [String.length] in Hlen. lia.
  - reflexivity.
  - apply Hno.
Qed.

End ExportFacts.

(** ** The bulk scan, workspace by workspace *)

Module ScanFacts.
Import VertipaqBulk.

#[local] Arguments Spec.after_run_id : simpl never.
#[local] Arguments Spec.prelude_trace : simpl never.

Lemma world_eta (w : World) : mkWorld (trace w ++ []) (heap w) = w.
Proof. destruct w. cbn. now rewrite List.app_nil_r. Qed.

(** The loop over the datasets of a workspace adds, for each dataset, its
    analyzer call and the report of its failure, and enters no workspace. *)
Lemma dataset_loop_trace (env : Env) (flag : bool) (runId : Z)
    (capacity_id capacity_name wksp wksp_id : string) (df : Frame) (ds : list DatasetRow) :
  (forall d, In d ds -> vertipaq_analyzer env (dataset_name d) wksp flag <> Diverge) ->
  forall w, exists added h,
    for_fold ds df
      (scan_dataset env flag runId capacity_id capacity_name wksp wksp_id) w
    = (Ok df, mkWorld (trace w ++ added) h)
    /\ filter Spec.is_analyzer_call added = Terms.analyzer_calls wksp ds
    /\ filter Terms.is_capacity_call added = [].
Proof.
  induction ds as [| d ds IH]; intros Hno w; cbn [for_fold].
  - exists [], (heap w). unfold ret. rewrite world_eta. repeat split.
  - unfold bind.
    destruct (BulkFacts.scan_dataset_turn env flag runId capacity_id capacity_name
                wksp wksp_id df d w (Hno d (or_introl eq_refl))) as (e & h & ->).
    destruct (IH (fun x Hx => Hno x (or_intror Hx))
                 (mkWorld (trace w ++ Spec.failed_turn (icons env) (dataset_name d) wksp e)
                          h))
      as (added & h' & Hrun & Hcalls & Hcap).
    exists (Spec.failed_turn (icons env) (dataset_name d) wksp e ++ added)%list, h'.
    split; [| split].
    + rewrite Hrun. cbn [trace]. now rewrite <- List.app_assoc.
    + rewrite filter_app, Hcalls. reflexivity.
    + rewrite filter_app, Hcap. reflexivity.
Qed.

(** A workspace with nothing to analyse is entered and left. *)
Lemma quiet_step (env : Env) (flag : bool) (runId : Z) (lh lw : string)
    (r : WorkspaceRow) :
  Terms.quiet env r ->
  forall w, exists added,
    scan_workspace env flag runId lh lw r w
    = (Ok tt, mkWorld (trace w ++ added) (heap w))
    /\ filter Spec.is_analyzer_call added = []
    /\ filter Terms.is_capacity_call added = Terms.capacity_calls [r].
Proof.
  intros ([capacity_id capacity_name] & dfD & Hcap & HdfD & Hnone) w.
  unfold scan_workspace, call. unfold_m. cbn [fst snd trace heap].
  rewrite Hcap. cbn [fst snd trace heap]. rewrite HdfD. cbn [fst snd trace heap].
  destruct Hnone as [-> | (dfI & HdfI & Hfilt)].
  - cbn [List.length Nat.ltb Nat.leb]. eexists. split.
    + rewrite <- List.app_assoc. reflexivity.
    + split; reflexivity.
  - destruct dfD as [| d dfD].
    + cbn [List.length Nat.ltb Nat.leb]. eexists. split.
      * rewrite <- List.app_assoc. reflexivity.
      * split; reflexivity.
    + cbn [List.length Nat.ltb Nat.leb fst snd trace heap]. rewrite HdfI.
      cbn [fst snd trace heap]. unfold Terms.to_analyse in Hfilt. rewrite Hfilt.
      cbn [List.length Nat.ltb Nat.leb]. eexists. split.
      * rewrite <- !List.app_assoc. reflexivity.
      * split; reflexivity.
Qed.

(** A workspace with datasets to analyse: each is handed to the analyzer,
    then the read of the column Severity ends the scan. *)
Lemma busy_step (env : Env) (flag : bool) (runId : Z) (lh lw : string)
    (r : WorkspaceRow) (ds : list DatasetRow) :
  Terms.busy env flag r ds ->
  forall w, exists added h,
    scan_workspace env flag runId lh lw r w
    = (Raise (KeyError "Severity"), mkWorld (trace w ++ added) h)
    /\ filter Spec.is_analyzer_call added = Terms.analyzer_calls (ws_name r) ds
    /\ filter Terms.is_capacity_call added = Terms.capacity_calls [r].
Proof.
  intros (Hsome & ([capacity_id capacity_name] & dfD & dfI & Hcap & HdfD & HdfI & Hfilt)
          & Hno) w.
  unfold Terms.to_analyse in Hfilt.
  assert (HD : Nat.ltb 0 (List.length dfD) = true).
  { destruct dfD; [| reflexivity]. cbn in Hfilt. congruence. }
  assert (HF : Nat.ltb 0 (List.length ds) = true).
  { destruct ds; [congruence | reflexivity]. }
  unfold scan_workspace, call. unfold bind at 1 2 3 4. unfold emit, lift.
  cbn [fst snd trace heap].
  rewrite Hcap. cbn [fst snd trace heap]. rewrite HdfD. cbn [fst snd trace heap].
  rewrite HD. unfold bind at 1 2. cbn [fst snd trace heap]. rewrite HdfI.
  cbn [fst snd trace heap]. rewrite Hfilt, HF. unfold bind at 1.
  match goal with
  | |- context [for_fold ds ?df ?body ?w1] =>
      destruct (dataset_loop_trace env flag runId capacity_id capacity_name
                  (ws_name r) (ws_id r) df ds Hno w1) as (added & h & Hrun & Hcalls & Hc)
  end.
  rewrite Hrun. cbn [trace].
  exists ([Call "resolve_workspace_capacity" [ws_name r];
           Call "list_datasets" [ws_name r];
           Call "list_items" [ws_name r]] ++ added)%list, h.
  split; [| split].
  - unfold save_workspace. unfold_m. cbn [fst snd trace heap Pd.replace_col Pd.get_col].
    rewrite <- !List.app_assoc. reflexivity.
  - rewrite filter_app, Hcalls. reflexivity.
  - rewrite filter_app, Hc. reflexivity.
Qed.

Lemma quiet_loop (env : Env) (flag : bool) (runId : Z) (lh lw : string)
    (rs : list WorkspaceRow) :
  Forall (Terms.quiet env) rs ->
  forall w, exists added,
    for_each rs (scan_workspace env flag runId lh lw) w
    = (Ok tt, mkWorld (trace w ++ added) (heap w))
    /\ filter Spec.is_analyzer_call added = []
    /\ filter Terms.is_capacity_call added = Terms.capacity_calls rs.
Proof.
  induction 1 as [| r rs Hr _ IH]; intros w; cbn [for_each].
  - exists []. unfold ret. rewrite world_eta. repeat split.
  - unfold bind.
    destruct (quiet_step env flag runId lh lw r Hr w) as (a1 & -> & Ha1 & Hc1).
    destruct (IH (mkWorld (trace w ++ a1) (heap w))) as (a2 & -> & Ha2 & Hc2).
    exists (a1 ++ a2)%list. cbn [trace heap]. split; [| split].
    + now rewrite <- List.app_assoc.
    + now rewrite filter_app, Ha1, Ha2.
    + rewrite filter_app, Hc1, Hc2. reflexivity.
Qed.

Lemma first_busy_loop (env : Env) (flag : bool) (runId : Z) (lh lw : string)
    (before : list WorkspaceRow) (r : WorkspaceRow) (later : list WorkspaceRow)
    (ds : list DatasetRow) :
  Forall (Terms.quiet env) before ->
  Terms.busy env flag r ds ->
  forall w, exists added h,
    for_each (before ++ r :: later) (scan_workspace env flag runId lh lw) w
    = (Raise (KeyError "Severity"), mkWorld (trace w ++ added) h)
    /\ filter Spec.is_analyzer_call added = Terms.analyzer_calls (ws_name r) ds
    /\ filter Terms.is_capacity_call added = Terms.capacity_calls (before ++ [r]).
Proof.
  intros Hq Hb. induction Hq as [| q before Hq _ IH]; intros w; cbn [app for_each].
  - unfold bind.
    destruct (busy_step env flag runId lh lw r ds Hb w) as (added & h & -> & Ha & Hc).
    exists added, h. auto.
  - unfold bind.
    destruct (quiet_step env flag runId lh lw q Hq w) as (a1 & -> & Ha1 & Hc1).
    destruct (IH (mkWorld (trace w ++ a1) (heap w))) as (a2 & h & -> & Ha2 & Hc2).
    exists (a1 ++ a2)%list, h. cbn [trace heap]. split; [| split].
    + now rewrite <- List.app_assoc.
    + now rewrite filter_app, Ha1, Ha2.
    + rewrite filter_app, Hc1, Hc2. reflexivity.
Qed.

(** The scan from the moment the run id is known. *)
Lemma after_prelude (env : Env) (workspace : workspace_arg) (flag : bool)
    (lw lid lh : string) (tables : list string) (maxRunId : Z)
    (dfW : list WorkspaceRow) :
  Terms.prelude_answers env lw lid lh tables ->
  (Str.mem lakeTName tables = true ->
   spark_max_run_id env (Spec.run_id_table lid) = Ok (Some maxRunId)) ->
  list_workspaces env = Ok dfW ->
  run (vertipaq_analyzer_bulk env workspace flag)
  = bind (for_each (filter_workspaces workspace dfW)
            (scan_workspace env flag (Spec.expected_run_id tables maxRunId) lh lw))
         (fun _ => print (green_dot (icons env) ++ " Bulk Vertipaq Analyzer scan complete."))
      (mkWorld (Spec.prelude_trace lh lw lid tables ++ [Call "list_workspaces" []]) []).
Proof.
  intros (Hatt & Hlw & Hlid & Hlh & Htables) Hmax HdfW. unfold run.
  rewrite (BulkFacts.bulk_run env workspace flag lw lid lh tables maxRunId)
    by assumption.
  unfold Spec.after_run_id, call. unfold bind at 1 2. unfold emit, lift.
  cbn [fst snd trace heap]. now rewrite HdfW.
Qed.

Lemma prelude_enters_nothing (lh lw lid : string) (tables : list string) :
  filter Terms.is_capacity_call (Spec.prelude_trace lh lw lid tables) = []
  /\ filter Spec.is_analyzer_call (Spec.prelude_trace lh lw lid tables) = [].
Proof.
  unfold Spec.prelude_trace. destruct (Str.mem lakeTName tables); split; reflexivity.
Qed.

(** X13.  The scan stops in its prelude.  Without a lakehouse attached to
    the notebook the scan raises its [ValueError] before it calls
    anything.  With a lakehouse whose results table exists but holds no
    row, the largest run id is [None] and adding one to it raises
    [TypeError]: the scan ends after the query, before it lists the
    workspaces. *)
Theorem scan_stops_in_prelude (env : Env) (workspace : workspace_arg) (flag : bool) :
  let scan := vertipaq_analyzer_bulk env workspace flag in
  (lakehouse_attached env = false ->
   result_of scan
   = Raise (ValueError (red_dot (icons env)
        ++ " No lakehouse is attached to this notebook. Must attach a lakehouse to the notebook."))
   /\ trace_of scan = [])
  /\ (forall lw lid lh tables,
        Terms.prelude_answers env lw lid lh tables ->
        Str.mem lakeTName tables = true ->
        spark_max_run_id env (Spec.run_id_table lid) = Ok None ->
        result_of scan
        = Raise (TypeError "unsupported operand type(s) for +: 'NoneType' and 'int'")
        /\ trace_of scan = Spec.prelude_trace lh lw lid tables).
Proof.
  cbv zeta. split.
  - intros Hatt. unfold_run. rewrite BulkFacts.bulk_unfold, Hatt. split; reflexivity.
  - intros lw lid lh tables (Hatt & Hlw & Hlid & Hlh & Htables) Hmem Hmax.
    unfold_run. rewrite BulkFacts.bulk_unfold, Hatt. cbn [negb].
    unfold call, determine_run_id, call. unfold_m. cbn [fst snd trace heap world0 app].
    rewrite Hlw, Hlid, Hlh. cbn [fst snd trace heap app]. rewrite Htables.
    cbn [fst snd trace heap app]. rewrite BulkFacts.table_absent, Hmem.
    cbn [negb fst snd trace heap app]. fold (Spec.run_id_table lid). rewrite Hmax.
    cbn [fst snd trace heap app]. unfold Spec.prelude_trace. rewrite Hmem.
    split; reflexivity.
Qed.

(** An empty results table at the sample tenant. *)
Example empty_results_table :
  result_of (vertipaq_analyzer_bulk
               (Cases.tenant ["vertipaq_analyzer_model"] None Cases.four_workspaces)
               AllWorkspaces false)
  = Raise (TypeError "unsupported operand type(s) for +: 'NoneType' and 'int'").
Proof. reflexivity. Qed.

(** X14.  A scan with nothing to analyse.  When the prelude answers and
    every workspace that passes the [workspace] argument answers and has
    no dataset, or none that passes the filter of the default models, the
    scan returns: it has entered each of these workspaces once, in the
    order of [list_workspaces], called the analyzer for no dataset, stored
    no frame, and its last act is the message that the scan is complete.
    A name in [workspace] that no workspace has passes nothing: the scan
    then enters no workspace and returns in the same way. *)
Theorem scan_with_nothing_to_analyse (env : Env) (workspace : workspace_arg) (flag : bool)
    (lw lid lh : string) (tables : list string) (maxRunId : Z) (dfW : list WorkspaceRow) :
  Terms.prelude_answers env lw lid lh tables ->
  (Str.mem lakeTName tables = true ->
   spark_max_run_id env (Spec.run_id_table lid) = Ok (Some maxRunId)) ->
  list_workspaces env = Ok dfW ->
  Forall (Terms.quiet env) (filter_workspaces workspace dfW) ->
  let scan := vertipaq_analyzer_bulk env workspace flag in
  result_of scan = Ok tt
  /\ (exists before, trace_of scan = (before ++ [Terms.scan_complete (icons env)])%list)
  /\ filter Terms.is_capacity_call (trace_of scan)
     = Terms.capacity_calls (filter_workspaces workspace dfW)
  /\ filter Spec.is_analyzer_call (trace_of scan) = []
  /\ heap_of scan = [].
Proof.
  intros Hpre Hmax HdfW Hquiet. cbv zeta. unfold_run.
  change (vertipaq_analyzer_bulk env workspace flag world0)
    with (run (vertipaq_analyzer_bulk env workspace flag)).
  rewrite (after_prelude env workspace flag lw lid lh tables maxRunId dfW Hpre Hmax HdfW).
  unfold bind.
  match goal with
  | |- context [for_each _ _ ?w1] =>
      destruct (quiet_loop env flag (Spec.expected_run_id tables maxRunId) lh lw
                  (filter_workspaces workspace dfW) Hquiet w1) as (added & -> & Ha & Hc)
  end.
  destruct (prelude_enters_nothing lh lw lid tables) as [Hpc Hpa].
  unfold print, emit, Terms.scan_complete. cbn [fst snd trace heap].
  split; [reflexivity |]. split; [eexists; reflexivity |].
  rewrite !filter_app, Hpc, Hpa, Ha, Hc.
  split; [| split]; [| reflexivity | reflexivity].
  cbn. apply List.app_nil_r.
Qed.

Lemma scan_with_nothing_to_analyse_witness :
  result_of (vertipaq_analyzer_bulk (Cases.tenant ["other"] None Cases.four_workspaces)
               (Workspaces ["Nowhere"; "Archive"]) false) = Ok tt
  /\ filter Terms.is_capacity_call
       (trace_of (vertipaq_analyzer_bulk
                    (Cases.tenant ["other"] None Cases.four_workspaces)
                    (Workspaces ["Nowhere"; "Archive"]) false))
     = [Call "resolve_workspace_capacity" ["Archive"]].
Proof.
  destruct (scan_with_nothing_to_analyse
              (Cases.tenant ["other"] None Cases.four_workspaces)
              (Workspaces ["Nowhere"; "Archive"]) false "Home" "lh-1" "Lake" ["other"]
              0 Cases.four_workspaces) as (Hok & _ & Hcalls & _).
  - repeat split.
  - discriminate.
  - reflexivity.
  - repeat constructor.
    exists ("cap-1", "Capacity"), [mkDatasetRow "ModelBPA" "ds-4" "system"].
    split; [reflexivity |]. split; [reflexivity |]. right.
    exists [mkItemRow "ModelBPA" "SemanticModel"]. split; reflexivity.
  - split; [exact Hok | exact Hcalls].
Defined.

(** X15.  The first workspace with a dataset to analyse ends the scan.
    When the prelude answers and, among the workspaces that pass the
    [workspace] argument, the first that has a dataset to analyse is [r]
    (the ones before it have none): every dataset of [r] that passes the
    filter is handed to the analyzer, in order, and then the scan raises
    [KeyError] for the column Severity.  The workspaces after [r] are
    never entered, whatever they hold. *)
Theorem first_busy_workspace_ends_scan
    (env : Env) (workspace : workspace_arg) (flag : bool)
    (lw lid lh : string) (tables : list string) (maxRunId : Z) (dfW : list WorkspaceRow)
    (before : list WorkspaceRow) (r : WorkspaceRow) (later : list WorkspaceRow)
    (ds : list DatasetRow) :
  Terms.prelude_answers env lw lid lh tables ->
  (Str.mem lakeTName tables = true ->
   spark_max_run_id env (Spec.run_id_table lid) = Ok (Some maxRunId)) ->
  list_workspaces env = Ok dfW ->
  filter_workspaces workspace dfW = (before ++ r :: later)%list ->
  Forall (Terms.quiet env) before ->
  Terms.busy env flag r ds ->
  let scan := vertipaq_analyzer_bulk env workspace flag in
  result_of scan = Raise (KeyError "Severity")
  /\ filter Terms.is_capacity_call (trace_of scan)
     = Terms.capacity_calls (before ++ [r])
  /\ filter Spec.is_analyzer_call (trace_of scan)
     = Terms.analyzer_calls (ws_name r) ds.
Proof.
  intros Hpre Hmax HdfW Hsplit Hquiet Hbusy. cbv zeta. unfold_run.
  change (vertipaq_analyzer_bulk env workspace flag world0)
    with (run (vertipaq_analyzer_bulk env workspace flag)).
  rewrite (after_prelude env workspace flag lw lid lh tables maxRunId dfW Hpre Hmax HdfW).
  rewrite Hsplit. unfold bind.
  match goal with
  | |- context [for_each _ _ ?w1] =>
      destruct (first_busy_loop env flag (Spec.expected_run_id tables maxRunId) lh lw
                  before r later ds Hquiet Hbusy w1) as (added & h & -> & Ha & Hc)
  end.
  destruct (prelude_enters_nothing lh lw lid tables) as [Hpc Hpa].
  cbn [fst snd trace heap]. split; [reflexivity |].
  rewrite !filter_app, Hpc, Hpa, Ha, Hc. split; reflexivity.
Qed.

Lemma first_busy_workspace_ends_scan_witness :
  result_of (vertipaq_analyzer_bulk (Cases.tenant ["other"] None Cases.four_workspaces)
               AllWorkspaces false)
  = Raise (KeyError "Severity")
  /\ filter Terms.is_capacity_call
       (trace_of (vertipaq_analyzer_bulk
                    (Cases.tenant ["other"] None Cases.four_workspaces)
                    AllWorkspaces false))
     = [ Call "resolve_workspace_capacity" ["Empty"];
         Call "resolve_workspace_capacity" ["Archive"];
         Call "resolve_workspace_capacity" ["Sales"] ].
Proof.
  destruct (first_busy_workspace_ends_scan
              (Cases.tenant ["other"] None Cases.four_workspaces) AllWorkspaces false
              "Home" "lh-1" "Lake" ["other"] 0 Cases.four_workspaces
              [ mkWorkspaceRow "Empty" "ws-0"; mkWorkspaceRow "Archive" "ws-2" ]
              (mkWorkspaceRow "Sales" "ws-1") [ mkWorkspaceRow "Later" "ws-3" ]
              [ mkDatasetRow "Revenue" "ds-1" "ann" ]) as (Hraise & Hcalls & _).
  - repeat split.
  - discriminate.
  - reflexivity.
  - reflexivity.
  - repeat constructor.
    + exists ("cap-1", "Capacity"), []. repeat split. now left.
    + exists ("cap-1", "Capacity"), [mkDatasetRow "ModelBPA" "ds-4" "system"].
      split; [reflexivity |]. split; [reflexivity |]. right.
      exists [mkItemRow "ModelBPA" "SemanticModel"]. split; reflexivity.
  - split; [discriminate |]. split.
    + exists ("cap-1", "Capacity"),
             [ mkDatasetRow "Revenue" "ds-1" "ann"; mkDatasetRow "Lake" "ds-3" "system" ],
             [ mkItemRow "Revenue" "SemanticModel"; mkItemRow "Lake" "Lakehouse";
               mkItemRow "Lake" "SemanticModel" ].
      repeat split.
    + intros d _. discriminate.
  - split; [exact Hraise | exact Hcalls].
Defined.

End ScanFacts.

(** ** The default models and the analyzer *)

Module ExclusionFacts.
Import VertipaqBulk.

(** C5.  The exclusion of the default models.  In the turn of the scan
    for a workspace whose capacity, datasets and items are answered: the
    datasets handed to the analyzer are, in the order of [list_datasets],
    exactly the datasets that are not excluded, where a dataset is
    excluded when (a) its display name is that of a semantic-model item
    and of a warehouse or lakehouse item of the workspace, or (b) its name
    is [icons.model_bpa_name]; a dataset whose name belongs to
    semantic-model items only, and is not that name, is handed to the
    analyzer.  In a whole scan whose prelude answers, when this workspace
    is the first that has a dataset to analyse, the analyzer calls of the
    scan are exactly these.  And in every scan, whatever the collaborators
    answer, the analyzer is called only for a dataset of the workspace
    named in the call that is not excluded there. *)
Theorem default_model_exclusion
    (env : Env) (flag : bool) (runId : Z) (lh lw : string) (r : WorkspaceRow)
    (cap : string * string) (dfD : list DatasetRow) (dfI : list ItemRow) (w : World)
    (Hcap : resolve_workspace_capacity env (ws_name r) = Ok cap)
    (HdfD : list_datasets env (ws_name r) = Ok dfD)
    (HdfI : list_items env (ws_name r) = Ok dfI)
    (Hno : forall d, In d dfD ->
             vertipaq_analyzer env (dataset_name d) (ws_name r) flag <> Diverge) :
  let excluded (items : list ItemRow) (name : string) :=
    Spec.shadow_model items name \/ name = model_bpa_name (icons env) in
  let analysis (d : DatasetRow) := Call "vertipaq_analyzer" [dataset_name d; ws_name r] in
  (exists added,
     trace (snd (scan_workspace env flag runId lh lw r w)) = (trace w ++ added)%list
     /\ filter Spec.is_analyzer_call added
        = map analysis
            (filter (fun d => negb (Str.mem (dataset_name d)
                                      (default_semantic_models dfI
                                       ++ [model_bpa_name (icons env)])))
                    dfD)
     /\ (forall d, In d dfD ->
           (In (analysis d) added <-> ~ excluded dfI (dataset_name d)))
     /\ (forall d, In d dfD ->
           (forall i, In i dfI -> display_name i = dataset_name d ->
                      item_type i = "SemanticModel") ->
           dataset_name d <> model_bpa_name (icons env) ->
           In (analysis d) added))
  /\ (forall (workspace : workspace_arg) (lakehouse_workspace lakehouse_id
               lakehouse : string) (tables : list string) (maxRunId : Z)
             (dfW before later : list WorkspaceRow),
        Terms.prelude_answers env lakehouse_workspace lakehouse_id lakehouse tables ->
        (Str.mem lakeTName tables = true ->
         spark_max_run_id env (Spec.run_id_table lakehouse_id) = Ok (Some maxRunId)) ->
        list_workspaces env = Ok dfW ->
        filter_workspaces workspace dfW = (before ++ r :: later)%list ->
        Forall (Terms.quiet env) before ->
        (exists d, In d dfD /\ ~ excluded dfI (dataset_name d)) ->
        filter Spec.is_analyzer_call (trace_of (vertipaq_analyzer_bulk env workspace flag))
        = map analysis
            (filter (fun d => negb (Str.mem (dataset_name d)
                                      (default_semantic_models dfI
                                       ++ [model_bpa_name (icons env)])))
                    dfD))
  /\ (forall workspace dataset wksp,
        In (Call "vertipaq_analyzer" [dataset; wksp])
           (trace_of (vertipaq_analyzer_bulk env workspace flag)) ->
        exists datasets items d,
          list_datasets env wksp = Ok datasets
          /\ list_items env wksp = Ok items
          /\ In d datasets /\ dataset_name d = dataset
          /\ ~ excluded items dataset).
Proof.
  cbv zeta. split; [| split].
  - assert (Hstep : exists added h o,
              scan_workspace env flag runId lh lw r w
              = (o, mkWorld (trace w ++ added) h)
              /\ filter Spec.is_analyzer_call added
                 = Terms.analyzer_calls (ws_name r) (dfD_filt (icons env) dfI dfD)).
    { destruct (dfD_filt (icons env) dfI dfD) as [| d0 ds] eqn:Hds.
      - destruct (ScanFacts.quiet_step env flag runId lh lw r) with (w := w)
          as (added & Hrun & Hcalls & _).
        + exists cap, dfD. split; [exact Hcap |]. split; [exact HdfD |]. right.
          exists dfI. split; [exact HdfI | exact Hds].
        + exists added, (heap w), (Ok tt). split; [exact Hrun | exact Hcalls].
      - destruct (ScanFacts.busy_step env flag runId lh lw r (d0 :: ds)) with (w := w)
          as (added & h & Hrun & Hcalls & _).
        + split; [discriminate |]. split.
          * exists cap, dfD, dfI. repeat split; assumption.
          * intros d Hd. apply Hno. rewrite <- Hds in Hd.
            unfold dfD_filt in Hd. apply filter_In in Hd. tauto.
        + exists added, h, (Raise (KeyError "Severity")).
          split; [exact Hrun | exact Hcalls]. }
    destruct Hstep as (added & h & o & Hrun & Hcalls).
    exists added. rewrite Hrun. cbn [snd trace]. split; [reflexivity |].
    split; [exact Hcalls |].
    assert (Hin : forall d, In d dfD ->
              (In (Call "vertipaq_analyzer" [dataset_name d; ws_name r]) added
               <-> In d (dfD_filt (icons env) dfI dfD))).
    { intros d Hd. split.
      - intros Hc.
        assert (Hf : In (Call "vertipaq_analyzer" [dataset_name d; ws_name r])
                        (filter Spec.is_analyzer_call added))
          by (apply filter_In; split; [exact Hc | reflexivity]).
        rewrite Hcalls in Hf. unfold Terms.analyzer_calls in Hf.
        apply in_map_iff in Hf. destruct Hf as (d' & E & Hd').
        injection E as E.
        apply (proj1 (BulkFacts.dfD_filt_spec (icons env) dfI dfD d')) in Hd'.
        destruct Hd' as [_ Hn]. rewrite E in Hn.
        apply (proj1 (BulkFacts.dfD_filt_spec (icons env) dfI dfD d)).
        split; assumption.
      - intros Hp.
        assert (Hf : In (Call "vertipaq_analyzer" [dataset_name d; ws_name r])
                        (filter Spec.is_analyzer_call added)).
        { rewrite Hcalls. unfold Terms.analyzer_calls. apply in_map_iff. eauto. }
        apply filter_In in Hf. tauto. }
    split.
    + intros d Hd. rewrite (Hin d Hd).
      rewrite (proj1 (BulkFacts.dfD_filt_spec (icons env) dfI dfD d)). tauto.
    + intros d Hd Honly Hname. apply (Hin d Hd).
      now apply (proj2 (BulkFacts.dfD_filt_spec (icons env) dfI dfD d)).
  - intros workspace lakehouse_workspace lakehouse_id lakehouse tables maxRunId
           dfW before later Hpre Hmax HdfW Hsplit Hquiet (d0 & Hd0 & Hn0).
    assert (Hbusy : Terms.busy env flag r (dfD_filt (icons env) dfI dfD)).
    { split; [| split].
      - intros Hnil.
        assert (Hin : In d0 (dfD_filt (icons env) dfI dfD))
          by (apply (proj1 (BulkFacts.dfD_filt_spec (icons env) dfI dfD d0)); tauto).
        rewrite Hnil in Hin. exact Hin.
      - exists cap, dfD, dfI. repeat split; assumption.
      - intros d Hd. apply Hno. unfold dfD_filt in Hd. apply filter_In in Hd. tauto. }
    unfold_run.
    change (vertipaq_analyzer_bulk env workspace flag world0)
      with (run (vertipaq_analyzer_bulk env workspace flag)).
    rewrite (ScanFacts.after_prelude env workspace flag lakehouse_workspace lakehouse_id
               lakehouse tables maxRunId dfW Hpre Hmax HdfW).
    rewrite Hsplit. unfold bind.
    match goal with
    | |- context [for_each _ _ ?w1] =>
        destruct (ScanFacts.first_busy_loop env flag
                    (Spec.expected_run_id tables maxRunId) lakehouse lakehouse_workspace
                    before r later _ Hquiet Hbusy w1) as (added & h & -> & Ha & _)
    end.
    destruct (ScanFacts.prelude_enters_nothing lakehouse lakehouse_workspace
                lakehouse_id tables) as [_ Hpa].
    cbn [fst snd trace heap]. rewrite !filter_app, Hpa, Ha. reflexivity.
  - intros workspace dataset wksp Hc.
    destruct (BulkFacts.bulk_analyzes_filtered env workspace flag dataset wksp Hc)
      as (datasets & items & d & Hds & His & Hd & E).
    exists datasets, items, d.
    apply (proj1 (BulkFacts.dfD_filt_spec (icons env) items datasets d)) in Hd.
    destruct Hd as [Hd Hn]. rewrite E in Hn. repeat split; assumption.
Qed.

Lemma default_model_exclusion_witness :
  (exists added,
     trace (snd (scan_workspace (Cases.tenant ["other"] None Cases.four_workspaces)
                   false 1 "Lake" "Home" (mkWorkspaceRow "Sales" "ws-1") world0))
     = ([] ++ added)%list
     /\ filter Spec.is_analyzer_call added
        = [Call "vertipaq_analyzer" ["Revenue"; "Sales"]])
  /\ filter Spec.is_analyzer_call
       (trace_of (vertipaq_analyzer_bulk
                    (Cases.tenant ["other"] None Cases.four_workspaces)
                    AllWorkspaces false))
     = [Call "vertipaq_analyzer" ["Revenue"; "Sales"]].
Proof.
  destruct (default_model_exclusion
              (Cases.tenant ["other"] None Cases.four_workspaces) false 1 "Lake" "Home"
              (mkWorkspaceRow "Sales" "ws-1") ("cap-1", "Capacity")
              [ mkDatasetRow "Revenue" "ds-1" "ann"; mkDatasetRow "Lake" "ds-3" "system" ]
              [ mkItemRow "Revenue" "SemanticModel"; mkItemRow "Lake" "Lakehouse";
                mkItemRow "Lake" "SemanticModel" ]
              world0 eq_refl eq_refl eq_refl)
    as [(added & Ht & Hcalls & _) [Hscan _]].
  - intros d _. discriminate.
  - split; [exists added; split; [exact Ht | exact Hcalls] |].
    apply (Hscan AllWorkspaces "Home" "lh-1" "Lake" ["other"] 0%Z Cases.four_workspaces
             [ mkWorkspaceRow "Empty" "ws-0"; mkWorkspaceRow "Archive" "ws-2" ]
             [ mkWorkspaceRow "Later" "ws-3" ]).
    + repeat split.
    + discriminate.
    + reflexivity.
    + reflexivity.
    + repeat constructor.
      * exists ("cap-1", "Capacity"), []. repeat split. now left.
      * exists ("cap-1", "Capacity"), [mkDatasetRow "ModelBPA" "ds-4" "system"].
        split; [reflexivity |]. split; [reflexivity |]. right.
        exists [mkItemRow "ModelBPA" "SemanticModel"]. split; reflexivity.
    + exists (mkDatasetRow "Revenue" "ds-1" "ann"). split; [now left |].
      intros [[_ (i & Hi & E & Ht')] | E]; [| discriminate E].
      destruct Hi as [<- | [<- | [<- | []]]]; cbn in E, Ht';
        try discriminate E; destruct Ht' as [Ht' | Ht']; discriminate Ht'.
Defined.

End ExclusionFacts.
